(** * Compliance analysis backend: repository, retrieval routes and sandboxed agent

    A shallow embedding of
      - [backend/src/db/client.ts]  (DatabaseClient),
      - [backend/src/db/repositories/analysis-repository.ts] (AnalysisRepository),
      - [backend/src/api/routes.ts] (the retrieval routes),
      - [backend/src/agent/e2b-agent.ts] (E2BAgent),
      - [backend/scripts/migrate.js] (the migration script),
    followed by the properties of the design document that concern them.

    Asynchronous methods are written in a state-and-exception monad: a
    promise that resolves is [Js.Resolved], one that rejects is
    [Js.Rejected]; [try]/[catch]/[finally] are combinators of that monad.
    PostgreSQL, the E2B service, [JSON.parse] and [uuidv4] are outside the
    repository; their behaviour is either a small explicit model
    ([Pg]) or a universally quantified oracle ([E2B.service]). *)

From Stdlib Require Import ZArith List String Ascii Bool Lia Arith.
From Stdlib Require Import Permutation DecimalString DecimalPos.
Import ListNotations.

Local Open Scope string_scope.
Local Open Scope list_scope.

(* ================================================================== *)
(** ** JavaScript values, promises and control flow                    *)
(* ================================================================== *)

Module Js.

(** A thrown [Error]; errors raised by the [pg] driver carry the
    SQLSTATE in [code]. *)
Record Error := mkError { code : option string; message : string }.

(** The two ways an awaited promise settles. *)
Inductive outcome (A : Type) : Type :=
| Resolved (a : A)
| Rejected (e : Error).
Arguments Resolved {A} a.
Arguments Rejected {A} e.

(** An optional property [p?: T].  The static type only admits
    [undefined], but values read back from the database are [null]. *)
Inductive optional (A : Type) : Type :=
| undefined
| null
| value (a : A).
Arguments undefined {A}.
Arguments null {A}.
Arguments value {A} a.

(** A column value as the [pg] driver hands it over, typed [any] or
    [unknown] in the source: enough of JavaScript's values for the
    statistics row.  Its numbers are those of columns cast to INTEGER,
    so integers within the range of that type. *)
Inductive any : Type :=
| AUndefined
| ANull
| ANaN
| ANumber (z : Z)
| AString (s : string).

(** Truthiness of numbers and strings, as used by [x || y]. *)
Definition truthy_number (z : Z) : bool := negb (z =? 0)%Z.
Definition truthy_string (s : string) : bool := negb (s =? "").

(** [String(n)] for an integer below 1e21 in size, which is printed with
    all its digits. *)
Definition String_of_number (z : Z) : string :=
  NilZero.string_of_int (Z.to_int z).

Definition String_of_nat (n : nat) : string :=
  String_of_number (Z.of_nat n).

(** The numbers [parseInt] returns, NaN apart: an integer that is a
    double, or an infinity. *)
Inductive integral :=
| Int (z : Z)
| Infinity (negative : bool).



(** [haystack.includes(needle)]: the needle starts at some position. *)
Fixpoint includes (needle haystack : string) : bool :=
  if prefix needle haystack then true
  else match haystack with
       | EmptyString => false
       | String _ rest => includes needle rest
       end.

End Js.

(** The monad of asynchronous methods over a mutable world [W]. *)
Module Async.

Definition t (W A : Type) : Type := W -> Js.outcome A * W.

Definition ret {W A} (a : A) : t W A := fun w => (Js.Resolved a, w).

Definition throw {W A} (e : Js.Error) : t W A := fun w => (Js.Rejected e, w).

Definition bind {W A B} (m : t W A) (k : A -> t W B) : t W B :=
  fun w =>
    match m w with
    | (Js.Resolved a, w') => k a w'
    | (Js.Rejected e, w') => (Js.Rejected e, w')
    end.

(** [try { body } catch (error) { handler error }] *)
Definition try_catch {W A} (body : t W A) (handler : Js.Error -> t W A) : t W A :=
  fun w =>
    match body w with
    | (Js.Resolved a, w') => (Js.Resolved a, w')
    | (Js.Rejected e, w') => handler e w'
    end.

(** [try { body } finally { fin }]: [fin] runs on every exit path and
    an exception of [fin] replaces the completion of [body]. *)
Definition try_finally {W A} (body : t W A) (fin : t W unit) : t W A :=
  fun w =>
    match body w with
    | (r, w') =>
        match fin w' with
        | (Js.Resolved _, w'') => (r, w'')
        | (Js.Rejected e, w'') => (Js.Rejected e, w'')
        end
    end.

Definition get {W} : t W W := fun w => (Js.Resolved w, w).
Definition modify {W} (f : W -> W) : t W unit := fun w => (Js.Resolved tt, f w).

(** [for (const x of xs) { await body x }] *)
Fixpoint for_of {W A} (xs : list A) (body : A -> t W unit) : t W unit :=
  match xs with
  | [] => ret tt
  | x :: xs' => bind (body x) (fun _ => for_of xs' body)
  end.

(** [xs.map(x => f x)] with a callback that may throw: the callback is
    applied in index order and the first exception ends the map. *)
Fixpoint all_map {W A B} (f : A -> t W B) (xs : list A) : t W (list B) :=
  match xs with
  | [] => ret []
  | x :: xs' =>
      bind (f x) (fun y => bind (all_map f xs') (fun ys => ret (y :: ys)))
  end.

(** [Promise.all(xs.map(async x => f x))]: every callback is started, in
    index order, and runs to its end whether or not another one fails;
    the whole resolves with the results in index order or rejects with
    the first failure.  The round trips of the callbacks are taken to be
    answered in the order they were issued. *)
Fixpoint promise_all {W A B} (f : A -> t W B) (xs : list A) : t W (list B) :=
  match xs with
  | [] => ret []
  | x :: xs' =>
      fun w =>
        let (r, w1) := f x w in
        let (rs, w2) := promise_all f xs' w1 in
        (match r, rs with
         | Js.Resolved y, Js.Resolved ys => Js.Resolved (y :: ys)
         | Js.Rejected e, _ => Js.Rejected e
         | Js.Resolved _, Js.Rejected e => Js.Rejected e
         end, w2)
  end.

Definition when {W} (b : bool) (m : t W unit) : t W unit :=
  if b then m else ret tt.

End Async.

Declare Scope async_scope.
Delimit Scope async_scope with async.
Notation "x <- m ;; k" := (Async.bind m (fun x => k))
  (at level 100, m at next level, right associativity) : async_scope.
Notation "m ;;; k" := (Async.bind m (fun _ => k))
  (at level 100, right associativity) : async_scope.

(** The [winston] logger: every call appends one entry. *)
Module Logger.
Inductive level := error | warn | info | debug.
Record entry := mkEntry { lvl : level; text : string; detail : option Js.Error }.
Definition t := list entry.
Definition write (l : level) (msg : string) (d : option Js.Error) (log : t) : t :=
  log ++ [mkEntry l msg d].
Definition errors (log : t) : list entry :=
  filter (fun e => match lvl e with error => true | _ => false end) log.
End Logger.

(* ================================================================== *)
(** ** Data model ([backend/src/types])                                *)
(* ================================================================== *)

Module FindingType.
Inductive t := security | license | quality | custom.
End FindingType.

Module Severity.
Inductive t := critical | high | medium | low | info.
Definition eqb (a b : t) : bool :=
  match a, b with
  | critical, critical | high, high | medium, medium | low, low | info, info => true
  | _, _ => false
  end.
(** The design document's order, critical > high > medium > low > info,
    as a position: smaller is more severe. *)
Definition position (s : t) : nat :=
  match s with critical => 0 | high => 1 | medium => 2 | low => 3 | info => 4 end.
End Severity.

Module Status.
Inductive t := pending | analyzing | completed | failed.
Definition eqb (a b : t) : bool :=
  match a, b with
  | pending, pending | analyzing, analyzing | completed, completed | failed, failed => true
  | _, _ => false
  end.
End Status.

Module ComplianceFinding.
Record t := mk {
  id : string;
  type : FindingType.t;
  severity : Severity.t;
  message : string;
  file : string;
  line : Js.optional Z;
  column : Js.optional Z;
  code : Js.optional string;
  fixSuggestion : Js.optional string;
  ruleId : string;
  ruleName : string
}.
End ComplianceFinding.

Module Stats.
Record t := mk {
  totalFiles : Z;
  totalFindings : Z;
  critical : Z;
  high : Z;
  medium : Z;
  low : Z;
  info : Z
}.
End Stats.

Module AnalysisResult.
Record t := mk {
  id : string;
  prNumber : Z;
  repoFullName : string;
  status : Status.t;
  findings : list ComplianceFinding.t;
  analyzedAt : Z;            (* a Date, as epoch milliseconds *)
  duration : Z;
  stats : Stats.t
}.
End AnalysisResult.

(* ================================================================== *)
(** ** The PostgreSQL store                                            *)
(* ================================================================== *)

Module AnalysisRow.
Record t := mk {
  id : string;
  pr_number : Z;
  repo_full_name : string;
  status : Status.t;
  analyzed_at : Z;
  duration : Z;
  total_files : Z;
  total_findings : Z;
  critical_count : Z;
  high_count : Z;
  medium_count : Z;
  low_count : Z;
  info_count : Z
}.
End AnalysisRow.

Module FindingRow.
(** [None] is SQL NULL. *)
Record t := mk {
  id : string;
  analysis_id : string;
  type : FindingType.t;
  severity : Severity.t;
  message : string;
  file : string;
  line : option Z;
  column : option Z;
  code : option string;
  fix_suggestion : option string;
  rule_id : string;
  rule_name : string
}.
End FindingRow.

Module StatsRow.
(** The single row of the aggregate query of [getStats]; also the shape
    of its [defaultStats]. *)
Record t := mk {
  total_analyses : Js.any;
  total_findings : Js.any;
  total_critical : Js.any;
  total_high : Js.any;
  total_medium : Js.any;
  total_low : Js.any;
  total_info : Js.any;
  avg_duration : Js.any
}.
End StatsRow.

(** The server side of the two tables, as far as the repository relies on
    it.  One client is leased at a time and nobody else writes, so a
    transaction is a private copy of the tables that COMMIT publishes.
    The schema file ([backend/src/db/schema.sql]) is not among the
    sources; what is needed of it is either taken from the design
    document or left as a parameter of the section. *)
Module Pg.

Record tables := mkTables {
  analyses : list AnalysisRow.t;
  findings : list FindingRow.t
}.

Definition empty : tables := mkTables [] [].

(** State of the transaction on the leased client connection. *)
Inductive txn :=
| Idle                      (* autocommit, no block open *)
| Open (work : tables)      (* inside BEGIN ... with uncommitted work *)
| Aborted.                  (* a statement of the block failed *)

(** [faults] scripts the failures that come from outside the data
    (connection refused, time-out, ...): the n-th round trip to the
    server fails with the n-th entry when that is [Some e]. *)
Record server := mkServer {
  provisioned : bool;       (* have the migrations created the tables? *)
  committed : tables;
  session : txn;
  faults : list (option Js.Error)
}.

Inductive conn := Pooled | Client.

Inductive statement :=
| Begin
| Commit
| Rollback
| InsertAnalysis (r : AnalysisRow.t)
| InsertFinding (r : FindingRow.t)
| SelectAnalysisById (id : string)
| SelectFindingsOrdered (analysis_id : string)
| SelectFindings (analysis_id : string)
| SelectRecent (limit : Js.integral)
| SelectByRepo (repo : string) (limit : Js.integral)
| SelectStats
| SelectOne.

(** [QueryResult.rows] *)
Inductive rows :=
| NoRows
| Analyses (l : list AnalysisRow.t)
| Findings (l : list FindingRow.t)
| StatsRows (l : list StatsRow.t).

(** The errors of the server, each with its SQLSTATE; the messages are
    abridged. *)
Definition undefined_table : Js.Error :=
  Js.mkError (Some "42P01") "relation does not exist".
Definition unique_violation : Js.Error :=
  Js.mkError (Some "23505") "duplicate key value violates unique constraint".
Definition foreign_key_violation : Js.Error :=
  Js.mkError (Some "23503") "insert violates foreign key constraint".
Definition in_failed_sql_transaction : Js.Error :=
  Js.mkError (Some "25P02") "current transaction is aborted".
Definition invalid_row_count_in_limit_clause : Js.Error :=
  Js.mkError (Some "2201W") "LIMIT must not be negative".
Definition numeric_value_out_of_range : Js.Error :=
  Js.mkError (Some "22003") "value out of range".
Definition invalid_text_representation : Js.Error :=
  Js.mkError (Some "22P02") "invalid input syntax for type bigint".
Definition syntax_error (word : string) : Js.Error :=
  Js.mkError (Some "42601") ("syntax error at or near " ++ word).

(** The key words PostgreSQL reserves: none of them names a table or a
    column unless it is written in double quotes. *)
Definition reserved_key_words : list string :=
  ["all"; "analyse"; "analyze"; "and"; "any"; "array"; "as"; "asc"; "asymmetric";
   "authorization"; "binary"; "both"; "case"; "cast"; "check"; "collate";
   "collation"; "column"; "concurrently"; "constraint"; "create"; "cross";
   "current_catalog"; "current_date"; "current_role"; "current_schema";
   "current_time"; "current_timestamp"; "current_user"; "default"; "deferrable";
   "desc"; "distinct"; "do"; "else"; "end"; "except"; "false"; "fetch"; "for";
   "foreign"; "freeze"; "from"; "full"; "grant"; "group"; "having"; "ilike";
   "in"; "initially"; "inner"; "intersect"; "into"; "is"; "isnull"; "join";
   "lateral"; "leading"; "left"; "like"; "limit"; "localtime"; "localtimestamp";
   "natural"; "not"; "notnull"; "null"; "offset"; "on"; "only"; "or"; "order";
   "outer"; "overlaps"; "placing"; "primary"; "references"; "returning";
   "right"; "select"; "session_user"; "similar"; "some"; "symmetric";
   "system_user"; "table"; "tablesample"; "then"; "to"; "trailing"; "true";
   "union"; "unique"; "user"; "using"; "variadic"; "verbose"; "when"; "where";
   "window"; "with"].

Definition reserved (name : string) : bool :=
  existsb (String.eqb name) reserved_key_words.

(** The table and column names that the text of a statement writes
    without quotes, in the order of the text. *)
Definition bare_names (st : statement) : list string :=
  match st with
  | Begin | Commit | Rollback | SelectOne => []
  | InsertAnalysis _ =>
      ["analyses"; "id"; "pr_number"; "repo_full_name"; "status"; "analyzed_at";
       "duration"; "total_files"; "total_findings"; "critical_count"; "high_count";
       "medium_count"; "low_count"; "info_count"]
  | InsertFinding _ =>
      ["findings"; "id"; "analysis_id"; "type"; "severity"; "message"; "file";
       "line"; "column"; "code"; "fix_suggestion"; "rule_id"; "rule_name"]
  | SelectAnalysisById _ => ["analyses"; "id"]
  | SelectFindingsOrdered _ => ["findings"; "analysis_id"; "severity"; "file"; "line"]
  | SelectFindings _ => ["findings"; "analysis_id"]
  | SelectRecent _ => ["analyses"; "analyzed_at"]
  | SelectByRepo _ _ => ["analyses"; "repo_full_name"; "analyzed_at"]
  | SelectStats =>
      ["total_findings"; "critical_count"; "high_count"; "medium_count"; "low_count";
       "info_count"; "duration"; "analyses"; "status"]
  end.

(** What the parser makes of a statement: the first reserved word that
    stands where a name is expected is a syntax error, whatever the
    schema. *)
Definition parse (st : statement) : option Js.Error :=
  option_map syntax_error (find reserved (bare_names st)).

Definition has_analysis (id : string) (t : tables) : bool :=
  existsb (fun r => AnalysisRow.id r =? id) (analyses t).

Definition has_finding (id : string) (t : tables) : bool :=
  existsb (fun r => FindingRow.id r =? id) (findings t).

(** Modelled from the spec: the constraints of the missing schema, "one
    row per analysis (keyed by id) ... one row per finding (keyed by id,
    foreign-keyed to analysis id)". *)
Definition insert_analysis (r : AnalysisRow.t) (t : tables) : Js.outcome tables :=
  if has_analysis (AnalysisRow.id r) t then Js.Rejected unique_violation
  else Js.Resolved (mkTables (analyses t ++ [r]) (findings t)).

Definition insert_finding (r : FindingRow.t) (t : tables) : Js.outcome tables :=
  if has_finding (FindingRow.id r) t then Js.Rejected unique_violation
  else if has_analysis (FindingRow.analysis_id r) t
       then Js.Resolved (mkTables (analyses t) (findings t ++ [r]))
       else Js.Rejected foreign_key_violation.

(** [ORDER BY]: a stable sort by a total preorder. *)
Fixpoint insert_by {A} (le : A -> A -> bool) (x : A) (l : list A) : list A :=
  match l with
  | [] => [x]
  | y :: l' => if le x y then x :: l else y :: insert_by le x l'
  end.

Definition order_by {A} (le : A -> A -> bool) (l : list A) : list A :=
  fold_right (insert_by le) [] l.

(** Ascending order of a nullable integer column: NULLs come last. *)
Definition nulls_last_le (a b : option Z) : bool :=
  match a, b with
  | Some x, Some y => (x <=? y)%Z
  | Some _, None => true
  | None, Some _ => false
  | None, None => true
  end.

Section Schema.

(** The sort position of a [severity] value under ascending
    [ORDER BY severity]: it depends on how the missing schema declares
    the column (text sorts alphabetically, an enumerated type in
    declaration order). *)
Variable severity_rank : Severity.t -> nat.

(** The text the server returns for [AVG(duration)::NUMERIC] over a
    non-empty set of rows. *)
Variable numeric_avg : list Z -> string.

(** [ORDER BY severity, file, line] *)
Definition findings_le (a b : FindingRow.t) : bool :=
  match Nat.compare (severity_rank (FindingRow.severity a))
                    (severity_rank (FindingRow.severity b)) with
  | Lt => true
  | Gt => false
  | Eq =>
      match String.compare (FindingRow.file a) (FindingRow.file b) with
      | Lt => true
      | Gt => false
      | Eq => nulls_last_le (FindingRow.line a) (FindingRow.line b)
      end
  end.

(** [ORDER BY analyzed_at DESC] *)
Definition recent_le (a b : AnalysisRow.t) : bool :=
  (AnalysisRow.analyzed_at b <=? AnalysisRow.analyzed_at a)%Z.

Definition sum (f : AnalysisRow.t -> Z) (l : list AnalysisRow.t) : Z :=
  fold_right (fun r acc => (f r + acc)%Z) 0%Z l.

(** The range of the type INTEGER. *)
Definition int4 (z : Z) : bool := (- 2 ^ 31 <=? z)%Z && (z <? 2 ^ 31)%Z.

(** The totals of [getStats] before their casts, in the order of the
    query. *)
Definition totals (done : list AnalysisRow.t) : list Z :=
  [Z.of_nat (List.length done);
   sum AnalysisRow.total_findings done;
   sum AnalysisRow.critical_count done;
   sum AnalysisRow.high_count done;
   sum AnalysisRow.medium_count done;
   sum AnalysisRow.low_count done;
   sum AnalysisRow.info_count done].

(** The aggregate of [getStats]: one row, whatever the table holds.
    [COUNT]/[SUM] cast to INTEGER arrive as numbers, and a total
    outside the range of INTEGER fails the query; the NUMERIC average
    arrives as text; [COALESCE] turns the NULL of an empty set into 0. *)
Definition stats_row (t : tables) : Js.outcome StatsRow.t :=
  let done :=
    filter (fun r => Status.eqb (AnalysisRow.status r) Status.completed) (analyses t) in
  if forallb int4 (totals done)
  then
    Js.Resolved
      (StatsRow.mk
         (Js.ANumber (Z.of_nat (List.length done)))
         (Js.ANumber (sum AnalysisRow.total_findings done))
         (Js.ANumber (sum AnalysisRow.critical_count done))
         (Js.ANumber (sum AnalysisRow.high_count done))
         (Js.ANumber (sum AnalysisRow.medium_count done))
         (Js.ANumber (sum AnalysisRow.low_count done))
         (Js.ANumber (sum AnalysisRow.info_count done))
         (Js.AString (match done with
                      | [] => "0"
                      | _ => numeric_avg (map AnalysisRow.duration done)
                      end)))
  else Js.Rejected numeric_value_out_of_range.

(** [LIMIT $n]: the driver sends the text of the number, [String(limit)],
    which the server reads as a [bigint].  From 1e21 on, and for an
    infinity, the text is not a sequence of digits; a number outside the
    range of [bigint] is refused, and so is a negative row count. *)
Definition limited (limit : Js.integral) (l : list AnalysisRow.t) : Js.outcome rows :=
  match limit with
  | Js.Infinity _ => Js.Rejected invalid_text_representation
  | Js.Int z =>
      if (10 ^ 21 <=? Z.abs z)%Z then Js.Rejected invalid_text_representation
      else if ((z <? - 2 ^ 63) || (2 ^ 63 <=? z))%Z
      then Js.Rejected numeric_value_out_of_range
      else if (z <? 0)%Z then Js.Rejected invalid_row_count_in_limit_clause
      else Js.Resolved (Analyses (firstn (Z.to_nat z) l))
  end.

(** What a read-only statement returns on the tables [t] it sees. *)
Definition select (st : statement) (t : tables) : Js.outcome rows :=
  match st with
  | SelectAnalysisById id =>
      Js.Resolved (Analyses (filter (fun r => AnalysisRow.id r =? id) (analyses t)))
  | SelectFindingsOrdered aid =>
      Js.Resolved (Findings (order_by findings_le
        (filter (fun r => FindingRow.analysis_id r =? aid) (findings t))))
  | SelectFindings aid =>
      (* no ORDER BY: rows come in storage order *)
      Js.Resolved (Findings (filter (fun r => FindingRow.analysis_id r =? aid) (findings t)))
  | SelectRecent limit =>
      limited limit (order_by recent_le (analyses t))
  | SelectByRepo repo limit =>
      limited limit (order_by recent_le
        (filter (fun r => AnalysisRow.repo_full_name r =? repo) (analyses t)))
  | SelectStats =>
      match stats_row t with
      | Js.Resolved row => Js.Resolved (StatsRows [row])
      | Js.Rejected e => Js.Rejected e
      end
  | _ => Js.Resolved NoRows
  end.

(** What an insertion that the server has parsed does to the tables. *)
Definition insertion (st : statement) : option (tables -> Js.outcome tables) :=
  match st with
  | InsertAnalysis r => Some (insert_analysis r)
  | InsertFinding r => Some (insert_finding r)
  | _ => None
  end.

Definition touches_tables (st : statement) : bool :=
  match st with
  | Begin | Commit | Rollback | SelectOne => false
  | _ => true
  end.

Definition set_session (x : txn) (s : server) : server :=
  mkServer (provisioned s) (committed s) x (faults s).

Definition set_committed (t : tables) (s : server) : server :=
  mkServer (provisioned s) t (session s) (faults s).

(** An error inside a transaction block aborts the block. *)
Definition fail (c : conn) (e : Js.Error) (s : server) : Js.outcome rows * server :=
  match c, session s with
  | Client, Open _ => (Js.Rejected e, set_session Aborted s)
  | _, _ => (Js.Rejected e, s)
  end.

(** A statement that reaches a provisioned, reachable server.  Pooled
    statements run in autocommit mode on the committed tables; the
    leased client sees its own uncommitted work. *)
Definition run (c : conn) (st : statement) (s : server) : Js.outcome rows * server :=
  match c with
  | Pooled =>
      match insertion st with
      | Some ins =>
          match ins (committed s) with
          | Js.Resolved t' => (Js.Resolved NoRows, set_committed t' s)
          | Js.Rejected e => (Js.Rejected e, s)
          end
      | None =>
          match select st (committed s) with
          | Js.Resolved r => (Js.Resolved r, s)
          | Js.Rejected e => (Js.Rejected e, s)
          end
      end
  | Client =>
      match st, session s with
      | Begin, Idle => (Js.Resolved NoRows, set_session (Open (committed s)) s)
      | Begin, Open _ => (Js.Resolved NoRows, s)
      | Begin, Aborted => (Js.Rejected in_failed_sql_transaction, s)
      | Commit, Open work => (Js.Resolved NoRows, set_session Idle (set_committed work s))
      | Commit, _ => (Js.Resolved NoRows, set_session Idle s)
      | Rollback, _ => (Js.Resolved NoRows, set_session Idle s)
      | _, Aborted => (Js.Rejected in_failed_sql_transaction, s)
      | _, Open work =>
          match insertion st with
          | Some ins =>
              match ins work with
              | Js.Resolved t' => (Js.Resolved NoRows, set_session (Open t') s)
              | Js.Rejected e => fail Client e s
              end
          | None =>
              match select st work with
              | Js.Resolved r => (Js.Resolved r, s)
              | Js.Rejected e => fail Client e s
              end
          end
      | _, Idle =>
          match insertion st with
          | Some ins =>
              match ins (committed s) with
              | Js.Resolved t' => (Js.Resolved NoRows, set_committed t' s)
              | Js.Rejected e => (Js.Rejected e, s)
              end
          | None =>
              match select st (committed s) with
              | Js.Resolved r => (Js.Resolved r, s)
              | Js.Rejected e => (Js.Rejected e, s)
              end
          end
      end
  end.

Definition take_fault (s : server) : option Js.Error * server :=
  match faults s with
  | [] => (None, s)
  | f :: rest => (f, mkServer (provisioned s) (committed s) (session s) rest)
  end.

(** One round trip: [pool.query] or [client.query].  A round trip that
    fails from outside was not executed: in particular a COMMIT that
    is answered with an error did not commit.  A statement that reaches
    the server is parsed before its tables are looked up. *)
Definition exec (c : conn) (st : statement) (s : server) : Js.outcome rows * server :=
  let (f, s1) := take_fault s in
  match f with
  | Some e => fail c e s1
  | None =>
      match parse st with
      | Some e => fail c e s1
      | None =>
          if touches_tables st && negb (provisioned s1)
          then fail c undefined_table s1
          else run c st s1
      end
  end.

(** [pool.connect()] *)
Definition connect (s : server) : Js.outcome unit * server :=
  let (f, s1) := take_fault s in
  match f with
  | Some e => (Js.Rejected e, s1)
  | None => (Js.Resolved tt, s1)
  end.

End Schema.

End Pg.

(* ================================================================== *)
(** ** [DatabaseClient] and [AnalysisRepository]                       *)
(* ================================================================== *)

Module Db.

(** What the backend process can change: the server behind the pool,
    the number of leased pool clients, and the log. *)
Record world := mkWorld {
  server : Pg.server;
  leased : nat;
  log : Logger.t
}.

Definition logger (l : Logger.level) (msg : string) (d : option Js.Error)
  : Async.t world unit :=
  Async.modify (fun w => mkWorld (server w) (leased w) (Logger.write l msg d (log w))).

Section Schema.

Variable severity_rank : Severity.t -> nat.
Variable numeric_avg : list Z -> string.

Definition on_server {A} (f : Pg.server -> Js.outcome A * Pg.server) : Async.t world A :=
  fun w => let (r, s') := f (server w) in (r, mkWorld s' (leased w) (log w)).

(** [pool.query(text, params)] *)
Definition pool_query (st : Pg.statement) : Async.t world Pg.rows :=
  on_server (Pg.exec severity_rank numeric_avg Pg.Pooled st).

(** [client.query(text, params)] on the leased client *)
Definition client_query (st : Pg.statement) : Async.t world Pg.rows :=
  on_server (Pg.exec severity_rank numeric_avg Pg.Client st).

(** [DatabaseClient.query]; the elapsed time of the debug line is not
    modelled. *)
Definition query (st : Pg.statement) : Async.t world Pg.rows :=
  Async.try_catch
    (result <- pool_query st ;;
     logger Logger.debug "Query executed" None ;;;
     Async.ret result)%async
    (fun error =>
       logger Logger.error "Database query error:" (Some error) ;;;
       Async.throw error)%async.

(** [DatabaseClient.getClient] *)
Definition getClient : Async.t world unit :=
  (on_server Pg.connect ;;;
   Async.modify (fun w => mkWorld (server w) (S (leased w)) (log w)))%async.

(** [client.release()] *)
Definition release : Async.t world unit :=
  Async.modify (fun w => mkWorld (server w) (pred (leased w)) (log w)).

(** [DatabaseClient.healthCheck] *)
Definition healthCheck : Async.t world bool :=
  Async.try_catch
    (query Pg.SelectOne ;;; Async.ret true)%async
    (fun error =>
       logger Logger.error "Database health check failed:" (Some error) ;;;
       Async.ret false)%async.

End Schema.

End Db.

Module AnalysisRepository.

(** [finding.line || null] and its siblings: the falsy values 0 and the
    empty string are stored as NULL, like an absent property. *)
Definition number_or_null (x : Js.optional Z) : option Z :=
  match x with
  | Js.value z => if Js.truthy_number z then Some z else None
  | _ => None
  end.

Definition string_or_null (x : Js.optional string) : option string :=
  match x with
  | Js.value s => if Js.truthy_string s then Some s else None
  | _ => None
  end.

(** The thirteen parameters of [INSERT INTO analyses]. *)
Definition analysis_params (result : AnalysisResult.t) : AnalysisRow.t :=
  AnalysisRow.mk
    (AnalysisResult.id result)
    (AnalysisResult.prNumber result)
    (AnalysisResult.repoFullName result)
    (AnalysisResult.status result)
    (AnalysisResult.analyzedAt result)
    (AnalysisResult.duration result)
    (Stats.totalFiles (AnalysisResult.stats result))
    (Stats.totalFindings (AnalysisResult.stats result))
    (Stats.critical (AnalysisResult.stats result))
    (Stats.high (AnalysisResult.stats result))
    (Stats.medium (AnalysisResult.stats result))
    (Stats.low (AnalysisResult.stats result))
    (Stats.info (AnalysisResult.stats result)).

(** The twelve parameters of [INSERT INTO findings]. *)
Definition finding_params (result : AnalysisResult.t) (finding : ComplianceFinding.t)
  : FindingRow.t :=
  FindingRow.mk
    (ComplianceFinding.id finding)
    (AnalysisResult.id result)
    (ComplianceFinding.type finding)
    (ComplianceFinding.severity finding)
    (ComplianceFinding.message finding)
    (ComplianceFinding.file finding)
    (number_or_null (ComplianceFinding.line finding))
    (number_or_null (ComplianceFinding.column finding))
    (string_or_null (ComplianceFinding.code finding))
    (string_or_null (ComplianceFinding.fixSuggestion finding))
    (ComplianceFinding.ruleId finding)
    (ComplianceFinding.ruleName finding).

(** A nullable column as the driver returns it. *)
Definition column_value {A} (x : option A) : Js.optional A :=
  match x with
  | Some a => Js.value a
  | None => Js.null
  end.

(** [mapToFinding] *)
Definition mapToFinding (row : FindingRow.t) : ComplianceFinding.t :=
  ComplianceFinding.mk
    (FindingRow.id row)
    (FindingRow.type row)
    (FindingRow.severity row)
    (FindingRow.message row)
    (FindingRow.file row)
    (column_value (FindingRow.line row))
    (column_value (FindingRow.column row))
    (column_value (FindingRow.code row))
    (column_value (FindingRow.fix_suggestion row))
    (FindingRow.rule_id row)
    (FindingRow.rule_name row).

(** [mapToAnalysisResult] *)
Definition mapToAnalysisResult (analysis : AnalysisRow.t) (findings : list FindingRow.t)
  : AnalysisResult.t :=
  AnalysisResult.mk
    (AnalysisRow.id analysis)
    (AnalysisRow.pr_number analysis)
    (AnalysisRow.repo_full_name analysis)
    (AnalysisRow.status analysis)
    (map mapToFinding findings)
    (AnalysisRow.analyzed_at analysis)
    (AnalysisRow.duration analysis)
    (Stats.mk
       (AnalysisRow.total_files analysis)
       (AnalysisRow.total_findings analysis)
       (AnalysisRow.critical_count analysis)
       (AnalysisRow.high_count analysis)
       (AnalysisRow.medium_count analysis)
       (AnalysisRow.low_count analysis)
       (AnalysisRow.info_count analysis)).

Definition analysis_rows (r : Pg.rows) : list AnalysisRow.t :=
  match r with Pg.Analyses l => l | _ => [] end.

Definition finding_rows (r : Pg.rows) : list FindingRow.t :=
  match r with Pg.Findings l => l | _ => [] end.

(** [result.rows] of the statistics query; [None] is a missing
    [rows] property. *)
Definition stats_rows (r : Pg.rows) : option (list StatsRow.t) :=
  match r with Pg.StatsRows l => Some l | _ => None end.

Definition defaultStats : StatsRow.t :=
  StatsRow.mk (Js.AString "0") (Js.AString "0") (Js.AString "0") (Js.AString "0")
              (Js.AString "0") (Js.AString "0") (Js.AString "0") (Js.AString "0").

Section Schema.

Variable severity_rank : Severity.t -> nat.
Variable numeric_avg : list Z -> string.

Let query := Db.query severity_rank numeric_avg.
Let client_query := Db.client_query severity_rank numeric_avg.

(** [saveAnalysis] *)
Definition saveAnalysis (result : AnalysisResult.t) : Async.t Db.world unit :=
  (Db.getClient ;;;
   Async.try_finally
     (Async.try_catch
        (client_query Pg.Begin ;;;
         client_query (Pg.InsertAnalysis (analysis_params result)) ;;;
         Async.for_of (AnalysisResult.findings result) (fun finding =>
           client_query (Pg.InsertFinding (finding_params result finding)) ;;;
           Async.ret tt) ;;;
         client_query Pg.Commit ;;;
         Db.logger Logger.info
           ("Saved analysis " ++ AnalysisResult.id result ++ " with "
            ++ Js.String_of_nat (List.length (AnalysisResult.findings result))
            ++ " findings") None)
        (fun error =>
           client_query Pg.Rollback ;;;
           Db.logger Logger.error "Error saving analysis:" (Some error) ;;;
           Async.throw error))
     Db.release)%async.

(** [getAnalysis]: [None] is the [null] of an unknown id. *)
Definition getAnalysis (id : string) : Async.t Db.world (option AnalysisResult.t) :=
  Async.try_catch
    (analysisResult <- query (Pg.SelectAnalysisById id) ;;
     match analysis_rows analysisResult with
     | [] => Async.ret None
     | analysis :: _ =>
         findingsResult <- query (Pg.SelectFindingsOrdered id) ;;
         Async.ret (Some (mapToAnalysisResult analysis (finding_rows findingsResult)))
     end)%async
    (fun error =>
       Db.logger Logger.error ("Error fetching analysis " ++ id ++ ":") (Some error) ;;;
       Async.throw error)%async.

(** The callback shared by the two list operations. *)
Definition with_findings (row : AnalysisRow.t) : Async.t Db.world AnalysisResult.t :=
  (findingsResult <- query (Pg.SelectFindings (AnalysisRow.id row)) ;;
   Async.ret (mapToAnalysisResult row (finding_rows findingsResult)))%async.

(** [getRecentAnalyses]; [limit] is an integral number, which is what the
    route passes.  The [try] block returns the promise of [Promise.all]
    without awaiting it, so that the [catch] block guards the first
    query only. *)
Definition getRecentAnalyses (limit : Js.integral)
  : Async.t Db.world (list AnalysisResult.t) :=
  (rows <- Async.try_catch
             (result <- query (Pg.SelectRecent limit) ;;
              Async.ret (analysis_rows result))
             (fun error =>
                Db.logger Logger.error "Error fetching recent analyses:" (Some error) ;;;
                Async.throw error) ;;
   Async.promise_all with_findings rows)%async.

(** [getAnalysesByRepo], of the same shape. *)
Definition getAnalysesByRepo (repoFullName : string) (limit : Js.integral)
  : Async.t Db.world (list AnalysisResult.t) :=
  (rows <- Async.try_catch
             (result <- query (Pg.SelectByRepo repoFullName limit) ;;
              Async.ret (analysis_rows result))
             (fun error =>
                Db.logger Logger.error
                  ("Error fetching analyses for " ++ repoFullName ++ ":") (Some error) ;;;
                Async.throw error) ;;
   Async.promise_all with_findings rows)%async.

Definition is_undefined_table_or_parameter (error : Js.Error) : bool :=
  match Js.code error with
  | Some c => (c =? "42P01") || (c =? "42P02")
  | None => false
  end.

(** [getStats] *)
Definition getStats : Async.t Db.world StatsRow.t :=
  Async.try_catch
    (result <- query Pg.SelectStats ;;
     match stats_rows result with
     | None => Async.ret defaultStats
     | Some [] => Async.ret defaultStats
     | Some (row :: _) => Async.ret row
     end)%async
    (fun error =>
       if is_undefined_table_or_parameter error
       then
         (Db.logger Logger.warn
            "Analyses table does not exist yet. Run migrations to create it." None ;;;
          Async.ret defaultStats)%async
       else
         (Db.logger Logger.error "Error fetching stats:" (Some error) ;;;
          Async.ret defaultStats)%async).

End Schema.

End AnalysisRepository.

(* ================================================================== *)
(** ** Retrieval routes ([backend/src/api/routes.ts])                  *)
(* ================================================================== *)

Module Routes.

(** What [res.status(n).json({ success, data, error })] sends. *)
Record response (D : Type) := mkResponse {
  status : nat;
  success : bool;
  data : option D;
  error : option string
}.
Arguments mkResponse {D}.
Arguments status {D}.
Arguments success {D}.
Arguments data {D}.
Arguments error {D}.

Definition truthy (v : Js.any) : bool :=
  match v with
  | Js.AUndefined | Js.ANull | Js.ANaN => false
  | Js.ANumber z => Js.truthy_number z
  | Js.AString s => Js.truthy_string s
  end.

(** [String(v)] *)
Definition String_ (v : Js.any) : string :=
  match v with
  | Js.AUndefined => "undefined"
  | Js.ANull => "null"
  | Js.ANaN => "NaN"
  | Js.ANumber z => Js.String_of_number z
  | Js.AString s => s
  end.

(** [value || '0'] *)
Definition or_zero_text (v : Js.any) : Js.any :=
  if truthy v then v else Js.AString "0".

(** Strings hold the UTF-8 bytes of the JavaScript text.  The white
    space and line terminators that [parseInt] skips are the ASCII ones
    and, beyond ASCII, U+00A0, U+1680, U+2000 to U+200A, U+2028, U+2029,
    U+202F, U+205F, U+3000 and U+FEFF. *)
Definition is_space (c : ascii) : bool :=
  let n := nat_of_ascii c in
  ((n =? 32) || ((9 <=? n) && (n <=? 13)))%nat.

Definition two_byte_space (b0 b1 : ascii) : bool :=
  ((nat_of_ascii b0 =? 194) && (nat_of_ascii b1 =? 160))%nat.

Definition three_byte_space (b0 b1 b2 : ascii) : bool :=
  let n0 := nat_of_ascii b0 in
  let n1 := nat_of_ascii b1 in
  let n2 := nat_of_ascii b2 in
  (((n0 =? 225) && (n1 =? 154) && (n2 =? 128))
   || ((n0 =? 226) && (n1 =? 128)
       && (((128 <=? n2) && (n2 <=? 138)) || (n2 =? 168) || (n2 =? 169) || (n2 =? 175)))
   || ((n0 =? 226) && (n1 =? 129) && (n2 =? 159))
   || ((n0 =? 227) && (n1 =? 128) && (n2 =? 128))
   || ((n0 =? 239) && (n1 =? 187) && (n2 =? 191)))%nat.

Definition digit (c : ascii) : option Z :=
  let n := nat_of_ascii c in
  if ((48 <=? n) && (n <=? 57))%nat then Some (Z.of_nat (n - 48)) else None.

Fixpoint skip_spaces (s : string) : string :=
  match s with
  | String b0 s1 =>
      if is_space b0 then skip_spaces s1
      else
        match s1 with
        | String b1 s2 =>
            if two_byte_space b0 b1 then skip_spaces s2
            else
              match s2 with
              | String b2 s3 =>
                  if three_byte_space b0 b1 b2 then skip_spaces s3 else s
              | EmptyString => s
              end
        | EmptyString => s
        end
  | EmptyString => s
  end.

(** The longest prefix of decimal digits, read as a number; [None] when
    there is no digit at all. *)
Fixpoint digits (acc : option Z) (s : string) : option Z :=
  match s with
  | String c s' =>
      match digit c with
      | Some d =>
          digits (Some (match acc with Some a => a * 10 + d | None => d end)%Z) s'
      | None => acc
      end
  | EmptyString => acc
  end.

(** [parseInt(s, 10)]; [None] is NaN. *)
Definition parseInt (s : string) : option Z :=
  match skip_spaces s with
  | String "-" s' => option_map Z.opp (digits None s')
  | String "+" s' => digits None s'
  | s' => digits None s'
  end.

(** [safeParseInt] of the statistics route.  The numbers it meets are
    those of a statistics row, within the range of INTEGER: [String]
    prints them with all their digits and [parseInt] reads them back
    exactly. *)
Definition safeParseInt (v : Js.any) : Z :=
  match parseInt (String_ (or_zero_text v)) with
  | Some parsed => parsed
  | None => 0%Z
  end.

Section Floats.

(** Floating point is left abstract: [float] stands for the non-NaN
    numbers, [parseFloat] answers [None] for NaN. *)
Variable float : Type.
Variable float_zero : float.
Variable parseFloat : string -> option float.

Definition safeParseFloat (v : Js.any) : float :=
  match parseFloat (String_ (or_zero_text v)) with
  | Some parsed => parsed
  | None => float_zero
  end.

Record StatsBody := mkStatsBody {
  totalAnalyses : Z;
  totalFindings : Z;
  criticalIssues : Z;
  highIssues : Z;
  mediumIssues : Z;
  lowIssues : Z;
  infoIssues : Z;
  avgDuration : float
}.

Definition defaultStats : response StatsBody :=
  mkResponse 200 true
    (Some (mkStatsBody 0 0 0 0 0 0 0 float_zero)) None.

Variable severity_rank : Severity.t -> nat.
Variable numeric_avg : list Z -> string.

(** [GET /api/analyses/:id] *)
Definition get_analysis_by_id (id : string)
  : Async.t Db.world (response AnalysisResult.t) :=
  Async.try_catch
    (analysis <- AnalysisRepository.getAnalysis severity_rank numeric_avg id ;;
     match analysis with
     | None => Async.ret (mkResponse 404 false None (Some "Analysis not found"))
     | Some a => Async.ret (mkResponse 200 true (Some a) None)
     end)%async
    (fun error =>
       Db.logger Logger.error "Error fetching analysis:" (Some error) ;;;
       Async.ret (mkResponse 500 false None (Some "Failed to fetch analysis")))%async.

(** [GET /api/stats] *)
Definition get_stats : Async.t Db.world (response StatsBody) :=
  Async.try_catch
    (stats <- AnalysisRepository.getStats severity_rank numeric_avg ;;
     Async.ret (mkResponse 200 true
       (Some (mkStatsBody
          (safeParseInt (StatsRow.total_analyses stats))
          (safeParseInt (StatsRow.total_findings stats))
          (safeParseInt (StatsRow.total_critical stats))
          (safeParseInt (StatsRow.total_high stats))
          (safeParseInt (StatsRow.total_medium stats))
          (safeParseInt (StatsRow.total_low stats))
          (safeParseInt (StatsRow.total_info stats))
          (safeParseFloat (StatsRow.avg_duration stats))))
       None))%async
    (fun error =>
       Db.logger Logger.error "Error fetching stats:" (Some error) ;;;
       Async.ret defaultStats)%async.

End Floats.








(** What [GET /api/health] sends; the time stamp is left out. *)
Record health := mkHealth {
  health_code : nat;
  health_status : string;
  health_database : option string;
  health_message : option string
}.

Section Lists.

Variable severity_rank : Severity.t -> nat.
Variable numeric_avg : list Z -> string.


(** [GET /api/health]; the database module is loaded already, so its
    dynamic import resolves. *)
Definition get_health : Async.t Db.world health :=
  Async.try_catch
    (dbHealthy <- Db.healthCheck severity_rank numeric_avg ;;
     Async.ret (mkHealth 200 "ok"
                  (Some (if dbHealthy : bool then "healthy" else "unhealthy")) None))%async
    (fun error =>
       Db.logger Logger.error "Health check failed:" (Some error) ;;;
       Async.ret (mkHealth 500 "error" None (Some "Health check failed")))%async.

End Lists.

End Routes.

(* ================================================================== *)
(** ** The sandboxed analyzer ([backend/src/agent/e2b-agent.ts])       *)
(* ================================================================== *)

(** Values produced by [JSON.parse] (numbers are integral here). *)
Module Json.

#[local] Set Warnings "-register-all".

Inductive t :=
| JNull
| JBool (b : bool)
| JNumber (z : Z)
| JString (s : string)
| JArray (items : list t)
| JObject (fields : list (string * t)).

Definition truthy (j : t) : bool :=
  match j with
  | JNull => false
  | JBool b => b
  | JNumber z => Js.truthy_number z
  | JString s => Js.truthy_string s
  | JArray _ | JObject _ => true
  end.

(** The value of a key; the keys of a parsed object are distinct. *)
Fixpoint lookup (k : string) (fields : list (string * t)) : option t :=
  match fields with
  | [] => None
  | (k', v) :: rest => if k' =? k then Some v else lookup k rest
  end.

Definition TypeError : Js.Error :=
  Js.mkError None "Cannot read properties of null".

(** The property read [j.k] for the keys the agent reads: it throws on
    [null], is [undefined] ([None]) on a missing key and on values that
    are not objects. *)
Definition prop (j : t) (k : string) : Js.outcome (option t) :=
  match j with
  | JNull => Js.Rejected TypeError
  | JObject fields => Js.Resolved (lookup k fields)
  | _ => Js.Resolved None
  end.

Definition isArray (j : t) : bool :=
  match j with JArray _ => true | _ => false end.

(** [String(j)] *)
Fixpoint ToString (j : t) : string :=
  match j with
  | JNull => "null"
  | JBool true => "true"
  | JBool false => "false"
  | JNumber z => Js.String_of_number z
  | JString s => s
  | JArray items =>
      (fix join (l : list t) : string :=
         match l with
         | [] => ""
         | x :: rest =>
             let here := match x with JNull => "" | _ => ToString x end in
             match rest with
             | [] => here
             | _ => (here ++ "," ++ join rest)%string
             end
         end) items
  | JObject _ => "[object Object]"
  end.

(** [v || d] where [v] may be [undefined] *)
Definition or_default (v : option t) (d : t) : t :=
  match v with
  | Some j => if truthy j then j else d
  | None => d
  end.

End Json.

Module E2B.

(** [E2BExecutionResult] *)
Record E2BExecutionResult := mkResult {
  text : option string;
  stdout : option string;
  stderr : option string
}.

(** What [runPythonCode] resolves with: the code tests
    [typeof result === 'string'] before reading the record. *)
Inductive execution :=
| AsString (s : string)
| AsResult (r : E2BExecutionResult).

(** What [CodeInterpreter.create] resolves with, as far as the type
    guard [isE2BSandbox] looks at it. *)
Record created := mkCreated {
  is_object : bool;                      (* truthy and typeof 'object' *)
  created_sandboxId : option string;     (* Some when a string property *)
  runPythonCode_is_function : bool;
  kill_is_function : bool
}.

Record E2BSandbox := mkSandbox { sandboxId : string }.

Definition isE2BSandbox (sandbox : created) : option E2BSandbox :=
  if is_object sandbox then
    match created_sandboxId sandbox with
    | Some id =>
        if runPythonCode_is_function sandbox && kill_is_function sandbox
        then Some (mkSandbox id) else None
    | None => None
    end
  else None.

Inductive FileStatus := added | modified | removed | renamed.

Record ChangedFile := mkFile {
  filename : string;
  status : FileStatus;
  additions : Z;
  deletions : Z;
  content : Js.optional string
}.

Record PRContext := mkPR {
  owner : string;
  repo : string;
  prNumber : Z
}.

(** [E2BAnalysisContext]; the agent reads [files] and
    [prContext.prNumber] only. *)
Record E2BAnalysisContext := mkContext {
  files : list ChangedFile;
  prContext : PRContext
}.

(** The Python programs sent to the sandbox: each template literal of
    the source with the values it interpolates. *)
Inductive script :=
| installScript
| configScript (githubToken : string)
| setupScript (files : list (string * string * FileStatus))
| analysisScript
| fetchScript (owner repo path : string) (ref : option string)
| scanScript.

(** A [ComplianceFinding] as [parseAnalysisOutput] builds it: the
    fields it only casts hold whatever the scanner printed. *)
Record Finding := mkFinding {
  id : string;
  type : Json.t;
  severity : Json.t;
  message : string;
  file : string;
  line : option Json.t;
  column : option Json.t;
  code : option Json.t;
  fixSuggestion : option Json.t;
  ruleId : string;
  ruleName : string
}.

(** Everything outside the process: the n-th call of each operation
    settles as the oracle says. *)
Record service := mkService {
  create : nat -> Js.outcome created;
  runPythonCode : nat -> script -> Js.outcome execution;
  kill : nat -> Js.outcome unit;
  JSON_parse : string -> option Json.t;     (* None: SyntaxError *)
  uuidv4 : nat -> string
}.

(** The agent's fields, the number of calls made so far, the log. *)
Record world := mkWorld {
  sandbox : option E2BSandbox;
  githubToken : string;
  creates : nat;
  runs : nat;
  kills : nat;
  uuids : nat;
  log : Logger.t
}.

(** [new E2BAgent(githubToken)] *)
Definition new (token : string) : world := mkWorld None token 0 0 0 0 [].

Definition logger (l : Logger.level) (msg : string) (d : option Js.Error)
  : Async.t world unit :=
  Async.modify (fun w =>
    mkWorld (sandbox w) (githubToken w) (creates w) (runs w) (kills w) (uuids w)
            (Logger.write l msg d (log w))).

Definition set_sandbox (s : option E2BSandbox) : Async.t world unit :=
  Async.modify (fun w =>
    mkWorld s (githubToken w) (creates w) (runs w) (kills w) (uuids w) (log w)).

Definition lift {A} (r : Js.outcome A) : Async.t world A := fun w => (r, w).

Definition dquote : string := String (ascii_of_nat 34) "".

(** The text ["findings"] with its quotes. *)
Definition findings_key : string := (dquote ++ "findings" ++ dquote)%string.

Definition lbrace : ascii := ascii_of_nat 123.
Definition rbrace : ascii := ascii_of_nat 125.

(** The text after the first occurrence of a character. *)
Fixpoint after_first (c : ascii) (s : string) : option string :=
  match s with
  | EmptyString => None
  | String d rest => if Ascii.eqb d c then Some rest else after_first c rest
  end.

(** The text before the last occurrence of a character. *)
Fixpoint before_last (c : ascii) (s : string) : option string :=
  match s with
  | EmptyString => None
  | String d rest =>
      match before_last c rest with
      | Some inner => Some (String d inner)
      | None => if Ascii.eqb d c then Some EmptyString else None
      end
  end.

(** [output.match(/\{[\s\S]*"findings"[\s\S]*\}/)]: [None] when there is
    no match, otherwise the matched text.  Both stars are greedy and
    match any character, so the match runs from the first opening
    brace to the last closing brace, provided the quoted key lies in
    between. *)
Definition match_findings (output : string) : option string :=
  match after_first lbrace output with
  | None => None
  | Some rest =>
      match before_last rbrace rest with
      | None => None
      | Some inner =>
          if Js.includes findings_key inner
          then Some (String lbrace (inner ++ String rbrace ""))
          else None
      end
  end.

(** [typeof result === 'string' ? result : (result.text || result.stdout || '')] *)
Definition output_of (result : execution) : string :=
  match result with
  | AsString s => s
  | AsResult r =>
      match text r with
      | Some t => if Js.truthy_string t then t else
          match stdout r with
          | Some o => if Js.truthy_string o then o else ""
          | None => ""
          end
      | None =>
          match stdout r with
          | Some o => if Js.truthy_string o then o else ""
          | None => ""
          end
      end
  end.

Definition Error (msg : string) : Js.Error := Js.mkError None msg.

(** [ref ? ... : ''] in the fetch script: an absent or empty [ref] adds no
    argument. *)
Definition ref_argument (ref : Js.optional string) : option string :=
  match ref with
  | Js.value r => if Js.truthy_string r then Some r else None
  | _ => None
  end.

(** [context.files.map(f => ({ filename: f.filename, content: f.content || '',
    status: f.status }))] *)
Definition workspace_files (context : E2BAnalysisContext)
  : list (string * string * FileStatus) :=
  map (fun f =>
         (filename f,
          match content f with
          | Js.value c => if Js.truthy_string c then c else ""
          | _ => ""
          end,
          status f))
      (files context).

Section Service.

Variable svc : service.

Definition call_create : Async.t world created :=
  fun w => (create svc (creates w),
            mkWorld (sandbox w) (githubToken w) (S (creates w)) (runs w) (kills w)
                    (uuids w) (log w)).

(** [this.sandbox.runPythonCode(code)]; reading the method off a
    [null] sandbox is a TypeError. *)
Definition call_runPythonCode (code : script) : Async.t world execution :=
  fun w =>
    match sandbox w with
    | None => (Js.Rejected Json.TypeError, w)
    | Some _ =>
        (runPythonCode svc (runs w) code,
         mkWorld (sandbox w) (githubToken w) (creates w) (S (runs w)) (kills w)
                 (uuids w) (log w))
    end.

Definition call_kill : Async.t world unit :=
  fun w => (kill svc (kills w),
            mkWorld (sandbox w) (githubToken w) (creates w) (runs w) (S (kills w))
                    (uuids w) (log w)).

Definition call_uuidv4 : Async.t world string :=
  fun w => (Js.Resolved (uuidv4 svc (uuids w)),
            mkWorld (sandbox w) (githubToken w) (creates w) (runs w) (kills w)
                    (S (uuids w)) (log w)).

(** [setupMCPServers] *)
Definition setupMCPServers : Async.t world unit :=
  (w <- Async.get ;;
   match sandbox w with
   | None => Async.throw (Error "Sandbox not initialized")
   | Some _ =>
       logger Logger.info "Setting up MCP servers in sandbox..." None ;;;
       Async.try_catch
         (call_runPythonCode installScript ;;;
          logger Logger.info "MCP servers installed:" None ;;;
          call_runPythonCode (configScript (githubToken w)) ;;;
          logger Logger.info "MCP servers configured" None)
         (fun error =>
            logger Logger.error "Error setting up MCP servers:" (Some error) ;;;
            Async.throw error)
   end)%async.

(** [initialize] *)
Definition initialize : Async.t world unit :=
  (logger Logger.info "Initializing E2B sandbox..." None ;;;
   Async.try_catch
     (sandbox <- call_create ;;
      match isE2BSandbox sandbox with
      | None => Async.throw (Error "E2B sandbox does not match expected interface")
      | Some s =>
          set_sandbox (Some s) ;;;
          logger Logger.info ("E2B sandbox created: " ++ sandboxId s) None ;;;
          setupMCPServers ;;;
          logger Logger.info "E2B sandbox initialized successfully" None
      end)
     (fun error =>
        logger Logger.error "Failed to initialize E2B sandbox:" (Some error) ;;;
        Async.throw (Error "E2B sandbox initialization failed")))%async.

(** [if (!this.sandbox) { await this.initialize(); }] *)
Definition ensure_initialized : Async.t world unit :=
  (w <- Async.get ;;
   match sandbox w with
   | None => initialize
   | Some _ => Async.ret tt
   end)%async.

(** [setupWorkspace] *)
Definition setupWorkspace (context : E2BAnalysisContext) : Async.t world unit :=
  (w <- Async.get ;;
   match sandbox w with
   | None => Async.throw (Error "Sandbox not initialized")
   | Some _ =>
       logger Logger.info "Setting up workspace with changed files..." None ;;;
       call_runPythonCode (setupScript (workspace_files context)) ;;;
       logger Logger.info "Workspace setup complete" None
   end)%async.

(** One element of [parsed.findings.map(...)]. *)
Definition to_finding (finding : Json.t) : Async.t world Finding :=
  (id <- call_uuidv4 ;;
   type <- lift (Json.prop finding "type") ;;
   severity <- lift (Json.prop finding "severity") ;;
   message <- lift (Json.prop finding "message") ;;
   file <- lift (Json.prop finding "file") ;;
   line <- lift (Json.prop finding "line") ;;
   column <- lift (Json.prop finding "column") ;;
   code <- lift (Json.prop finding "code") ;;
   fixSuggestion <- lift (Json.prop finding "fixSuggestion") ;;
   type' <- lift (Json.prop finding "type") ;;
   ruleName <- lift (Json.prop finding "ruleName") ;;
   Async.ret (mkFinding
     id
     (Json.or_default type (Json.JString "security"))
     (Json.or_default severity (Json.JString "medium"))
     (Json.ToString (Json.or_default message (Json.JString "")))
     (Json.ToString (Json.or_default file (Json.JString "")))
     line column code fixSuggestion
     ("e2b-" ++ Json.ToString (Json.or_default type' (Json.JString "unknown")))
     (Json.ToString (Json.or_default ruleName (Json.JString "E2B Analysis")))))%async.

(** [parseAnalysisOutput] *)
Definition parseAnalysisOutput (output : string) : Async.t world (list Finding) :=
  Async.try_catch
    (match match_findings output with
     | None =>
         logger Logger.warn "No findings JSON found in output" None ;;;
         Async.ret []
     | Some jsonMatch =>
         match JSON_parse svc jsonMatch with
         | None => Async.throw (Js.mkError None "SyntaxError")
         | Some parsed =>
             findings <- lift (Json.prop parsed "findings") ;;
             match findings with
             | Some (Json.JArray items) => Async.all_map to_finding items
             | _ => Async.ret []
             end
         end
     end)%async
    (fun error =>
       logger Logger.error "Error parsing analysis output:" (Some error) ;;;
       Async.ret [])%async.

(** [runAnalysis] *)
Definition runAnalysis (_context : E2BAnalysisContext) : Async.t world (list Finding) :=
  (w <- Async.get ;;
   match sandbox w with
   | None => Async.throw (Error "Sandbox not initialized")
   | Some _ =>
       Async.try_catch
         (result <- call_runPythonCode analysisScript ;;
          parseAnalysisOutput (output_of result))
         (fun error =>
            logger Logger.error "Error running analysis script:" (Some error) ;;;
            Async.ret [])
   end)%async.

(** [analyzeWithMCP] *)
Definition analyzeWithMCP (context : E2BAnalysisContext) : Async.t world (list Finding) :=
  (ensure_initialized ;;;
   logger Logger.info
     ("Starting E2B analysis for PR #" ++ Js.String_of_number (prNumber (prContext context)))
     None ;;;
   Async.try_catch
     (setupWorkspace context ;;;
      findings <- runAnalysis context ;;
      logger Logger.info
        ("E2B analysis complete: " ++ Js.String_of_nat (List.length findings) ++ " findings")
        None ;;;
      Async.ret findings)
     (fun error =>
        logger Logger.error "Error during E2B analysis:" (Some error) ;;;
        Async.throw error))%async.

(** [fetchFileFromGitHub]; [None] is the [null] result. *)
Definition fetchFileFromGitHub (owner repo path : string) (ref : Js.optional string)
  : Async.t world (option string) :=
  (ensure_initialized ;;;
   Async.try_catch
     (result <- call_runPythonCode
                  (fetchScript owner repo path (ref_argument ref)) ;;
      let output := output_of result in
      if Js.includes "error" output then Async.ret None else Async.ret (Some output))
     (fun error =>
        logger Logger.error "Error fetching file from GitHub:" (Some error) ;;;
        Async.ret None))%async.

(** [runSecurityScan] *)
Definition runSecurityScan (_files : list ChangedFile) : Async.t world (list Finding) :=
  (ensure_initialized ;;;
   logger Logger.info "Running security scanners in E2B sandbox..." None ;;;
   Async.try_catch
     (result <- call_runPythonCode scanScript ;;
      parseAnalysisOutput (output_of result))
     (fun error =>
        logger Logger.error "Error running security scan:" (Some error) ;;;
        Async.ret []))%async.

(** [cleanup] *)
Definition cleanup : Async.t world unit :=
  (w <- Async.get ;;
   match sandbox w with
   | Some s =>
       logger Logger.info ("Cleaning up E2B sandbox: " ++ sandboxId s) None ;;;
       Async.try_catch
         (call_kill ;;;
          set_sandbox None ;;;
          logger Logger.info "E2B sandbox cleaned up successfully" None)
         (fun error =>
            logger Logger.error "Error cleaning up sandbox:" (Some error))
   | None => Async.ret tt
   end)%async.

End Service.

(** [getSandboxInfo] *)
Definition getSandboxInfo (w : world) : option string * string :=
  match sandbox w with
  | Some s => (Some (sandboxId s), "running")
  | None => (None, "not_initialized")
  end.

End E2B.

(* ================================================================== *)
(** ** The migration script ([backend/scripts/migrate.js])             *)
(* ================================================================== *)

Module Migrate.

(** The places where the schema file is looked for. *)
Inductive location :=
| beside_scripts     (* path.join(__dirname, '../src/db/schema.sql') *)
| above_dist         (* path.join(__dirname, '../../src/db/schema.sql') *)
| under_cwd.         (* path.join(process.cwd(), 'backend/src/db/schema.sql') *)

(** Everything outside the script: the environment variable, how the
    n-th [pool.connect()] settles, the file system, the server's answer
    to the schema, and [pool.end()]. *)
Record env := mkEnv {
  DATABASE_URL : option string;
  connect : nat -> Js.outcome unit;
  path_of : location -> string;
  existsSync : location -> bool;
  readFileSync : location -> Js.outcome string;
  query : string -> Js.outcome unit;
  stack_of : Js.Error -> option string;
  pool_end : Js.outcome unit
}.

Inductive stream := stdout | stderr.

(** What the script does to the outside, in counts, and its console. *)
Record world := mkWorld {
  attempts : nat;              (* calls of [pool.connect()] *)
  pauses : nat;                (* waits of two seconds *)
  sent : list string;          (* texts given to [client.query] *)
  released : nat;              (* calls of [client.release()] *)
  ended : nat;                 (* calls of [pool.end()] *)
  console : list (stream * string)
}.

Definition start : world := mkWorld 0 0 [] 0 0 [].

(** How the process ends: [migrate()] resolved, [process.exit(code)] was
    called, or [migrate()] rejected, which nothing catches. *)
Inductive completion :=
| Returned
| Exited (code : nat)
| Unhandled (e : Js.Error).

Definition print (s : stream) (text : string) (w : world) : world :=
  mkWorld (attempts w) (pauses w) (sent w) (released w) (ended w)
          (console w ++ [(s, text)]).

Definition attempt (w : world) : world :=
  mkWorld (S (attempts w)) (pauses w) (sent w) (released w) (ended w) (console w).

Definition pause (w : world) : world :=
  mkWorld (attempts w) (S (pauses w)) (sent w) (released w) (ended w) (console w).

Definition send (text : string) (w : world) : world :=
  mkWorld (attempts w) (pauses w) (sent w ++ [text]) (released w) (ended w) (console w).

Definition release (w : world) : world :=
  mkWorld (attempts w) (pauses w) (sent w) (S (released w)) (ended w) (console w).

Definition end_pool (w : world) : world :=
  mkWorld (attempts w) (pauses w) (sent w) (released w) (S (ended w)) (console w).

(** [while (retries > 0) { try { ... break; } catch (error) { retries--; ... } }]:
    [Resolved true] when [client] was assigned, [Resolved false] when the
    loop ended with [client] still undefined. *)
Fixpoint connecting (E : env) (retries : nat) (w : world) : Js.outcome bool * world :=
  match retries with
  | O => (Js.Resolved false, w)
  | S remaining =>
      let w1 :=
        print stdout
          ("Connecting to database... ("
           ++ Js.String_of_number (11 - Z.of_nat retries) ++ "/10)") w in
      match connect E (attempts w1) with
      | Js.Resolved _ => (Js.Resolved true, print stdout "Connected successfully!" (attempt w1))
      | Js.Rejected error =>
          match remaining with
          | O =>
              (Js.Rejected error,
               print stderr "Failed to connect to database after 10 attempts" (attempt w1))
          | S _ =>
              connecting E remaining
                (pause
                   (print stdout
                      ("Connection failed, retrying in 2 seconds... ("
                       ++ Js.String_of_nat remaining ++ " attempts left)") (attempt w1)))
          end
      end
  end.

(** The three look-ups of the schema file. *)
Definition schema_path (E : env) : location :=
  let schemaPath := beside_scripts in
  let schemaPath := if negb (existsSync E schemaPath) then above_dist else schemaPath in
  let schemaPath := if negb (existsSync E schemaPath) then under_cwd else schemaPath in
  schemaPath.

(** The [catch] block of the migration: it ends the process, so that the
    [finally] block is not reached. *)
Definition failed (E : env) (error : Js.Error) (w : world) : completion * world :=
  let w1 := print stderr ("Migration failed: " ++ Js.message error) w in
  (Exited 1,
   match stack_of E error with
   | Some stack => if Js.truthy_string stack then print stderr stack w1 else w1
   | None => w1
   end).

(** [migrate] *)
Definition migrate (E : env) (w : world) : completion * world :=
  match DATABASE_URL E with
  | None => (Exited 1, print stderr "Error: DATABASE_URL environment variable is not set" w)
  | Some url =>
      if negb (Js.truthy_string url)
      then (Exited 1, print stderr "Error: DATABASE_URL environment variable is not set" w)
      else
        match connecting E 10 w with
        | (Js.Rejected error, w1) => (Unhandled error, w1)
        | (Js.Resolved client, w1) =>
            let schemaPath := schema_path E in
            if negb (existsSync E schemaPath)
            then (Exited 1,
                  print stderr ("Schema file not found. Tried: " ++ path_of E schemaPath) w1)
            else
              match readFileSync E schemaPath with
              | Js.Rejected error => failed E error w1
              | Js.Resolved schema =>
                  let w2 := print stdout "Running migrations..." w1 in
                  if client : bool then
                    match query E schema with
                    | Js.Rejected error => failed E error (send schema w2)
                    | Js.Resolved _ =>
                        let w3 :=
                          release (print stdout "Migration completed successfully!"
                                     (send schema w2)) in
                        match pool_end E with
                        | Js.Resolved _ => (Returned, end_pool w3)
                        | Js.Rejected error => (Unhandled error, end_pool w3)
                        end
                    end
                  else failed E (Js.mkError None "Cannot read properties of undefined") w2
              end
        end
  end.

End Migrate.

(* ================================================================== *)
(** ** Notions the properties are stated with                          *)
(* ================================================================== *)

Module Aggregator.

(** Modelled from the spec: the Aggregator is not among the sources.
    "Stats are recomputed from the deduplicated set -- never
    incrementally accumulated": each count is the number of findings of
    that severity, [totalFindings] the number of findings. *)
Definition count (s : Severity.t) (findings : list ComplianceFinding.t) : Z :=
  Z.of_nat (List.length
    (filter (fun f => Severity.eqb (ComplianceFinding.severity f) s) findings)).

Definition computeStats (totalFiles : Z) (findings : list ComplianceFinding.t) : Stats.t :=
  Stats.mk totalFiles
    (Z.of_nat (List.length findings))
    (count Severity.critical findings)
    (count Severity.high findings)
    (count Severity.medium findings)
    (count Severity.low findings)
    (count Severity.info findings).

End Aggregator.

Module Props.

(** The invariant of an [AnalysisResult]. *)
Definition stats_invariant (r : AnalysisResult.t) : Prop :=
  let s := AnalysisResult.stats r in
  Stats.totalFindings s = Z.of_nat (List.length (AnalysisResult.findings r))
  /\ (Stats.critical s + Stats.high s + Stats.medium s + Stats.low s + Stats.info s
      = Stats.totalFindings s)%Z.

(** How many rows of each table belong to an analysis id. *)
Definition rows_for (id : string) (t : Pg.tables) : nat * nat :=
  (List.length (filter (fun r => AnalysisRow.id r =? id) (Pg.analyses t)),
   List.length (filter (fun r => FindingRow.analysis_id r =? id) (Pg.findings t))).

(** The foreign key holds: every finding row points to an analysis row. *)
Definition consistent (t : Pg.tables) : Prop :=
  forall f, In f (Pg.findings t) -> Pg.has_analysis (FindingRow.analysis_id f) t = true.

(** The tables after the rows of [result] were appended. *)
Definition with_rows (result : AnalysisResult.t) (t : Pg.tables) : Pg.tables :=
  Pg.mkTables
    (Pg.analyses t ++ [AnalysisRepository.analysis_params result])
    (Pg.findings t
     ++ map (AnalysisRepository.finding_params result) (AnalysisResult.findings result)).

(** A finding as it comes back from its row: an optional property that
    was absent, 0 or the empty string is [null]. *)
Definition as_stored (f : ComplianceFinding.t) : ComplianceFinding.t :=
  ComplianceFinding.mk
    (ComplianceFinding.id f) (ComplianceFinding.type f) (ComplianceFinding.severity f)
    (ComplianceFinding.message f) (ComplianceFinding.file f)
    (AnalysisRepository.column_value
       (AnalysisRepository.number_or_null (ComplianceFinding.line f)))
    (AnalysisRepository.column_value
       (AnalysisRepository.number_or_null (ComplianceFinding.column f)))
    (AnalysisRepository.column_value
       (AnalysisRepository.string_or_null (ComplianceFinding.code f)))
    (AnalysisRepository.column_value
       (AnalysisRepository.string_or_null (ComplianceFinding.fixSuggestion f)))
    (ComplianceFinding.ruleId f) (ComplianceFinding.ruleName f).

(** The order of [ORDER BY severity, file, line] on findings read back. *)
Definition read_le (severity_rank : Severity.t -> nat) (a b : ComplianceFinding.t) : bool :=
  match Nat.compare (severity_rank (ComplianceFinding.severity a))
                    (severity_rank (ComplianceFinding.severity b)) with
  | Lt => true
  | Gt => false
  | Eq =>
      match String.compare (ComplianceFinding.file a) (ComplianceFinding.file b) with
      | Lt => true
      | Gt => false
      | Eq =>
          match ComplianceFinding.line a, ComplianceFinding.line b with
          | Js.value x, Js.value y => (x <=? y)%Z
          | Js.value _, _ => true
          | _, Js.value _ => false
          | _, _ => true
          end
      end
  end.

(** What [getAnalysis] answers for a result that was saved. *)
Definition read_back (severity_rank : Severity.t -> nat) (r : AnalysisResult.t)
  : AnalysisResult.t :=
  AnalysisResult.mk
    (AnalysisResult.id r) (AnalysisResult.prNumber r) (AnalysisResult.repoFullName r)
    (AnalysisResult.status r)
    (Pg.order_by (read_le severity_rank) (map as_stored (AnalysisResult.findings r)))
    (AnalysisResult.analyzedAt r) (AnalysisResult.duration r) (AnalysisResult.stats r).

(** Adjacent elements are in order. *)
Fixpoint sorted_by {A} (le : A -> A -> bool) (l : list A) : bool :=
  match l with
  | [] => true
  | x :: l' =>
      match l' with
      | [] => true
      | y :: _ => le x y && sorted_by le l'
      end
  end.

(** The order the design document asks for: severity descending under
    critical > high > medium > low > info, then file, then line. *)
Definition spec_sorted (l : list ComplianceFinding.t) : bool :=
  sorted_by (read_le Severity.position) l.

(** The server answers the next [n] round trips: no scripted failure
    among them. *)
Definition answers (n : nat) (s : Pg.server) : Prop :=
  Forall (fun f => f = None) (firstn n (Pg.faults s)).

(** The statistics query cannot be answered: the next round trip fails
    or the tables were never created. *)
Definition unavailable (s : Pg.server) : Prop :=
  (exists e rest, Pg.faults s = Some e :: rest) \/ Pg.provisioned s = false.

(** The finding rows of one result inserted one after the other. *)
Fixpoint insert_all (rows : list FindingRow.t) (t : Pg.tables) : Js.outcome Pg.tables :=
  match rows with
  | [] => Js.Resolved t
  | r :: rest =>
      match Pg.insert_finding r t with
      | Js.Resolved t' => insert_all rest t'
      | Js.Rejected e => Js.Rejected e
      end
  end.

Section Blocks.

Variable severity_rank : Severity.t -> nat.
Variable numeric_avg : list Z -> string.

(** The [try] block of [saveAnalysis], by itself. *)
Definition save_try (result : AnalysisResult.t) : Async.t Db.world unit :=
  (Db.client_query severity_rank numeric_avg Pg.Begin ;;;
   Db.client_query severity_rank numeric_avg
     (Pg.InsertAnalysis (AnalysisRepository.analysis_params result)) ;;;
   Async.for_of (AnalysisResult.findings result) (fun finding =>
     Db.client_query severity_rank numeric_avg
       (Pg.InsertFinding (AnalysisRepository.finding_params result finding)) ;;;
     Async.ret tt) ;;;
   Db.client_query severity_rank numeric_avg Pg.Commit ;;;
   Db.logger Logger.info
     ("Saved analysis " ++ AnalysisResult.id result ++ " with "
      ++ Js.String_of_nat (List.length (AnalysisResult.findings result))
      ++ " findings") None)%async.

(** The [catch] block of [saveAnalysis], by itself. *)
Definition save_catch (error : Js.Error) : Async.t Db.world unit :=
  (Db.client_query severity_rank numeric_avg Pg.Rollback ;;;
   Db.logger Logger.error "Error saving analysis:" (Some error) ;;;
   Async.throw error)%async.

End Blocks.

(** Every count of a statistics body is zero. *)
Definition zero_counts {float : Type} (b : Routes.StatsBody float) : Prop :=
  Routes.totalAnalyses float b = 0%Z /\ Routes.totalFindings float b = 0%Z
  /\ Routes.criticalIssues float b = 0%Z /\ Routes.highIssues float b = 0%Z
  /\ Routes.mediumIssues float b = 0%Z /\ Routes.lowIssues float b = 0%Z
  /\ Routes.infoIssues float b = 0%Z.

(** The [findings] array of a parsed value, if it has one. *)
Definition findings_array (parsed : Json.t) : option (list Json.t) :=
  match Json.prop parsed "findings" with
  | Js.Resolved (Some (Json.JArray items)) => Some items
  | _ => None
  end.

(** The findings array of the JSON object embedded in a scanner output:
    [None] when the text has no match, the match is not JSON, or the JSON
    has no [findings] array. *)
Definition embedded_findings (svc : E2B.service) (output : string) : option (list Json.t) :=
  match E2B.match_findings output with
  | Some jsonMatch =>
      match E2B.JSON_parse svc jsonMatch with
      | Some parsed => findings_array parsed
      | None => None
      end
  | None => None
  end.

(** A computation leaves an observation of the world as it was. *)
Definition preserves {A X : Type} (f : Db.world -> X) (m : Async.t Db.world A) : Prop :=
  forall w, f (snd (m w)) = f w.

(** [n] calls of [cleanup] in a row. *)
Fixpoint cleanups (svc : E2B.service) (n : nat) : Async.t E2B.world unit :=
  match n with
  | O => Async.ret tt
  | S n' => Async.bind (E2B.cleanup svc) (fun _ => cleanups svc n')
  end.

(** The server answers every round trip to come. *)
Definition reliable (s : Pg.server) : Prop :=
  Forall (fun f => f = None) (Pg.faults s).

(** An analysis row with the finding rows of its id in storage order,
    as the two list operations put them together. *)
Definition listed (t : Pg.tables) (row : AnalysisRow.t) : AnalysisResult.t :=
  AnalysisRepository.mapToAnalysisResult row
    (filter (fun r => FindingRow.analysis_id r =? AnalysisRow.id row) (Pg.findings t)).

(** The order of [ORDER BY analyzed_at DESC] on results. *)
Definition newest_first (a b : AnalysisResult.t) : bool :=
  (AnalysisResult.analyzedAt b <=? AnalysisResult.analyzedAt a)%Z.

(** A nullable column and the property read from it: NULL is [null]. *)
Definition column_of {A} (c : option A) (p : Js.optional A) : Prop :=
  match c with
  | Some a => p = Js.value a
  | None => p = Js.null
  end.

(** A finding holds what its row holds. *)
Definition finding_of_row (f : FindingRow.t) (c : ComplianceFinding.t) : Prop :=
  ComplianceFinding.id c = FindingRow.id f
  /\ ComplianceFinding.type c = FindingRow.type f
  /\ ComplianceFinding.severity c = FindingRow.severity f
  /\ ComplianceFinding.message c = FindingRow.message f
  /\ ComplianceFinding.file c = FindingRow.file f
  /\ column_of (FindingRow.line f) (ComplianceFinding.line c)
  /\ column_of (FindingRow.column f) (ComplianceFinding.column c)
  /\ column_of (FindingRow.code f) (ComplianceFinding.code c)
  /\ column_of (FindingRow.fix_suggestion f) (ComplianceFinding.fixSuggestion c)
  /\ ComplianceFinding.ruleId c = FindingRow.rule_id f
  /\ ComplianceFinding.ruleName c = FindingRow.rule_name f.

(** A result holds what its analysis row holds, with the finding rows of
    its id in the order of the table. *)
Definition of_row (t : Pg.tables) (row : AnalysisRow.t) (r : AnalysisResult.t) : Prop :=
  AnalysisResult.id r = AnalysisRow.id row
  /\ AnalysisResult.prNumber r = AnalysisRow.pr_number row
  /\ AnalysisResult.repoFullName r = AnalysisRow.repo_full_name row
  /\ AnalysisResult.status r = AnalysisRow.status row
  /\ AnalysisResult.analyzedAt r = AnalysisRow.analyzed_at row
  /\ AnalysisResult.duration r = AnalysisRow.duration row
  /\ AnalysisResult.stats r
     = Stats.mk (AnalysisRow.total_files row) (AnalysisRow.total_findings row)
         (AnalysisRow.critical_count row) (AnalysisRow.high_count row)
         (AnalysisRow.medium_count row) (AnalysisRow.low_count row)
         (AnalysisRow.info_count row)
  /\ Forall2 finding_of_row
       (filter (fun f => FindingRow.analysis_id f =? AnalysisRow.id row) (Pg.findings t))
       (AnalysisResult.findings r).

(** The row count that a [LIMIT] stands for, when the server accepts it:
    an integer from 0 to the largest [bigint]. *)
Definition row_count (limit : Js.integral) : option nat :=
  match limit with
  | Js.Int z => if ((0 <=? z) && (z <? 2 ^ 63))%Z then Some (Z.to_nat z) else None
  | Js.Infinity _ => None
  end.

(** The analyses that count for the statistics. *)
Definition completed (t : Pg.tables) : list AnalysisRow.t :=
  filter (fun r => Status.eqb (AnalysisRow.status r) Status.completed) (Pg.analyses t).

(** The agent holds the same session and has made the same calls to the
    sandbox service. *)
Definition same_session (w w' : E2B.world) : Prop :=
  E2B.sandbox w' = E2B.sandbox w /\ E2B.githubToken w' = E2B.githubToken w
  /\ E2B.creates w' = E2B.creates w /\ E2B.runs w' = E2B.runs w
  /\ E2B.kills w' = E2B.kills w.

(** A method acquires a session only when the agent holds none, and then
    exactly one; it never tears a session down nor replaces the one the
    agent holds. *)
Definition keeps_session {A} (m : Async.t E2B.world A) : Prop :=
  forall w,
    let w' := snd (m w) in
    E2B.creates w'
    = match E2B.sandbox w with Some _ => E2B.creates w | None => S (E2B.creates w) end
    /\ E2B.kills w' = E2B.kills w
    /\ (forall s, E2B.sandbox w = Some s -> E2B.sandbox w' = Some s).

(** The [n] connection attempts from the [base]-th on are all refused. *)
Definition refused (E : Migrate.env) (base n : nat) : Prop :=
  forall i, (i < n)%nat -> exists e, Migrate.connect E (base + i) = Js.Rejected e.

(** The database URL is set and not empty. *)
Definition configured (E : Migrate.env) : Prop :=
  exists url, Migrate.DATABASE_URL E = Some url /\ url <> "".

(** [loc] holds the schema file and no location tried before it does. *)
Definition first_existing (E : Migrate.env) (loc : Migrate.location) : Prop :=
  Migrate.existsSync E loc = true
  /\ match loc with
     | Migrate.beside_scripts => True
     | Migrate.above_dist => Migrate.existsSync E Migrate.beside_scripts = false
     | Migrate.under_cwd =>
         Migrate.existsSync E Migrate.beside_scripts = false
         /\ Migrate.existsSync E Migrate.above_dist = false
     end.

(** The text matches [/\{[\s\S]*"findings"[\s\S]*\}/] somewhere. *)
Definition has_findings_object (output : string) : Prop :=
  exists pre a b post,
    output = (pre ++ String E2B.lbrace (a ++ E2B.findings_key ++ b
                      ++ String E2B.rbrace post))%string.

End Props.

(** Concrete inputs the properties are tried on. *)
Module Sample.

(** A [severity] column declared as an enumerated type in the order
    critical, high, medium, low, info. *)
Definition enum_rank : Severity.t -> nat := Severity.position.

Definition avg_text (durations : list Z) : string := "30".

Definition finding (id file : string) (s : Severity.t) (line : Z) : ComplianceFinding.t :=
  ComplianceFinding.mk id FindingType.security s "Hardcoded secret detected" file
    (Js.value line) (Js.value 1%Z) (Js.value "token") (Js.value "remove it")
    "security-001" "Secret Detection".

Definition low_then_critical : list ComplianceFinding.t :=
  [finding "f-1" "b.js" Severity.low 3; finding "f-2" "a.js" Severity.critical 7].

Definition result : AnalysisResult.t :=
  AnalysisResult.mk "analysis-1" 7 "owner/repo" Status.completed low_then_critical
    1000 30 (Aggregator.computeStats 2 low_then_critical).

(** A provisioned, empty store whose next round trips fail as scripted. *)
Definition store (faults : list (option Js.Error)) : Db.world :=
  Db.mkWorld (Pg.mkServer true Pg.empty Pg.Idle faults) 0 [].

Definition connection_lost : Js.Error := Js.mkError None "Connection terminated".

Definition fresh : Db.world := store [].

(** connect, BEGIN and the analysis row go through, the server is reached
    once more, and the round trip after that is lost. *)
Definition failing_midway : Db.world :=
  store [None; None; None; None; Some connection_lost].

Definition unreachable : Db.world := store [Some connection_lost].

Definition unprovisioned : Db.world :=
  Db.mkWorld (Pg.mkServer false Pg.empty Pg.Idle []) 0 [].

(** An analysis that found nothing. *)
Definition quiet : AnalysisResult.t :=
  AnalysisResult.mk "analysis-2" 8 "owner/repo" Status.completed [] 2000 12
    (Stats.mk 3 0 0 0 0 0 0).

(** An analysis of another repository that found nothing, made before
    [quiet]. *)
Definition earlier : AnalysisResult.t :=
  AnalysisResult.mk "analysis-0" 6 "owner/other" Status.completed [] 500 12
    (Stats.mk 1 0 0 0 0 0 0).

(** A result whose statistics count five findings it does not have. *)
Definition miscounted : AnalysisResult.t :=
  AnalysisResult.mk "analysis-9" 9 "owner/repo" Status.completed [] 3000 5
    (Stats.mk 1 5 1 1 1 1 1).

(** A store into which [earlier] and then [quiet] were saved. *)
Definition history : Db.world :=
  snd (AnalysisRepository.saveAnalysis enum_rank avg_text quiet
         (snd (AnalysisRepository.saveAnalysis enum_rank avg_text earlier fresh))).

(** A store that holds one analysis and two findings of it, the low one
    stored before the critical one: rows of another writer, since
    [saveAnalysis] cannot insert a finding. *)
Definition seeded : Db.world :=
  Db.mkWorld
    (Pg.mkServer true
       (Pg.mkTables
          [AnalysisRow.mk "analysis-1" 7 "owner/repo" Status.completed 1000 30
             2 2 1 0 0 1 0]
          [FindingRow.mk "f-1" "analysis-1" FindingType.security Severity.low
             "Hardcoded secret detected" "b.js" (Some 3%Z) (Some 1%Z) (Some "token")
             (Some "remove it") "security-001" "Secret Detection";
           FindingRow.mk "f-2" "analysis-1" FindingType.security Severity.critical
             "Hardcoded secret detected" "a.js" (Some 7%Z) (Some 1%Z) (Some "token")
             (Some "remove it") "security-001" "Secret Detection"])
       Pg.Idle [])
    0 [].

(** The sandbox service. *)
Definition good_sandbox : E2B.created := E2B.mkCreated true (Some "sandbox-1") true true.

Definition printed (t : string) : Js.outcome E2B.execution :=
  Js.Resolved (E2B.AsResult (E2B.mkResult (Some t) None None)).

Definition sandbox_error : Js.Error := E2B.Error "Sandbox error".

(** Every script runs except the analysis script. *)
Definition analysis_script_fails : E2B.service :=
  E2B.mkService
    (fun _ => Js.Resolved good_sandbox)
    (fun _ code =>
       match code with
       | E2B.analysisScript => Js.Rejected sandbox_error
       | _ => printed "ok"
       end)
    (fun _ => Js.Resolved tt)
    (fun _ => None)
    (fun _ => "00000000-0000-4000-8000-000000000000").

(** The fetch script prints what [behaviour] says. *)
Definition fetching (behaviour : Js.outcome E2B.execution) : E2B.service :=
  E2B.mkService
    (fun _ => Js.Resolved good_sandbox)
    (fun _ code =>
       match code with
       | E2B.fetchScript _ _ _ _ => behaviour
       | _ => printed "ok"
       end)
    (fun _ => Js.Resolved tt)
    (fun _ => None)
    (fun _ => "00000000-0000-4000-8000-000000000000").

(** [gh-mcp] failed and the script printed the JSON error object. *)
Definition not_found_text : string :=
  ("{" ++ E2B.dquote ++ "error" ++ E2B.dquote ++ ": " ++ E2B.dquote
   ++ "Not found" ++ E2B.dquote ++ "}")%string.

(** [gh-mcp] succeeded and the file itself mentions the word. *)
Definition logging_source_text : string := "catch (e) { console.error(e); }".

(** The session is created but runs no script. *)
Definition no_script_runs : E2B.service :=
  E2B.mkService
    (fun _ => Js.Resolved good_sandbox)
    (fun _ _ => Js.Rejected sandbox_error)
    (fun _ => Js.Resolved tt)
    (fun _ => None)
    (fun _ => "00000000-0000-4000-8000-000000000000").

(** The session cannot be killed. *)
Definition kill_fails : E2B.service :=
  E2B.mkService
    (fun _ => Js.Resolved good_sandbox)
    (fun _ _ => printed "ok")
    (fun _ => Js.Rejected (E2B.Error "Cleanup error"))
    (fun _ => None)
    (fun _ => "00000000-0000-4000-8000-000000000000").






(** A deployment whose database comes up at the third attempt and whose
    schema file lies under the working directory. *)
Definition deployment : Migrate.env :=
  Migrate.mkEnv
    (Some "postgres://localhost/compliance")
    (fun n => if (n <? 2)%nat then Js.Rejected connection_lost else Js.Resolved tt)
    (fun loc =>
       match loc with
       | Migrate.beside_scripts => "/app/backend/src/db/schema.sql"
       | Migrate.above_dist => "/app/src/db/schema.sql"
       | Migrate.under_cwd => "/app/backend/src/db/schema.sql"
       end)
    (fun loc => match loc with Migrate.under_cwd => true | _ => false end)
    (fun _ => Js.Resolved "CREATE TABLE analyses ();")
    (fun _ => Js.Resolved tt)
    (fun _ => None)
    (Js.Resolved tt).

(** The same deployment with a database that never comes up. *)
Definition database_down : Migrate.env :=
  Migrate.mkEnv
    (Some "postgres://localhost/compliance")
    (fun _ => Js.Rejected connection_lost)
    (Migrate.path_of deployment)
    (Migrate.existsSync deployment)
    (Migrate.readFileSync deployment)
    (Migrate.query deployment)
    (fun _ => None)
    (Js.Resolved tt).

(** The same deployment on a server that refuses the schema. *)
Definition schema_refused : Migrate.env :=
  Migrate.mkEnv
    (Some "postgres://localhost/compliance")
    (fun _ => Js.Resolved tt)
    (Migrate.path_of deployment)
    (Migrate.existsSync deployment)
    (Migrate.readFileSync deployment)
    (fun _ => Js.Rejected (Js.mkError (Some "42601") "syntax error"))
    (fun _ => None)
    (Js.Resolved tt).

Definition context : E2B.E2BAnalysisContext :=
  E2B.mkContext
    [E2B.mkFile "test.js" E2B.modified 1 0 (Js.value "test content")]
    (E2B.mkPR "testowner" "testrepo" 1).

(** An agent whose session is up. *)
Definition running : E2B.world :=
  E2B.mkWorld (Some (E2B.mkSandbox "sandbox-1")) "test_github_token" 1 2 0 0 [].

End Sample.

(* ================================================================== *)
(** ** Properties of the store and of [saveAnalysis]                   *)
(* ================================================================== *)

Section StoreFacts.

Variable severity_rank : Severity.t -> nat.
Variable numeric_avg : list Z -> string.

Local Abbreviation exec := (Pg.exec severity_rank numeric_avg).
Local Abbreviation client_query := (Db.client_query severity_rank numeric_avg).
Local Abbreviation query := (Db.query severity_rank numeric_avg).
Local Abbreviation saveAnalysis := (AnalysisRepository.saveAnalysis severity_rank numeric_avg).
Local Abbreviation getAnalysis := (AnalysisRepository.getAnalysis severity_rank numeric_avg).

(** An insertion on the leased client inside an open block never touches
    the committed tables: it extends the uncommitted work or aborts. *)
Lemma exec_insert_in_block st ins s work :
  Pg.insertion st = Some ins ->
  Pg.session s = Pg.Open work ->
  Pg.committed (snd (exec Pg.Client st s)) = Pg.committed s
  /\ Pg.provisioned (snd (exec Pg.Client st s)) = Pg.provisioned s
  /\ match fst (exec Pg.Client st s) with
     | Js.Resolved _ =>
         exists work', ins work = Js.Resolved work'
                       /\ Pg.session (snd (exec Pg.Client st s)) = Pg.Open work'
     | Js.Rejected _ => Pg.session (snd (exec Pg.Client st s)) = Pg.Aborted
     end.
Proof.
  intros Hins Hs.
  unfold Pg.exec, Pg.take_fault.
  destruct (Pg.faults s) as [|[e|] rest]; cbn [fst snd].
  all: try (unfold Pg.fail; cbn; rewrite Hs; cbn; auto; fail).
  all: destruct st; cbn in Hins; try discriminate; inversion Hins; subst ins; clear Hins.
  all: cbn [Pg.touches_tables andb Pg.provisioned Pg.session Pg.committed].
  all: destruct (Pg.provisioned s) eqn:Hp; cbn [negb].
  all: unfold Pg.run, Pg.fail; cbn [Pg.session Pg.insertion]; rewrite Hs.
  all: cbn [Pg.insertion].
  all: try (cbn; auto; fail).
  all: first [ destruct (Pg.insert_analysis _ work) eqn:Hi
             | destruct (Pg.insert_finding _ work) eqn:Hi ].
  all: cbn; rewrite ?Hs; cbn; eauto.
Qed.

Lemma client_query_insert_in_block st ins w work :
  Pg.insertion st = Some ins ->
  Pg.session (Db.server w) = Pg.Open work ->
  Pg.committed (Db.server (snd (client_query st w))) = Pg.committed (Db.server w)
  /\ Pg.provisioned (Db.server (snd (client_query st w))) = Pg.provisioned (Db.server w)
  /\ match fst (client_query st w) with
     | Js.Resolved _ =>
         exists work', ins work = Js.Resolved work'
           /\ Pg.session (Db.server (snd (client_query st w))) = Pg.Open work'
     | Js.Rejected _ => Pg.session (Db.server (snd (client_query st w))) = Pg.Aborted
     end.
Proof.
  intros Hins Hs.
  pose proof (exec_insert_in_block st ins (Db.server w) work Hins Hs) as H.
  unfold Db.client_query, Db.on_server.
  destruct (exec Pg.Client st (Db.server w)) as [r s']; cbn in *; exact H.
Qed.

(** A statement of the block that answers proves the tables exist. *)
Lemma exec_insert_provisioned st ins s :
  Pg.insertion st = Some ins ->
  (exists x, fst (exec Pg.Client st s) = Js.Resolved x) ->
  Pg.provisioned s = true.
Proof.
  intros Hins [x Hx]. revert Hx.
  unfold Pg.exec, Pg.take_fault.
  destruct (Pg.faults s) as [|[e|] rest]; cbn [fst snd].
  all: try (unfold Pg.fail; cbn; destruct (Pg.session s); cbn; discriminate).
  all: destruct st; cbn in Hins; try discriminate.
  all: cbn [Pg.touches_tables andb Pg.provisioned].
  all: destruct (Pg.provisioned s); cbn [negb]; auto.
  all: unfold Pg.fail; cbn; destruct (Pg.session s); cbn; discriminate.
Qed.

Lemma client_query_insert_provisioned st ins w :
  Pg.insertion st = Some ins ->
  (exists x, fst (client_query st w) = Js.Resolved x) ->
  Pg.provisioned (Db.server w) = true.
Proof.
  intros Hins [x Hx].
  apply (exec_insert_provisioned st ins (Db.server w) Hins).
  revert Hx. unfold Db.client_query, Db.on_server.
  destruct (exec Pg.Client st (Db.server w)) as [r s']; cbn; eauto.
Qed.

Lemma insert_all_resolved rows : forall t t',
  Props.insert_all rows t = Js.Resolved t' ->
  Pg.analyses t' = Pg.analyses t /\ Pg.findings t' = Pg.findings t ++ rows.
Proof.
  induction rows as [|r rows IH]; intros t t' H; cbn in H.
  - inversion H; subst. rewrite app_nil_r. auto.
  - destruct (Pg.insert_finding r t) as [t1|e] eqn:E; try discriminate.
    apply IH in H. destruct H as [Ha Hf].
    unfold Pg.insert_finding in E.
    destruct (Pg.has_finding _ t); try discriminate.
    destruct (Pg.has_analysis _ t); try discriminate.
    inversion E; subst t1; cbn in *.
    rewrite Ha, Hf, <- app_assoc. auto.
Qed.

(** The loop over the findings, started inside an open block. *)
Lemma insert_findings_loop result fs : forall w work,
  Pg.session (Db.server w) = Pg.Open work ->
  let m := Async.for_of fs (fun finding =>
             Async.bind
               (client_query (Pg.InsertFinding
                  (AnalysisRepository.finding_params result finding)))
               (fun _ => Async.ret tt)) in
  Pg.committed (Db.server (snd (m w))) = Pg.committed (Db.server w)
  /\ Pg.provisioned (Db.server (snd (m w))) = Pg.provisioned (Db.server w)
  /\ match fst (m w) with
     | Js.Resolved _ =>
         exists work',
           Props.insert_all (map (AnalysisRepository.finding_params result) fs) work
             = Js.Resolved work'
           /\ Pg.session (Db.server (snd (m w))) = Pg.Open work'
     | Js.Rejected _ => Pg.session (Db.server (snd (m w))) = Pg.Aborted
     end.
Proof.
  induction fs as [|f fs IH]; intros w work Hs; cbn zeta.
  - cbn. eauto.
  - cbn [Async.for_of map Props.insert_all].
    pose proof (client_query_insert_in_block
                  (Pg.InsertFinding (AnalysisRepository.finding_params result f))
                  _ w work eq_refl Hs) as (Hc & Hp & Hr).
    unfold Async.bind in *.
    destruct (client_query _ w) as [[x|e] w1]; cbn [fst snd] in *.
    + destruct Hr as (work1 & Hi & Hs1).
      cbn [Async.ret]. rewrite Hi.
      specialize (IH w1 work1 Hs1). cbn zeta in IH.
      destruct IH as (Hc' & Hp' & Hr').
      rewrite Hc', Hp', Hc, Hp. auto.
    + auto.
Qed.

Lemma getClient_frame w :
  Pg.committed (Db.server (snd (Db.getClient w))) = Pg.committed (Db.server w)
  /\ Pg.session (Db.server (snd (Db.getClient w))) = Pg.session (Db.server w)
  /\ Pg.provisioned (Db.server (snd (Db.getClient w))) = Pg.provisioned (Db.server w).
Proof.
  unfold Db.getClient, Async.bind, Db.on_server, Pg.connect, Pg.take_fault.
  destruct (Pg.faults (Db.server w)) as [|[e|] rest]; cbn; auto.
Qed.

Lemma client_begin_idle w :
  Pg.session (Db.server w) = Pg.Idle ->
  Pg.committed (Db.server (snd (client_query Pg.Begin w))) = Pg.committed (Db.server w)
  /\ match fst (client_query Pg.Begin w) with
     | Js.Resolved _ =>
         Pg.session (Db.server (snd (client_query Pg.Begin w)))
         = Pg.Open (Pg.committed (Db.server w))
     | Js.Rejected _ => True
     end.
Proof.
  intros Hs.
  unfold Db.client_query, Db.on_server, Pg.exec, Pg.take_fault, Pg.fail.
  destruct (Pg.faults (Db.server w)) as [|[e|] rest]; cbn; rewrite Hs; cbn; auto.
Qed.

Lemma client_commit_open w work :
  Pg.session (Db.server w) = Pg.Open work ->
  match fst (client_query Pg.Commit w) with
  | Js.Resolved _ =>
      Pg.committed (Db.server (snd (client_query Pg.Commit w))) = work
      /\ Pg.session (Db.server (snd (client_query Pg.Commit w))) = Pg.Idle
      /\ Pg.provisioned (Db.server (snd (client_query Pg.Commit w)))
         = Pg.provisioned (Db.server w)
  | Js.Rejected _ =>
      Pg.committed (Db.server (snd (client_query Pg.Commit w))) = Pg.committed (Db.server w)
  end.
Proof.
  intros Hs.
  unfold Db.client_query, Db.on_server, Pg.exec, Pg.take_fault, Pg.fail.
  destruct (Pg.faults (Db.server w)) as [|[e|] rest]; cbn; rewrite Hs; cbn; auto.
Qed.

(** ROLLBACK, answered or not, leaves the committed tables alone. *)
Lemma client_rollback_frame w :
  Pg.committed (Db.server (snd (client_query Pg.Rollback w))) = Pg.committed (Db.server w).
Proof.
  unfold Db.client_query, Db.on_server, Pg.exec, Pg.take_fault, Pg.fail.
  destruct (Pg.faults (Db.server w)) as [|[e|] rest]; cbn; auto.
  destruct (Pg.session (Db.server w)); cbn; auto.
Qed.

(** [saveAnalysis] is its blocks put together. *)
Lemma saveAnalysis_blocks result :
  saveAnalysis result
  = Async.bind Db.getClient (fun _ =>
      Async.try_finally
        (Async.try_catch (Props.save_try severity_rank numeric_avg result)
                         (Props.save_catch severity_rank numeric_avg))
        Db.release).
Proof. reflexivity. Qed.

(** The [catch] block: the caller gets an error and the committed tables
    are as they were when the block was entered. *)
Lemma save_catch_spec (error : Js.Error) w r w' :
  Props.save_catch severity_rank numeric_avg error w = (r, w') ->
  (exists e, r = Js.Rejected e)
  /\ Pg.committed (Db.server w') = Pg.committed (Db.server w).
Proof.
  unfold Props.save_catch, Async.bind.
  pose proof (client_rollback_frame w) as Hr.
  destruct (client_query Pg.Rollback w) as [[x|e] w1]; cbn in *;
    intros H; inversion H; subst; cbn; eauto.
Qed.

(** The [try] block, entered with no transaction open. *)
Lemma save_try_spec result w r w' :
  Pg.session (Db.server w) = Pg.Idle ->
  Props.save_try severity_rank numeric_avg result w = (r, w') ->
  match r with
  | Js.Resolved _ =>
      Pg.committed (Db.server w') = Props.with_rows result (Pg.committed (Db.server w))
      /\ Pg.has_analysis (AnalysisResult.id result) (Pg.committed (Db.server w)) = false
      /\ Pg.provisioned (Db.server w') = true
  | Js.Rejected _ => Pg.committed (Db.server w') = Pg.committed (Db.server w)
  end.
Proof.
  intros Hidle H.
  unfold Props.save_try in H.
  (* BEGIN *)
  unfold Async.bind at 1 in H.
  pose proof (client_begin_idle w Hidle) as (Hc1 & Hs1).
  destruct (client_query Pg.Begin w) as [[x1|e1] w1]; cbn [fst snd] in *;
    [|inversion H; subst; exact Hc1].
  (* INSERT INTO analyses *)
  unfold Async.bind at 1 in H.
  pose proof (client_query_insert_in_block
                (Pg.InsertAnalysis (AnalysisRepository.analysis_params result))
                _ w1 _ eq_refl Hs1) as (Hc2 & Hp2 & Hr2).
  pose proof (client_query_insert_provisioned
                (Pg.InsertAnalysis (AnalysisRepository.analysis_params result))
                _ w1 eq_refl) as Hprov.
  destruct (client_query (Pg.InsertAnalysis _) w1) as [[x2|e2] w2]; cbn [fst snd] in *;
    [|inversion H; subst; cbn; congruence].
  destruct Hr2 as (work2 & Hi2 & Hs2).
  specialize (Hprov (ex_intro _ x2 eq_refl)).
  unfold Pg.insert_analysis in Hi2.
  destruct (Pg.has_analysis _ (Pg.committed (Db.server w))) eqn:Hfresh; [discriminate|].
  inversion Hi2; subst work2; clear Hi2.
  (* the loop *)
  unfold Async.bind at 1 in H.
  pose proof (insert_findings_loop result (AnalysisResult.findings result) w2 _ Hs2)
    as Hloop.
  cbn zeta in Hloop. destruct Hloop as (Hc3 & Hp3 & Hr3).
  destruct (Async.for_of _ _ w2) as [[x3|e3] w3]; cbn [fst snd] in *;
    [|inversion H; subst; congruence].
  destruct Hr3 as (work3 & Hi3 & Hs3).
  apply insert_all_resolved in Hi3. cbn in Hi3. destruct Hi3 as [Ha3 Hf3].
  (* COMMIT *)
  unfold Async.bind at 1 in H.
  pose proof (client_commit_open w3 work3 Hs3) as Hcommit.
  destruct (client_query Pg.Commit w3) as [[x4|e4] w4]; cbn [fst snd] in *;
    [|inversion H; subst; congruence].
  destruct Hcommit as (Hc4 & Hs4 & Hp4).
  unfold Db.logger, Async.modify in H. injection H as <- <-. cbn [Db.server].
  split; [|split; [reflexivity|congruence]].
  rewrite Hc4. unfold Props.with_rows. destruct work3; cbn in *. congruence.
Qed.

(** What one call of [saveAnalysis] does to the committed tables. *)
Lemma saveAnalysis_spec result w r w' :
  Pg.session (Db.server w) = Pg.Idle ->
  saveAnalysis result w = (r, w') ->
  match r with
  | Js.Resolved _ =>
      Pg.committed (Db.server w') = Props.with_rows result (Pg.committed (Db.server w))
      /\ Pg.has_analysis (AnalysisResult.id result) (Pg.committed (Db.server w)) = false
      /\ Pg.provisioned (Db.server w') = true
  | Js.Rejected _ => Pg.committed (Db.server w') = Pg.committed (Db.server w)
  end.
Proof.
  intros Hidle H.
  rewrite saveAnalysis_blocks in H.
  unfold Async.bind in H.
  pose proof (getClient_frame w) as (Hc0 & Hs0 & Hp0).
  destruct (Db.getClient w) as [[[]|e0] w0]; cbn [fst snd] in *;
    [|inversion H; subst; exact Hc0].
  rewrite Hidle in Hs0.
  unfold Async.try_finally, Async.try_catch in H.
  pose proof (save_try_spec result w0) as Htry.
  destruct (Props.save_try _ _ result w0) as [[x|e] w1].
  - specialize (Htry _ _ Hs0 eq_refl). cbn in Htry, H.
    inversion H; subst; cbn. rewrite <- Hc0. exact Htry.
  - specialize (Htry _ _ Hs0 eq_refl). cbn in Htry.
    pose proof (save_catch_spec e w1) as Hcatch.
    destruct (Props.save_catch _ _ e w1) as [r2 w2].
    destruct (Hcatch _ _ eq_refl) as [[e' ->] Hc2].
    cbn in H. inversion H; subst; cbn. congruence.
Qed.

(* ------------------------------------------------------------------ *)
(** *** What a call leaves untouched *)

Lemma preserves_ret {A X} (f : Db.world -> X) (a : A) : Props.preserves f (Async.ret a).
Proof. intros w. reflexivity. Qed.

Lemma preserves_throw {A X} (f : Db.world -> X) e :
  Props.preserves f (Async.throw (A:=A) e).
Proof. intros w. reflexivity. Qed.

Lemma preserves_bind {A B X} (f : Db.world -> X) (m : Async.t Db.world A)
      (k : A -> Async.t Db.world B) :
  Props.preserves f m -> (forall a, Props.preserves f (k a)) ->
  Props.preserves f (Async.bind m k).
Proof.
  intros Hm Hk w. unfold Async.bind. specialize (Hm w).
  destruct (m w) as [[a|e] w1]; cbn [snd] in *; [|exact Hm].
  rewrite Hk. exact Hm.
Qed.

Lemma preserves_try_catch {A X} (f : Db.world -> X) (m : Async.t Db.world A) h :
  Props.preserves f m -> (forall e, Props.preserves f (h e)) ->
  Props.preserves f (Async.try_catch m h).
Proof.
  intros Hm Hh w. unfold Async.try_catch. specialize (Hm w).
  destruct (m w) as [[a|e] w1]; cbn [snd] in *; [exact Hm|].
  rewrite Hh. exact Hm.
Qed.

Lemma preserves_for_of {A X} (f : Db.world -> X) (body : A -> Async.t Db.world unit) l :
  (forall a, Props.preserves f (body a)) -> Props.preserves f (Async.for_of l body).
Proof.
  intros Hb. induction l as [|a l IH]; cbn [Async.for_of].
  - apply preserves_ret.
  - apply preserves_bind; auto.
Qed.

Lemma preserves_logger {X} (f : Db.world -> X) l msg d :
  (forall w lg, f (Db.mkWorld (Db.server w) (Db.leased w) lg) = f w) ->
  Props.preserves f (Db.logger l msg d).
Proof. intros H w. unfold Db.logger, Async.modify. cbn. apply H. Qed.


Lemma client_query_leased st : Props.preserves Db.leased (client_query st).
Proof.
  intros w. unfold Db.client_query, Db.on_server.
  destruct (exec Pg.Client st (Db.server w)); reflexivity.
Qed.


Lemma save_blocks_preserve {X} (f : Db.world -> X) result :
  (forall st, Props.preserves f (client_query st)) ->
  (forall w lg, f (Db.mkWorld (Db.server w) (Db.leased w) lg) = f w) ->
  Props.preserves f (Props.save_try severity_rank numeric_avg result)
  /\ forall e, Props.preserves f (Props.save_catch severity_rank numeric_avg e).
Proof.
  intros Hq Hl. split; [|intros e]; unfold Props.save_try, Props.save_catch.
  all: repeat first
         [ apply preserves_bind; [|intros ?]
         | apply preserves_for_of; intros ?
         | apply preserves_logger; exact Hl
         | apply preserves_ret
         | apply preserves_throw
         | apply Hq ].
Qed.



(** [saveAnalysis] holds no client when it returns: the one it leased is
    released on every path. *)
Lemma saveAnalysis_leased result w :
  Db.leased (snd (saveAnalysis result w)) = Db.leased w.
Proof.
  rewrite saveAnalysis_blocks.
  destruct (save_blocks_preserve Db.leased result client_query_leased
              (fun _ _ => eq_refl)) as [Htry Hcatch].
  pose proof (preserves_try_catch Db.leased _ _ Htry Hcatch) as Hblock.
  unfold Async.bind, Async.try_finally.
  unfold Db.getClient at 1, Async.bind, Db.on_server, Pg.connect, Pg.take_fault,
    Async.modify.
  destruct (Pg.faults (Db.server w)) as [|[e|] rest]; cbn [fst snd]; try reflexivity.
  all: match goal with
       | |- context [Async.try_catch ?b ?h ?w0] =>
           specialize (Hblock w0); destruct (Async.try_catch b h w0) as [r w1]
       end; cbn in *; rewrite Hblock; reflexivity.
Qed.

(* ------------------------------------------------------------------ *)
(** *** Reading *)

Lemma answers_cases n s :
  Props.answers (S n) s ->
  Pg.faults s = [] \/ exists rest, Pg.faults s = None :: rest /\ Forall (fun f => f = None) (firstn n rest).
Proof.
  unfold Props.answers. destruct (Pg.faults s) as [|f rest]; cbn; auto.
  intros H. inversion H; subst. right. eauto.
Qed.

(** Only the insertion of a finding names a reserved word. *)
Lemma parse_cases st :
  (exists r, st = Pg.InsertFinding r /\ Pg.parse st = Some (Pg.syntax_error "column"))
  \/ ((forall r, st <> Pg.InsertFinding r) /\ Pg.parse st = None).
Proof.
  destruct st; try (right; split; [discriminate|reflexivity]).
  left. eauto.
Qed.

Lemma parse_select st : Pg.insertion st = None -> Pg.parse st = None.
Proof. destruct st; try discriminate; reflexivity. Qed.

(** A read through the pool that the server answers. *)
Lemma query_select st w rows :
  Pg.insertion st = None ->
  Pg.provisioned (Db.server w) = true ->
  Props.answers 1 (Db.server w) ->
  Pg.select severity_rank numeric_avg st (Pg.committed (Db.server w)) = Js.Resolved rows ->
  fst (query st w) = Js.Resolved rows
  /\ Pg.committed (Db.server (snd (query st w))) = Pg.committed (Db.server w)
  /\ Pg.provisioned (Db.server (snd (query st w))) = true
  /\ Pg.faults (Db.server (snd (query st w))) = tl (Pg.faults (Db.server w)).
Proof.
  intros Hins Hp Ha Hsel.
  unfold Db.query, Async.try_catch, Async.bind, Db.pool_query, Db.on_server,
    Pg.exec, Pg.take_fault.
  destruct (answers_cases _ _ Ha) as [Hf|(rest & Hf & _)]; rewrite Hf; cbn [fst snd].
  all: rewrite (parse_select _ Hins).
  all: cbn [Pg.provisioned]; rewrite Hp, andb_false_r.
  all: unfold Pg.run; rewrite Hins; cbn [Pg.committed]; rewrite Hsel; cbn; auto.
Qed.

Lemma has_analysis_false_filter id t :
  Pg.has_analysis id t = false ->
  filter (fun r => AnalysisRow.id r =? id) (Pg.analyses t) = [].
Proof.
  unfold Pg.has_analysis. induction (Pg.analyses t) as [|r l IH]; cbn; auto.
  destruct (AnalysisRow.id r =? id); cbn; [discriminate|auto].
Qed.

(** Under the foreign key, an id without analysis row has no finding row. *)
Lemma no_orphans id t :
  Props.consistent t ->
  Pg.has_analysis id t = false ->
  filter (fun r => FindingRow.analysis_id r =? id) (Pg.findings t) = [].
Proof.
  intros Hc Hid. unfold Props.consistent in Hc.
  induction (Pg.findings t) as [|f l IH]; cbn; auto.
  destruct (FindingRow.analysis_id f =? id) eqn:E.
  - apply String.eqb_eq in E. rewrite <- E in Hid.
    rewrite (Hc f) in Hid; [discriminate|now left].
  - apply IH. intros f' Hin. apply Hc. now right.
Qed.

Lemma own_findings result fs :
  filter (fun r => FindingRow.analysis_id r =? AnalysisResult.id result)
         (map (AnalysisRepository.finding_params result) fs)
  = map (AnalysisRepository.finding_params result) fs.
Proof.
  induction fs as [|f fs IH]; cbn; auto.
  rewrite String.eqb_refl, IH. reflexivity.
Qed.

Lemma insert_by_map {A B} (f : A -> B) leA leB :
  (forall a b, leB (f a) (f b) = leA a b) ->
  forall x l, Pg.insert_by leB (f x) (map f l) = map f (Pg.insert_by leA x l).
Proof.
  intros H x l. induction l as [|y l IH]; cbn; auto.
  rewrite H. destruct (leA x y); cbn; congruence.
Qed.

Lemma order_by_map {A B} (f : A -> B) leA leB :
  (forall a b, leB (f a) (f b) = leA a b) ->
  forall l, Pg.order_by leB (map f l) = map f (Pg.order_by leA l).
Proof.
  intros H l. induction l as [|x l IH]; cbn; auto.
  unfold Pg.order_by in *. rewrite IH. apply insert_by_map, H.
Qed.

Lemma read_le_mapToFinding a b :
  Props.read_le severity_rank (AnalysisRepository.mapToFinding a)
                              (AnalysisRepository.mapToFinding b)
  = Pg.findings_le severity_rank a b.
Proof.
  unfold Props.read_le, Pg.findings_le; cbn.
  destruct (Nat.compare _ _); auto.
  destruct (String.compare _ _); auto.
  destruct (FindingRow.line a), (FindingRow.line b); reflexivity.
Qed.

Lemma mapToFinding_params result f :
  AnalysisRepository.mapToFinding (AnalysisRepository.finding_params result f)
  = Props.as_stored f.
Proof. reflexivity. Qed.

(** The rows of a saved result, read and reassembled, are [read_back]. *)
Lemma reassembled result :
  AnalysisRepository.mapToAnalysisResult
    (AnalysisRepository.analysis_params result)
    (Pg.order_by (Pg.findings_le severity_rank)
       (map (AnalysisRepository.finding_params result) (AnalysisResult.findings result)))
  = Props.read_back severity_rank result.
Proof.
  unfold AnalysisRepository.mapToAnalysisResult, Props.read_back.
  rewrite <- (order_by_map AnalysisRepository.mapToFinding
                (Pg.findings_le severity_rank) (Props.read_le severity_rank)
                read_le_mapToFinding).
  rewrite map_map.
  destruct result as [i p n st fs at_ d [a b c dd e f g]]; cbn.
  reflexivity.
Qed.

(** [getAnalysis] on tables that hold the rows of [result]. *)
Lemma getAnalysis_finds result t0 w :
  Pg.committed (Db.server w) = Props.with_rows result t0 ->
  Pg.has_analysis (AnalysisResult.id result) t0 = false ->
  Props.consistent t0 ->
  Pg.provisioned (Db.server w) = true ->
  Props.answers 2 (Db.server w) ->
  fst (getAnalysis (AnalysisResult.id result) w)
  = Js.Resolved (Some (Props.read_back severity_rank result)).
Proof.
  intros Hc Hfresh Hcons Hp Ha.
  unfold AnalysisRepository.getAnalysis, Async.try_catch.
  unfold Async.bind at 1.
  assert (Ha1 : Props.answers 1 (Db.server w)).
  { unfold Props.answers in *. destruct (Pg.faults (Db.server w)) as [|f rest]; cbn in *; auto.
    inversion Ha; subst. constructor; auto. }
  pose proof (query_select (Pg.SelectAnalysisById (AnalysisResult.id result)) w _
                eq_refl Hp Ha1 eq_refl) as (Hr1 & Hc1 & Hp1 & Hf1).
  destruct (query (Pg.SelectAnalysisById _) w) as [r1 w1]; cbn [fst snd] in *.
  subst r1. cbn [AnalysisRepository.analysis_rows].
  rewrite Hc. unfold Props.with_rows at 1. cbn [Pg.analyses].
  rewrite filter_app, (has_analysis_false_filter _ _ Hfresh).
  cbn [filter app AnalysisRepository.analysis_params AnalysisRow.id].
  rewrite String.eqb_refl.
  unfold Async.bind at 1.
  assert (Ha2 : Props.answers 1 (Db.server w1)).
  { unfold Props.answers in *. rewrite Hf1.
    destruct (Pg.faults (Db.server w)) as [|f [|g rest]]; cbn in *; auto.
    inversion Ha as [|? ? _ Ha']; subst. exact Ha'. }
  pose proof (query_select (Pg.SelectFindingsOrdered (AnalysisResult.id result)) w1 _
                eq_refl Hp1 Ha2 eq_refl) as (Hr2 & _).
  destruct (query (Pg.SelectFindingsOrdered _) w1) as [r2 w2]; cbn [fst snd] in *.
  subst r2. cbn [Async.ret fst AnalysisRepository.finding_rows].
  rewrite Hc1, Hc. unfold Props.with_rows at 1. cbn [Pg.findings].
  rewrite filter_app, (no_orphans _ _ Hcons Hfresh), own_findings. cbn [app].
  rewrite reassembled. reflexivity.
Qed.


(* ------------------------------------------------------------------ *)
(** *** Ordering *)

Lemma insert_by_perm {A} (le : A -> A -> bool) x l :
  Permutation (x :: l) (Pg.insert_by le x l).
Proof.
  induction l as [|y l IH]; cbn; auto.
  destruct (le x y); auto.
  rewrite perm_swap. constructor. exact IH.
Qed.

Lemma order_by_perm {A} (le : A -> A -> bool) l :
  Permutation l (Pg.order_by le l).
Proof.
  induction l as [|x l IH]; cbn; auto.
  rewrite <- insert_by_perm. constructor. exact IH.
Qed.

Lemma insert_by_sorted {A} (le : A -> A -> bool) :
  (forall x y, le x y = false -> le y x = true) ->
  forall x l, Props.sorted_by le l = true -> Props.sorted_by le (Pg.insert_by le x l) = true.
Proof.
  intros Htotal x l. induction l as [|y l IH]; intros Hs; cbn; auto.
  destruct (le x y) eqn:E.
  - cbn [Props.sorted_by]. rewrite E. exact Hs.
  - specialize (Htotal _ _ E).
    destruct l as [|z l]; cbn in *.
    + rewrite Htotal. reflexivity.
    + apply andb_true_iff in Hs. destruct Hs as [Hyz Hs].
      specialize (IH Hs).
      destruct (le x z) eqn:Exz; cbn in *; rewrite ?Htotal, ?Hyz; auto.
Qed.

Lemma order_by_sorted {A} (le : A -> A -> bool) :
  (forall x y, le x y = false -> le y x = true) ->
  forall l, Props.sorted_by le (Pg.order_by le l) = true.
Proof.
  intros Htotal l. induction l as [|x l IH]; cbn; auto.
  apply insert_by_sorted; assumption.
Qed.

Lemma order_by_of_sorted {A} (le : A -> A -> bool) l :
  Props.sorted_by le l = true -> Pg.order_by le l = l.
Proof.
  induction l as [|x l IH]; intros H; [reflexivity|].
  cbn [Pg.order_by fold_right]. fold (Pg.order_by le l).
  destruct l as [|y l]; [reflexivity|].
  cbn [Props.sorted_by] in H. apply andb_true_iff in H. destruct H as [Hxy Hs].
  rewrite (IH Hs). cbn [Pg.insert_by]. rewrite Hxy. reflexivity.
Qed.

Lemma read_le_total a b :
  Props.read_le severity_rank a b = false -> Props.read_le severity_rank b a = true.
Proof.
  unfold Props.read_le.
  rewrite (Nat.compare_antisym (severity_rank (ComplianceFinding.severity a))).
  destruct (Nat.compare _ _); cbn; try discriminate; auto.
  rewrite (String.compare_antisym (ComplianceFinding.file a)).
  destruct (String.compare _ _); cbn; try discriminate; auto.
  destruct (ComplianceFinding.line a), (ComplianceFinding.line b); try discriminate; auto.
  intros H. apply Z.leb_gt in H. apply Z.leb_le. lia.
Qed.


(** Whatever [getAnalysis] finds, its findings are in the order of the
    columns severity, file, line. *)
Lemma getAnalysis_sorted id w one :
  Pg.provisioned (Db.server w) = true ->
  Props.answers 2 (Db.server w) ->
  fst (getAnalysis id w) = Js.Resolved (Some one) ->
  Props.sorted_by (Props.read_le severity_rank) (AnalysisResult.findings one) = true.
Proof.
  intros Hp Ha.
  unfold AnalysisRepository.getAnalysis, Async.try_catch.
  unfold Async.bind at 1.
  assert (Ha1 : Props.answers 1 (Db.server w)).
  { unfold Props.answers in *. destruct (Pg.faults (Db.server w)) as [|f rest]; cbn in *; auto.
    inversion Ha; subst. constructor; auto. }
  pose proof (query_select (Pg.SelectAnalysisById id) w _ eq_refl Hp Ha1 eq_refl)
    as (Hr1 & Hc1 & Hp1 & Hf1).
  destruct (query (Pg.SelectAnalysisById _) w) as [r1 w1]; cbn [fst snd] in *.
  subst r1. cbn [AnalysisRepository.analysis_rows].
  destruct (filter _ (Pg.analyses (Pg.committed (Db.server w)))) as [|row rows];
    [discriminate|].
  unfold Async.bind at 1.
  assert (Ha2 : Props.answers 1 (Db.server w1)).
  { unfold Props.answers in *. rewrite Hf1.
    destruct (Pg.faults (Db.server w)) as [|f [|g rest]]; cbn in *; auto.
    inversion Ha as [|? ? _ Ha']; subst. exact Ha'. }
  pose proof (query_select (Pg.SelectFindingsOrdered id) w1 _ eq_refl Hp1 Ha2 eq_refl)
    as (Hr2 & _).
  destruct (query (Pg.SelectFindingsOrdered _) w1) as [r2 w2]; cbn [fst snd] in *.
  subst r2. cbn [Async.ret fst AnalysisRepository.finding_rows].
  intros H. injection H as <-.
  cbn [AnalysisRepository.mapToAnalysisResult AnalysisResult.findings].
  rewrite <- (order_by_map AnalysisRepository.mapToFinding
                (Pg.findings_le severity_rank) (Props.read_le severity_rank)
                read_le_mapToFinding).
  apply order_by_sorted, read_le_total.
Qed.

(* ------------------------------------------------------------------ *)
(** *** The insertion of a finding *)

(** The server never accepts the insertion of a finding. *)
Lemma exec_insert_finding c r s :
  exists e, fst (exec c (Pg.InsertFinding r) s) = Js.Rejected e.
Proof.
  unfold Pg.exec, Pg.take_fault, Pg.fail.
  destruct (Pg.faults s) as [|[e|] rest]; cbn [fst snd Pg.parse Pg.session].
  all: destruct c; cbn; try (destruct (Pg.session s)); cbn; eauto.
Qed.

Lemma client_insert_finding r w :
  exists e, fst (client_query (Pg.InsertFinding r) w) = Js.Rejected e.
Proof.
  destruct (exec_insert_finding Pg.Client r (Db.server w)) as [e He].
  exists e. unfold Db.client_query, Db.on_server.
  destruct (exec Pg.Client (Pg.InsertFinding r) (Db.server w)) as [x s'].
  exact He.
Qed.

(** So the [try] block of [saveAnalysis] gets through with no finding
    only. *)
Lemma save_try_no_findings result w x w' :
  Props.save_try severity_rank numeric_avg result w = (Js.Resolved x, w') ->
  AnalysisResult.findings result = [].
Proof.
  unfold Props.save_try.
  unfold Async.bind at 1.
  destruct (client_query Pg.Begin w) as [[x1|e1] w1]; [|discriminate].
  unfold Async.bind at 1.
  destruct (client_query (Pg.InsertAnalysis _) w1) as [[x2|e2] w2]; [|discriminate].
  unfold Async.bind at 1.
  destruct (AnalysisResult.findings result) as [|f fs]; [reflexivity|].
  cbn [Async.for_of]. unfold Async.bind at 1 2.
  destruct (client_insert_finding (AnalysisRepository.finding_params result f) w2)
    as [e He].
  destruct (client_query (Pg.InsertFinding _) w2) as [r3 w3]. cbn [fst] in He. subst r3.
  discriminate.
Qed.

Lemma saveAnalysis_no_findings result w w' :
  saveAnalysis result w = (Js.Resolved tt, w') ->
  AnalysisResult.findings result = [].
Proof.
  rewrite saveAnalysis_blocks. unfold Async.bind, Async.try_finally, Async.try_catch.
  destruct (Db.getClient w) as [[[]|e0] w0]; [|discriminate].
  destruct (Props.save_try _ _ result w0) as [[x|e] w1] eqn:Htry.
  - intros _. eapply save_try_no_findings; eauto.
  - pose proof (save_catch_spec e w1) as Hcatch.
    destruct (Props.save_catch _ _ e w1) as [r2 w2].
    destruct (Hcatch _ _ eq_refl) as [[e' ->] _].
    destruct (Db.release w2) as [[[]|e3] w3]; discriminate.
Qed.

Lemma read_back_no_findings result :
  AnalysisResult.findings result = [] -> Props.read_back severity_rank result = result.
Proof.
  destruct result as [i p n st fs at_ d stats]. cbn. intros ->. reflexivity.
Qed.

(** A result that was saved is found, as it was saved. *)
Lemma saved_is_found result w w1 :
  Pg.session (Db.server w) = Pg.Idle ->
  Props.consistent (Pg.committed (Db.server w)) ->
  saveAnalysis result w = (Js.Resolved tt, w1) ->
  Props.answers 2 (Db.server w1) ->
  fst (getAnalysis (AnalysisResult.id result) w1) = Js.Resolved (Some result).
Proof.
  intros Hidle Hcons Hsave Hans.
  pose proof (saveAnalysis_spec _ _ _ _ Hidle Hsave) as (Hc & Hfresh & Hp).
  rewrite (getAnalysis_finds result _ w1 Hc Hfresh Hcons Hp Hans).
  rewrite (read_back_no_findings _ (saveAnalysis_no_findings _ _ _ Hsave)).
  reflexivity.
Qed.

End StoreFacts.

(* ================================================================== *)
(** ** The repository: invariant, atomicity, round trip, ordering      *)
(* ================================================================== *)

(** Aggregation establishes the invariant: statistics recomputed from a
    list of findings count it exactly. *)
Lemma computeStats_invariant id pr repo st fs at_ d nfiles :
  Props.stats_invariant
    (AnalysisResult.mk id pr repo st fs at_ d (Aggregator.computeStats nfiles fs)).
Proof.
  unfold Props.stats_invariant; cbn. split; [reflexivity|].
  unfold Aggregator.count.
  induction fs as [|f fs IH]; cbn [filter List.length]; [reflexivity|].
  destruct (ComplianceFinding.severity f); cbn [Severity.eqb List.length]; lia.
Qed.

(** C1, as the code has it -- the repository keeps the invariant
    [stats.totalFindings = len(findings)] and
    [critical + high + medium + low + info = stats.totalFindings]; it
    does not establish it.  [saveAnalysis] stores the statistics as they
    are given, unchecked, and a result saved and read back by
    [getAnalysis] has the statistics and the number of findings that
    were saved: it satisfies the invariant exactly when the saved result
    did. *)
Theorem stats_invariant_round_trip
  (severity_rank : Severity.t -> nat) (numeric_avg : list Z -> string)
  (result : AnalysisResult.t) (w w1 : Db.world) :
  Pg.session (Db.server w) = Pg.Idle ->
  Props.consistent (Pg.committed (Db.server w)) ->
  AnalysisRepository.saveAnalysis severity_rank numeric_avg result w = (Js.Resolved tt, w1) ->
  Props.answers 2 (Db.server w1) ->
  exists back,
    fst (AnalysisRepository.getAnalysis severity_rank numeric_avg
           (AnalysisResult.id result) w1) = Js.Resolved (Some back)
    /\ AnalysisResult.stats back = AnalysisResult.stats result
    /\ List.length (AnalysisResult.findings back)
       = List.length (AnalysisResult.findings result)
    /\ (Props.stats_invariant back <-> Props.stats_invariant result).
Proof.
  intros Hidle Hcons Hsave Hans.
  exists result. split; [eapply saved_is_found; eauto|].
  split; [reflexivity|]. split; [reflexivity|]. tauto.
Qed.

(** A result with no finding and statistics that say so, through an
    empty store. *)
Lemma stats_invariant_round_trip_witness :
  exists back,
    fst (AnalysisRepository.getAnalysis Sample.enum_rank Sample.avg_text
           (AnalysisResult.id Sample.quiet)
           (snd (AnalysisRepository.saveAnalysis Sample.enum_rank Sample.avg_text
                   Sample.quiet Sample.fresh)))
    = Js.Resolved (Some back)
    /\ Props.stats_invariant back.
Proof.
  destruct (stats_invariant_round_trip Sample.enum_rank Sample.avg_text
              Sample.quiet Sample.fresh
              (snd (AnalysisRepository.saveAnalysis Sample.enum_rank Sample.avg_text
                      Sample.quiet Sample.fresh)))
    as (back & Hget & _ & _ & Hinv).
  - reflexivity.
  - intros f [].
  - reflexivity.
  - repeat constructor.
  - exists back. split; [exact Hget|]. apply Hinv. split; reflexivity.
Defined.

(** C1, as stated, fails: a result with no finding whose statistics count
    five is saved, and [getAnalysis] returns it with those statistics, so
    a result returned after a round trip does not satisfy the
    invariant. *)
Lemma round_trip_returns_miscounted_stats :
  let w1 := snd (AnalysisRepository.saveAnalysis Sample.enum_rank Sample.avg_text
                   Sample.miscounted Sample.fresh) in
  fst (AnalysisRepository.saveAnalysis Sample.enum_rank Sample.avg_text
         Sample.miscounted Sample.fresh) = Js.Resolved tt
  /\ exists back,
       fst (AnalysisRepository.getAnalysis Sample.enum_rank Sample.avg_text
              "analysis-9" w1) = Js.Resolved (Some back)
       /\ AnalysisResult.findings back = []
       /\ Stats.totalFindings (AnalysisResult.stats back) = 5%Z
       /\ ~ Props.stats_invariant back.
Proof.
  cbn zeta. split; [reflexivity|].
  eexists. split; [reflexivity|]. split; [reflexivity|]. split; [reflexivity|].
  intros [H _]. discriminate H.
Qed.

(** C2 -- [saveAnalysis] is atomic.  Started on a client with no
    transaction open, it either resolves with the analysis row and all
    finding rows committed together, or it rejects: the caller gets an
    error and the committed tables are exactly what they were, so an id
    that had no row before has no row in either table afterwards. *)
Theorem saveAnalysis_atomic
  (severity_rank : Severity.t -> nat) (numeric_avg : list Z -> string)
  (result : AnalysisResult.t) (w : Db.world) :
  Pg.session (Db.server w) = Pg.Idle ->
  let outcome := AnalysisRepository.saveAnalysis severity_rank numeric_avg result w in
  let before := Pg.committed (Db.server w) in
  let after := Pg.committed (Db.server (snd outcome)) in
  (fst outcome = Js.Resolved tt /\ after = Props.with_rows result before)
  \/ ((exists e, fst outcome = Js.Rejected e)
      /\ after = before
      /\ (Props.rows_for (AnalysisResult.id result) before = (0, 0)
          -> Props.rows_for (AnalysisResult.id result) after = (0, 0))).
Proof.
  intros Hidle outcome before after. subst before after.
  destruct outcome as [r w'] eqn:E; cbn [fst snd].
  pose proof (saveAnalysis_spec _ _ _ _ _ _ Hidle E) as H.
  destruct r as [[]|e].
  - left. destruct H as (Hc & _). auto.
  - right. rewrite H. eauto.
Qed.

(** A failure forced in the middle of the transaction: no row remains. *)
Lemma saveAnalysis_atomic_witness :
  (exists e, fst (AnalysisRepository.saveAnalysis Sample.enum_rank Sample.avg_text
                    Sample.result Sample.failing_midway) = Js.Rejected e)
  /\ Props.rows_for (AnalysisResult.id Sample.result)
       (Pg.committed (Db.server (snd (AnalysisRepository.saveAnalysis
          Sample.enum_rank Sample.avg_text Sample.result Sample.failing_midway))))
     = (0, 0).
Proof.
  destruct (saveAnalysis_atomic Sample.enum_rank Sample.avg_text
              Sample.result Sample.failing_midway eq_refl) as [[H _]|(He & _ & H)].
  - discriminate H.
  - split; [exact He | exact (H eq_refl)].
Defined.



(** C4 -- the list operations do not order the findings.  On a store that
    holds an analysis with a low finding stored before a critical one,
    [getRecentAnalyses] and [getAnalysesByRepo] return the findings in
    that order, whatever the schema, which is not the order severity,
    file, line; [getAnalysis] on the same store returns them in the order
    of its [ORDER BY]. *)
Theorem getRecentAnalyses_keeps_storage_order
  (severity_rank : Severity.t -> nat) (numeric_avg : list Z -> string) :
  (exists listed,
     fst (AnalysisRepository.getRecentAnalyses severity_rank numeric_avg (Js.Int 50)
            Sample.seeded) = Js.Resolved [listed]
     /\ map ComplianceFinding.severity (AnalysisResult.findings listed)
        = [Severity.low; Severity.critical]
     /\ Props.spec_sorted (AnalysisResult.findings listed) = false)
  /\ (exists listed,
        fst (AnalysisRepository.getAnalysesByRepo severity_rank numeric_avg
               "owner/repo" (Js.Int 50) Sample.seeded) = Js.Resolved [listed]
        /\ map ComplianceFinding.severity (AnalysisResult.findings listed)
           = [Severity.low; Severity.critical]
        /\ Props.spec_sorted (AnalysisResult.findings listed) = false)
  /\ (exists one,
        fst (AnalysisRepository.getAnalysis severity_rank numeric_avg
               "analysis-1" Sample.seeded) = Js.Resolved (Some one)
        /\ List.length (AnalysisResult.findings one) = 2%nat
        /\ Props.sorted_by (Props.read_le severity_rank) (AnalysisResult.findings one)
           = true).
Proof.
  split; [|split].
  - eexists. repeat split; reflexivity.
  - eexists. repeat split; reflexivity.
  - destruct (AnalysisRepository.getAnalysis severity_rank numeric_avg
                "analysis-1" Sample.seeded) as [r w1] eqn:E.
    assert (Hone : exists one, r = Js.Resolved (Some one)
                               /\ List.length (AnalysisResult.findings one) = 2%nat).
    { revert E. cbn.
      destruct (Pg.findings_le severity_rank _ _); intros E; injection E as <- _;
        eexists; split; reflexivity. }
    destruct Hone as (one & -> & Hlen).
    exists one. split; [reflexivity|]. split; [exact Hlen|].
    apply (getAnalysis_sorted severity_rank numeric_avg "analysis-1" Sample.seeded one).
    + reflexivity.
    + constructor.
    + rewrite E. reflexivity.
Qed.

(** The pool client leased by [saveAnalysis] is released on every exit
    path, after a commit as after a rollback: the number of leased
    clients is what it was before the call. *)
Theorem saveAnalysis_releases_client
  (severity_rank : Severity.t -> nat) (numeric_avg : list Z -> string)
  (result : AnalysisResult.t) (w : Db.world) :
  Db.leased (snd (AnalysisRepository.saveAnalysis severity_rank numeric_avg result w))
  = Db.leased w.
Proof. apply saveAnalysis_leased. Qed.



(** [saveAnalysis] refuses every result that has a finding.  Its INSERT
    into [findings] names the column [column] bare, and that is a
    reserved key word: the server answers the statement with a syntax
    error before it looks at any table.  So the save rejects; started
    with no transaction open it leaves the committed tables as they
    were; and on a provisioned server that answers and holds no analysis
    of this id, the error the caller gets is that syntax error. *)
Theorem saveAnalysis_refuses_findings
  (severity_rank : Severity.t -> nat) (numeric_avg : list Z -> string)
  (result : AnalysisResult.t) (w : Db.world) :
  AnalysisResult.findings result <> [] ->
  let outcome := AnalysisRepository.saveAnalysis severity_rank numeric_avg result w in
  (exists e, fst outcome = Js.Rejected e)
  /\ (Pg.session (Db.server w) = Pg.Idle ->
      Pg.committed (Db.server (snd outcome)) = Pg.committed (Db.server w))
  /\ (Pg.session (Db.server w) = Pg.Idle ->
      Pg.provisioned (Db.server w) = true ->
      Pg.faults (Db.server w) = [] ->
      Pg.has_analysis (AnalysisResult.id result) (Pg.committed (Db.server w)) = false ->
      fst outcome = Js.Rejected (Pg.syntax_error "column")).
Proof.
  intros Hsome outcome. subst outcome.
  destruct (AnalysisRepository.saveAnalysis severity_rank numeric_avg result w)
    as [r w1] eqn:Hsave.
  cbn [fst snd].
  assert (Hrej : exists e, r = Js.Rejected e).
  { destruct r as [[]|e]; [|eauto].
    exfalso. apply Hsome. eapply saveAnalysis_no_findings; eauto. }
  split; [exact Hrej|]. split.
  - intros Hidle. destruct Hrej as [e ->].
    exact (saveAnalysis_spec _ _ _ _ _ _ Hidle Hsave).
  - intros Hidle Hp Hf Hfresh.
    destruct w as [[prov t session faults] leased log]. cbn in Hidle, Hp, Hf, Hfresh.
    subst prov session faults.
    destruct (AnalysisResult.findings result) as [|f fs] eqn:Hfs; [congruence|].
    assert (E : AnalysisRepository.saveAnalysis severity_rank numeric_avg result
                  (Db.mkWorld (Pg.mkServer true t Pg.Idle []) leased log)
                = (Js.Rejected (Pg.syntax_error "column"), snd (r, w1))).
    { rewrite <- Hsave. unfold AnalysisRepository.saveAnalysis. rewrite Hfs.
      unfold Async.try_finally, Async.try_catch, Async.bind, Db.getClient,
        Db.client_query, Db.on_server, Db.release, Db.logger, Async.modify,
        Async.throw, Async.ret, Pg.exec, Pg.take_fault, Pg.connect, Pg.run, Pg.fail.
      cbn [Async.for_of Pg.faults Db.server fst snd Pg.parse Pg.session Pg.provisioned
           Pg.committed Pg.touches_tables Pg.insertion negb andb].
      cbn. unfold Pg.insert_analysis. cbn. rewrite Hfresh. reflexivity. }
    congruence.
Qed.

(** The sample analysis, with its two findings, on the empty store. *)
Lemma saveAnalysis_refuses_findings_witness :
  fst (AnalysisRepository.saveAnalysis Sample.enum_rank Sample.avg_text
         Sample.result Sample.fresh)
  = Js.Rejected (Pg.syntax_error "column")
  /\ Pg.committed (Db.server (snd (AnalysisRepository.saveAnalysis
                                     Sample.enum_rank Sample.avg_text
                                     Sample.result Sample.fresh)))
     = Pg.committed (Db.server Sample.fresh).
Proof.
  destruct (saveAnalysis_refuses_findings Sample.enum_rank Sample.avg_text
              Sample.result Sample.fresh ltac:(discriminate))
    as (_ & Hsame & Herror).
  split; [exact (Herror eq_refl eq_refl eq_refl eq_refl)|exact (Hsame eq_refl)].
Defined.

(* ================================================================== *)
(** ** The retrieval routes                                            *)
(* ================================================================== *)

Section StatsFacts.

Variable severity_rank : Severity.t -> nat.
Variable numeric_avg : list Z -> string.

Local Abbreviation getStats := (AnalysisRepository.getStats severity_rank numeric_avg).

(** The statistics query is rejected when the store is unavailable, and
    otherwise answers as the aggregate does: with its one row, or with
    the error of a total that does not fit INTEGER. *)
Lemma query_stats_cases w :
  (Props.unavailable (Db.server w)
   /\ exists e, fst (Db.query severity_rank numeric_avg Pg.SelectStats w) = Js.Rejected e)
  \/ (~ Props.unavailable (Db.server w)
      /\ fst (Db.query severity_rank numeric_avg Pg.SelectStats w)
         = match Pg.stats_row numeric_avg (Pg.committed (Db.server w)) with
           | Js.Resolved row => Js.Resolved (Pg.StatsRows [row])
           | Js.Rejected e => Js.Rejected e
           end).
Proof.
  unfold Db.query, Async.try_catch, Async.bind, Db.pool_query, Db.on_server,
    Pg.exec, Pg.take_fault, Props.unavailable.
  rewrite (parse_select Pg.SelectStats eq_refl).
  destruct (Pg.faults (Db.server w)) as [|[e|] rest] eqn:Hf; cbn [fst snd Pg.provisioned].
  2: { left. split; [left; eauto|]. unfold Pg.fail; cbn. eauto. }
  all: destruct (Pg.provisioned (Db.server w)) eqn:Hp; cbn [andb negb Pg.touches_tables].
  all: try (left; split; [right; reflexivity|]; unfold Pg.fail; cbn; eauto; fail).
  all: right; split; [intros [(e' & rest' & He')|Hp']; discriminate|].
  all: unfold Pg.run; cbn [Pg.insertion Pg.select Pg.committed].
  all: destruct (Pg.stats_row numeric_avg (Pg.committed (Db.server w))); reflexivity.
Qed.

(** [getStats] resolves, with [defaultStats] or with the aggregate row. *)
Lemma getStats_cases w :
  (Props.unavailable (Db.server w)
   /\ fst (getStats w) = Js.Resolved AnalysisRepository.defaultStats)
  \/ (~ Props.unavailable (Db.server w)
      /\ fst (getStats w)
         = Js.Resolved
             match Pg.stats_row numeric_avg (Pg.committed (Db.server w)) with
             | Js.Resolved row => row
             | Js.Rejected _ => AnalysisRepository.defaultStats
             end).
Proof.
  unfold AnalysisRepository.getStats, Async.try_catch, Async.bind.
  destruct (query_stats_cases w) as [[Hu [e He]]|[Hn Hok]];
    destruct (Db.query _ _ Pg.SelectStats w) as [r w1]; cbn [fst snd] in *; subst r.
  - left. split; [exact Hu|].
    destruct (AnalysisRepository.is_undefined_table_or_parameter e); reflexivity.
  - right. split; [exact Hn|].
    destruct (Pg.stats_row numeric_avg (Pg.committed (Db.server w))) as [row|e];
      [reflexivity|].
    destruct (AnalysisRepository.is_undefined_table_or_parameter e); reflexivity.
Qed.

Lemma stats_row_empty t :
  Pg.analyses t = [] ->
  Pg.stats_row numeric_avg t
  = Js.Resolved
      (StatsRow.mk (Js.ANumber 0) (Js.ANumber 0) (Js.ANumber 0) (Js.ANumber 0)
                   (Js.ANumber 0) (Js.ANumber 0) (Js.ANumber 0) (Js.AString "0")).
Proof. intros H. unfold Pg.stats_row. rewrite H. reflexivity. Qed.

End StatsFacts.

(** C5 -- [getStats] never fails its caller.  In every state of the store
    it resolves with a statistics row; when the store is unavailable (the
    round trip fails, or the tables were never created) the row is
    [defaultStats], all zero.  [GET /api/stats] always answers status 200
    with a statistics body, whose counts are all zero when the store is
    unavailable or holds no analysis. *)
Theorem getStats_never_fails
  (float : Type) (float_zero : float) (parseFloat : string -> option float)
  (severity_rank : Severity.t -> nat) (numeric_avg : list Z -> string)
  (w : Db.world) :
  (exists row,
     fst (AnalysisRepository.getStats severity_rank numeric_avg w) = Js.Resolved row)
  /\ (Props.unavailable (Db.server w) ->
      fst (AnalysisRepository.getStats severity_rank numeric_avg w)
      = Js.Resolved AnalysisRepository.defaultStats)
  /\ (exists body,
        fst (Routes.get_stats float float_zero parseFloat severity_rank numeric_avg w)
        = Js.Resolved (Routes.mkResponse 200 true (Some body) None)
        /\ (Props.unavailable (Db.server w) \/ Pg.analyses (Pg.committed (Db.server w)) = []
            -> Props.zero_counts body)
        /\ (Props.unavailable (Db.server w) -> parseFloat "0" = Some float_zero
            -> Routes.avgDuration float body = float_zero)).
Proof.
  pose proof (getStats_cases severity_rank numeric_avg w) as Hcases.
  split; [destruct Hcases as [[_ H]|[_ H]]; eauto|].
  split; [intros Hu; destruct Hcases as [[_ H]|[Hn _]]; [exact H|contradiction]|].
  unfold Routes.get_stats, Async.try_catch, Async.bind.
  destruct (AnalysisRepository.getStats severity_rank numeric_avg w) as [r w1];
    cbn [fst snd] in *.
  destruct Hcases as [[Hu H]|[Hn H]]; subst r; cbn [Async.ret fst].
  - eexists. split; [reflexivity|]. split.
    + intros _. repeat split.
    + intros _ Hz. cbn. unfold Routes.safeParseFloat; cbn. rewrite Hz. reflexivity.
  - eexists. split; [reflexivity|]. split.
    + intros [Hu|Hempty]; [contradiction|].
      rewrite (stats_row_empty _ _ Hempty). repeat split.
    + intros Hu. contradiction.
Qed.



(* ================================================================== *)
(** ** The sandboxed analyzer                                          *)
(* ================================================================== *)

(** Unfold the agent's methods down to the oracle calls. *)
Ltac agent_unfold :=
  unfold E2B.analyzeWithMCP, E2B.fetchFileFromGitHub, E2B.runSecurityScan, E2B.cleanup,
    E2B.runAnalysis, E2B.setupWorkspace, E2B.ensure_initialized, E2B.initialize,
    E2B.setupMCPServers, E2B.call_create, E2B.call_runPythonCode, E2B.call_kill,
    E2B.call_uuidv4, E2B.set_sandbox, E2B.logger, E2B.lift,
    Async.bind, Async.try_catch, Async.get, Async.modify, Async.throw, Async.ret in *.

Ltac agent_step :=
  cbn [fst snd E2B.sandbox E2B.githubToken E2B.creates E2B.runs E2B.kills E2B.uuids
       E2B.log] in *.

Section AgentFacts.

Variable svc : E2B.service.

(** A [try]/[catch] whose handler resolves never rejects. *)
Lemma try_catch_total {W A} (body : Async.t W A) (handler : Js.Error -> Async.t W A) :
  (forall e w, exists a, fst (handler e w) = Js.Resolved a) ->
  forall w, exists a, fst (Async.try_catch body handler w) = Js.Resolved a.
Proof.
  intros H w. unfold Async.try_catch.
  destruct (body w) as [[a|e] w']; cbn; eauto.
Qed.

(** [initialize] resolves only with a session in place, after one
    [create] and the two set-up scripts. *)
Lemma initialize_resolved w w1 :
  E2B.initialize svc w = (Js.Resolved tt, w1) ->
  (exists s, E2B.sandbox w1 = Some s) /\ E2B.runs w1 = S (S (E2B.runs w)).
Proof.
  destruct w as [sb tok c r k u lg].
  agent_unfold; agent_step.
  destruct (E2B.create svc c) as [cr|e]; agent_step; [|discriminate].
  destruct (E2B.isE2BSandbox cr) as [s|]; agent_step; [|discriminate].
  destruct (E2B.runPythonCode svc r E2B.installScript); agent_step; [|discriminate].
  destruct (E2B.runPythonCode svc (S r) _); agent_step; [|discriminate].
  intros H. injection H as <-. agent_step. eauto.
Qed.

Lemma ensure_initialized_resolved w w1 :
  E2B.ensure_initialized svc w = (Js.Resolved tt, w1) -> exists s, E2B.sandbox w1 = Some s.
Proof.
  unfold E2B.ensure_initialized, Async.bind, Async.get.
  destruct (E2B.sandbox w) as [s|] eqn:Hs.
  - cbn. intros H. injection H as <-. eauto.
  - intros H. apply initialize_resolved in H. tauto.
Qed.

(** Without a session, a [create] that rejects makes [initialize] reject. *)
Lemma initialize_create_rejected w e :
  E2B.create svc (E2B.creates w) = Js.Rejected e ->
  fst (E2B.initialize svc w)
  = Js.Rejected (E2B.Error "E2B sandbox initialization failed").
Proof.
  destruct w as [sb tok c r k u lg]. agent_step. intros H.
  agent_unfold; agent_step. rewrite H. reflexivity.
Qed.

End AgentFacts.

(** C7, as the code has it -- [analyzeWithMCP] rejects when no session
    can be acquired and when the workspace set-up script cannot be
    executed; when executing the analysis script itself fails,
    [runAnalysis] catches the error, logs it, and [analyzeWithMCP]
    resolves with an empty list of findings. *)
Theorem analyzeWithMCP_failure_paths
  (svc : E2B.service) (context : E2B.E2BAnalysisContext) (w : E2B.world) :
  (forall e w1,
     E2B.ensure_initialized svc w = (Js.Rejected e, w1) ->
     fst (E2B.analyzeWithMCP svc context w) = Js.Rejected e)
  /\ (forall e,
        E2B.sandbox w = None ->
        E2B.create svc (E2B.creates w) = Js.Rejected e ->
        fst (E2B.analyzeWithMCP svc context w)
        = Js.Rejected (E2B.Error "E2B sandbox initialization failed"))
  /\ (forall w1 e,
        E2B.ensure_initialized svc w = (Js.Resolved tt, w1) ->
        E2B.runPythonCode svc (E2B.runs w1)
          (E2B.setupScript (E2B.workspace_files context)) = Js.Rejected e ->
        fst (E2B.analyzeWithMCP svc context w) = Js.Rejected e)
  /\ (forall w1 done e,
        E2B.ensure_initialized svc w = (Js.Resolved tt, w1) ->
        E2B.runPythonCode svc (E2B.runs w1)
          (E2B.setupScript (E2B.workspace_files context)) = Js.Resolved done ->
        E2B.runPythonCode svc (S (E2B.runs w1)) E2B.analysisScript = Js.Rejected e ->
        fst (E2B.analyzeWithMCP svc context w) = Js.Resolved []
        /\ In (Logger.mkEntry Logger.error "Error running analysis script:" (Some e))
              (E2B.log (snd (E2B.analyzeWithMCP svc context w)))).
Proof.
  split; [|split; [|split]].
  - intros e w1 H. unfold E2B.analyzeWithMCP. unfold Async.bind at 1. rewrite H. reflexivity.
  - intros e Hs Hc.
    pose proof (initialize_create_rejected svc w e Hc) as Hi.
    unfold E2B.analyzeWithMCP. unfold Async.bind at 1.
    unfold E2B.ensure_initialized. unfold Async.bind at 1. unfold Async.get.
    rewrite Hs. destruct (E2B.initialize svc w) as [r w1]. cbn [fst] in Hi. subst r.
    reflexivity.
  - intros w1 e H Hrun.
    destruct (ensure_initialized_resolved svc w w1 H) as [s Hs].
    unfold E2B.analyzeWithMCP. unfold Async.bind at 1. rewrite H.
    destruct w1 as [sb tok c r k u lg]. agent_step. subst sb.
    agent_unfold; agent_step. rewrite Hrun. reflexivity.
  - intros w1 done e H Hsetup Hrun.
    destruct (ensure_initialized_resolved svc w w1 H) as [s Hs].
    destruct (E2B.analyzeWithMCP svc context w) as [res wf] eqn:E. cbn [fst snd].
    unfold E2B.analyzeWithMCP in E. unfold Async.bind at 1 in E. rewrite H in E.
    destruct w1 as [sb tok c r k u lg]. agent_step. subst sb.
    clear H. agent_unfold; agent_step.
    rewrite Hsetup in E. agent_step. rewrite Hrun in E. agent_step.
    injection E as <- <-. split; [reflexivity|]. agent_step.
    unfold Logger.write. rewrite !in_app_iff. cbn. tauto.
Qed.

(** C7, as stated, fails: with a session up and the workspace set up, the
    sandbox rejects the run of the analysis script (a failure to execute
    code inside the session), yet [analyzeWithMCP] resolves, with no
    findings. *)
Lemma analyzeWithMCP_swallows_script_failure :
  E2B.runPythonCode Sample.analysis_script_fails 3 E2B.analysisScript
  = Js.Rejected Sample.sandbox_error
  /\ fst (E2B.analyzeWithMCP Sample.analysis_script_fails Sample.context
            (E2B.new "test_github_token"))
     = Js.Resolved [].
Proof. split; reflexivity. Qed.

(* ------------------------------------------------------------------ *)
(** *** The pattern of [parseAnalysisOutput] *)

Lemma append_assoc (a b c : string) : (a ++ b ++ c)%string = ((a ++ b) ++ c)%string.
Proof. induction a as [|x a IH]; cbn; congruence. Qed.

Lemma prefix_app k b : prefix k (k ++ b) = true.
Proof.
  induction k as [|c k IH]; cbn; [destruct b; reflexivity|].
  destruct (ascii_dec c c); [exact IH|contradiction].
Qed.

Lemma prefix_split k : forall s, prefix k s = true -> exists b, s = (k ++ b)%string.
Proof.
  induction k as [|c k IH]; intros s H; cbn in *; [eauto|].
  destruct s as [|d s]; cbn in H; [discriminate|].
  destruct (ascii_dec c d); [subst d|discriminate].
  destruct (IH _ H) as [b ->]. eauto.
Qed.

Lemma prefix_extend k z : forall s, prefix k s = true -> prefix k (s ++ z) = true.
Proof.
  intros s H. destruct (prefix_split _ _ H) as [b ->].
  rewrite <- append_assoc. apply prefix_app.
Qed.

Lemma includes_spec k : forall s,
  Js.includes k s = true <-> exists a b, s = (a ++ k ++ b)%string.
Proof.
  intros s. split.
  - induction s as [|c s IH]; cbn [Js.includes].
    + destruct (prefix k "") eqn:E; [|discriminate].
      intros _. destruct (prefix_split _ _ E) as [b ->]. exists "", b. reflexivity.
    + destruct (prefix k (String c s)) eqn:E.
      * intros _. destruct (prefix_split _ _ E) as [b Hb]. exists "", b. exact Hb.
      * intros H. destruct (IH H) as (a & b & ->). exists (String c a), b. reflexivity.
  - intros (a & b & ->). induction a as [|c a IH]; cbn [append Js.includes].
    + destruct (k ++ b)%string eqn:E; cbn [Js.includes];
        rewrite <- E, prefix_app; reflexivity.
    + destruct (prefix k (String c (a ++ k ++ b))); [reflexivity|exact IH].
Qed.

Lemma after_first_split c : forall s rest,
  E2B.after_first c s = Some rest -> exists pre, s = (pre ++ String c rest)%string.
Proof.
  induction s as [|d s IH]; intros rest H; cbn in H; [discriminate|].
  destruct (Ascii.eqb d c) eqn:E.
  - apply Ascii.eqb_eq in E. subst d. injection H as <-. exists "". reflexivity.
  - destruct (IH _ H) as [pre ->]. exists (String d pre). reflexivity.
Qed.

(** The first occurrence is at or before any given one. *)
Lemma after_first_app c t : forall pre,
  exists y, E2B.after_first c (pre ++ String c t) = Some (y ++ t)%string.
Proof.
  induction pre as [|d pre IH]; cbn.
  - rewrite Ascii.eqb_refl. exists "". reflexivity.
  - destruct (Ascii.eqb d c).
    + exists (pre ++ String c "")%string. rewrite <- append_assoc. reflexivity.
    + exact IH.
Qed.

Lemma before_last_split c : forall s inner,
  E2B.before_last c s = Some inner -> exists post, s = (inner ++ String c post)%string.
Proof.
  induction s as [|d s IH]; intros inner H; cbn in H; [discriminate|].
  destruct (E2B.before_last c s) as [i|] eqn:E.
  - injection H as <-. destruct (IH _ eq_refl) as [post ->]. exists post. reflexivity.
  - destruct (Ascii.eqb d c) eqn:Ed; [|discriminate].
    apply Ascii.eqb_eq in Ed. subst d. injection H as <-. exists s. reflexivity.
Qed.

(** The last occurrence is at or after any given one. *)
Lemma before_last_app c post : forall u,
  exists z, E2B.before_last c (u ++ String c post) = Some (u ++ z)%string.
Proof.
  induction u as [|d u IH]; cbn.
  - destruct (E2B.before_last c post) as [i|].
    + exists (String c i). reflexivity.
    + rewrite Ascii.eqb_refl. exists "". reflexivity.
  - destruct IH as [z ->]. exists z. reflexivity.
Qed.

(** [match_findings] finds a match exactly when the pattern
    [\{[\s\S]*"findings"[\s\S]*\}] matches somewhere in the text. *)
Lemma match_findings_spec output :
  (exists m, E2B.match_findings output = Some m) <-> Props.has_findings_object output.
Proof.
  unfold E2B.match_findings, Props.has_findings_object. split.
  - intros [m H].
    destruct (E2B.after_first E2B.lbrace output) as [rest|] eqn:E1; [|discriminate].
    destruct (E2B.before_last E2B.rbrace rest) as [inner|] eqn:E2; [|discriminate].
    destruct (Js.includes E2B.findings_key inner) eqn:E3; [|discriminate].
    destruct (after_first_split _ _ _ E1) as [pre ->].
    destruct (before_last_split _ _ _ E2) as [post ->].
    apply includes_spec in E3. destruct E3 as (a & b & ->).
    exists pre, a, b, post.
    rewrite <- !append_assoc. reflexivity.
  - intros (pre & a & b & post & ->).
    destruct (after_first_app E2B.lbrace
                (a ++ E2B.findings_key ++ b ++ String E2B.rbrace post) pre) as [y ->].
    replace (y ++ a ++ E2B.findings_key ++ b ++ String E2B.rbrace post)%string
      with ((y ++ a ++ E2B.findings_key ++ b) ++ String E2B.rbrace post)%string
      by (rewrite <- !append_assoc; reflexivity).
    destruct (before_last_app E2B.rbrace post (y ++ a ++ E2B.findings_key ++ b)) as [z ->].
    assert (Hin : Js.includes E2B.findings_key
                    ((y ++ a ++ E2B.findings_key ++ b) ++ z) = true).
    { apply includes_spec. exists (y ++ a)%string, (b ++ z)%string.
      rewrite <- !append_assoc. reflexivity. }
    rewrite Hin. eauto.
Qed.

(** C8 -- the output parser never raises, and it answers no finding when
    the scanner output holds no JSON object with a [findings] array: no
    match of the pattern at all (the empty text included), a match that
    [JSON.parse] refuses, or parsed JSON without a [findings] array. *)
Theorem parseAnalysisOutput_degrades_to_empty
  (svc : E2B.service) (output : string) (w : E2B.world) :
  (exists findings, fst (E2B.parseAnalysisOutput svc output w) = Js.Resolved findings)
  /\ (Props.embedded_findings svc output = None ->
      fst (E2B.parseAnalysisOutput svc output w) = Js.Resolved [])
  /\ (~ Props.has_findings_object output ->
      fst (E2B.parseAnalysisOutput svc output w) = Js.Resolved [])
  /\ fst (E2B.parseAnalysisOutput svc "" w) = Js.Resolved [].
Proof.
  assert (Hnone : Props.embedded_findings svc output = None ->
                  fst (E2B.parseAnalysisOutput svc output w) = Js.Resolved []).
  { unfold Props.embedded_findings, Props.findings_array, E2B.parseAnalysisOutput,
      Async.try_catch.
    destruct (E2B.match_findings output) as [jsonMatch|]; [|reflexivity].
    destruct (E2B.JSON_parse svc jsonMatch) as [parsed|]; [|reflexivity].
    unfold Async.bind at 1. unfold E2B.lift at 1.
    destruct (Json.prop parsed "findings") as [[[]|]|e]; intros H;
      try discriminate H; reflexivity. }
  split; [|split; [exact Hnone|split]].
  - unfold E2B.parseAnalysisOutput. apply try_catch_total.
    intros e w'. exists []. reflexivity.
  - intros Hno. apply Hnone. unfold Props.embedded_findings.
    destruct (E2B.match_findings output) as [m|] eqn:E; [|reflexivity].
    exfalso. apply Hno. apply match_findings_spec. eauto.
  - reflexivity.
Qed.

(** C9 -- [cleanup] never rejects.  Without a session it does nothing;
    once it has torn the session down, calling it again does nothing;
    when the kill fails it still resolves, logs the error and keeps the
    session; any number of calls in a row resolves; and two calls leave
    the agent's session as one call does, except when the first kill
    failed and the retry succeeded. *)
Theorem cleanup_never_throws (svc : E2B.service) (w : E2B.world) :
  fst (E2B.cleanup svc w) = Js.Resolved tt
  /\ (E2B.sandbox w = None -> E2B.cleanup svc w = (Js.Resolved tt, w))
  /\ (E2B.sandbox (snd (E2B.cleanup svc w)) = None ->
      E2B.cleanup svc (snd (E2B.cleanup svc w))
      = (Js.Resolved tt, snd (E2B.cleanup svc w)))
  /\ (forall s, E2B.sandbox w = Some s ->
      E2B.kill svc (E2B.kills w) = Js.Resolved tt ->
      E2B.sandbox (snd (E2B.cleanup svc w)) = None)
  /\ (forall s e, E2B.sandbox w = Some s ->
      E2B.kill svc (E2B.kills w) = Js.Rejected e ->
      E2B.sandbox (snd (E2B.cleanup svc w)) = Some s
      /\ In (Logger.mkEntry Logger.error "Error cleaning up sandbox:" (Some e))
            (E2B.log (snd (E2B.cleanup svc w))))
  /\ (forall n, fst (Props.cleanups svc n w) = Js.Resolved tt)
  /\ (E2B.sandbox (snd (Props.cleanups svc 2 w)) = E2B.sandbox (snd (E2B.cleanup svc w))
      \/ exists e, E2B.kill svc (E2B.kills w) = Js.Rejected e
                   /\ E2B.kill svc (S (E2B.kills w)) = Js.Resolved tt).
Proof.
  assert (Hnever : forall w0, fst (E2B.cleanup svc w0) = Js.Resolved tt).
  { intros [sb tok c r k u lg]. agent_unfold; agent_step.
    destruct sb as [s|]; [|reflexivity]. agent_step.
    destruct (E2B.kill svc k) as [[]|e]; reflexivity. }
  assert (Hnone : forall w0, E2B.sandbox w0 = None ->
                             E2B.cleanup svc w0 = (Js.Resolved tt, w0)).
  { intros [sb tok c r k u lg] H. agent_step. subst sb. reflexivity. }
  split; [apply Hnever|]. split; [apply Hnone|]. split; [apply Hnone|].
  split; [|split; [|split]].
  - intros s Hs Hk. destruct w as [sb tok c r k u lg]. agent_step. subst sb.
    agent_unfold; agent_step. rewrite Hk. reflexivity.
  - intros s e Hs Hk. destruct w as [sb tok c r k u lg]. agent_step. subst sb.
    agent_unfold; agent_step. rewrite Hk. agent_step. split; [reflexivity|].
    unfold Logger.write. rewrite !in_app_iff. cbn. tauto.
  - intros n. revert w. induction n as [|n IH]; intros w0; [reflexivity|].
    cbn [Props.cleanups]. unfold Async.bind.
    pose proof (Hnever w0) as H.
    destruct (E2B.cleanup svc w0) as [r w1]. cbn [fst] in H. subst r. apply IH.
  - clear Hnever Hnone. destruct w as [sb tok c r k u lg]. cbn [Props.cleanups].
    agent_unfold; agent_step.
    destruct sb as [s|]; agent_step; [|left; reflexivity].
    destruct (E2B.kill svc k) as [[]|e1] eqn:E1; agent_step; [left; reflexivity|].
    destruct (E2B.kill svc (S k)) as [[]|e2] eqn:E2; agent_step.
    + right. eauto.
    + left. reflexivity.
Qed.

(** C10 -- once the session is up, [fetchFileFromGitHub] answers [null]
    whenever the text the sandbox printed contains the substring
    [error], whatever else it holds, and whenever the sandbox call
    rejects; only a text without that substring is returned. *)
Theorem fetchFileFromGitHub_null_on_error_text
  (svc : E2B.service) (owner repo path : string) (ref : Js.optional string)
  (w w1 : E2B.world) :
  E2B.ensure_initialized svc w = (Js.Resolved tt, w1) ->
  let call := E2B.runPythonCode svc (E2B.runs w1)
                (E2B.fetchScript owner repo path (E2B.ref_argument ref)) in
  let answer := fst (E2B.fetchFileFromGitHub svc owner repo path ref w) in
  (forall result,
     call = Js.Resolved result ->
     Js.includes "error" (E2B.output_of result) = true ->
     answer = Js.Resolved None)
  /\ (forall e, call = Js.Rejected e -> answer = Js.Resolved None)
  /\ (forall result,
        call = Js.Resolved result ->
        Js.includes "error" (E2B.output_of result) = false ->
        answer = Js.Resolved (Some (E2B.output_of result))).
Proof.
  intros H call answer.
  destruct (ensure_initialized_resolved svc w w1 H) as [s Hs].
  assert (E : answer
              = match call with
                | Js.Resolved result =>
                    if Js.includes "error" (E2B.output_of result)
                    then Js.Resolved None
                    else Js.Resolved (Some (E2B.output_of result))
                | Js.Rejected _ => Js.Resolved None
                end).
  { subst call answer.
    unfold E2B.fetchFileFromGitHub. unfold Async.bind at 1. rewrite H.
    destruct w1 as [sb tok c r k u lg]. agent_step. subst sb. clear H.
    agent_unfold; agent_step.
    destruct (E2B.runPythonCode svc r _) as [printed|e0]; agent_step; [|reflexivity].
    destruct (Js.includes "error" (E2B.output_of printed)); reflexivity. }
  rewrite E. clear E.
  repeat split.
  - intros result Hc Hi. rewrite Hc, Hi. reflexivity.
  - intros e Hc. rewrite Hc. reflexivity.
  - intros result Hc Hi. rewrite Hc, Hi. reflexivity.
Qed.

(** A fetch that failed and a fetch that succeeded on a file mentioning
    the word are both answered with [null]. *)
Lemma fetchFileFromGitHub_null_on_error_text_witness :
  fst (E2B.fetchFileFromGitHub (Sample.fetching (Sample.printed Sample.not_found_text))
         "owner" "repo" "invalid.js" Js.undefined Sample.running) = Js.Resolved None
  /\ fst (E2B.fetchFileFromGitHub (Sample.fetching (Sample.printed Sample.logging_source_text))
            "owner" "repo" "src/log.js" Js.undefined Sample.running) = Js.Resolved None
  /\ fst (E2B.fetchFileFromGitHub (Sample.fetching (Js.Rejected Sample.sandbox_error))
            "owner" "repo" "src/log.js" Js.undefined Sample.running) = Js.Resolved None.
Proof.
  split; [|split].
  - eapply (proj1 (fetchFileFromGitHub_null_on_error_text
                     (Sample.fetching (Sample.printed Sample.not_found_text))
                     "owner" "repo" "invalid.js" Js.undefined
                     Sample.running Sample.running eq_refl)); reflexivity.
  - eapply (proj1 (fetchFileFromGitHub_null_on_error_text
                     (Sample.fetching (Sample.printed Sample.logging_source_text))
                     "owner" "repo" "src/log.js" Js.undefined
                     Sample.running Sample.running eq_refl)); reflexivity.
  - eapply (proj1 (proj2 (fetchFileFromGitHub_null_on_error_text
                     (Sample.fetching (Js.Rejected Sample.sandbox_error))
                     "owner" "repo" "src/log.js" Js.undefined
                     Sample.running Sample.running eq_refl))); reflexivity.
Defined.

(** [runSecurityScan] degrades like [runAnalysis]: with the session up, a
    scan script the sandbox cannot run yields an empty list and an error
    in the log, not a rejection. *)
Theorem runSecurityScan_degrades_to_empty
  (svc : E2B.service) (files : list E2B.ChangedFile) (w : E2B.world)
  (s : E2B.E2BSandbox) (e : Js.Error) :
  E2B.sandbox w = Some s ->
  E2B.runPythonCode svc (E2B.runs w) E2B.scanScript = Js.Rejected e ->
  fst (E2B.runSecurityScan svc files w) = Js.Resolved []
  /\ In (Logger.mkEntry Logger.error "Error running security scan:" (Some e))
        (E2B.log (snd (E2B.runSecurityScan svc files w))).
Proof.
  intros Hs Hrun.
  destruct (E2B.runSecurityScan svc files w) as [res wf] eqn:E. cbn [fst snd].
  destruct w as [sb tok c r k u lg]. agent_step. subst sb.
  agent_unfold; agent_step. rewrite Hrun in E. agent_step.
  injection E as <- <-. split; [reflexivity|]. agent_step.
  unfold Logger.write. rewrite !in_app_iff. cbn. tauto.
Qed.

(** A scan on a running agent whose sandbox rejects every script. *)
Lemma runSecurityScan_degrades_to_empty_witness :
  fst (E2B.runSecurityScan Sample.no_script_runs [] Sample.running) = Js.Resolved [].
Proof.
  apply (proj1 (runSecurityScan_degrades_to_empty Sample.no_script_runs [] Sample.running
                  (E2B.mkSandbox "sandbox-1") Sample.sandbox_error eq_refl eq_refl)).
Defined.

(** [initialize] stores the session before it sets it up: when a set-up
    script cannot be run, [initialize] rejects with its own error and the
    agent keeps the session it created, which nothing has killed. *)
Theorem initialize_keeps_session_when_setup_fails
  (svc : E2B.service) (w : E2B.world) (cr : E2B.created) (s : E2B.E2BSandbox)
  (e : Js.Error) :
  E2B.create svc (E2B.creates w) = Js.Resolved cr ->
  E2B.isE2BSandbox cr = Some s ->
  E2B.runPythonCode svc (E2B.runs w) E2B.installScript = Js.Rejected e ->
  fst (E2B.initialize svc w) = Js.Rejected (E2B.Error "E2B sandbox initialization failed")
  /\ E2B.sandbox (snd (E2B.initialize svc w)) = Some s
  /\ E2B.kills (snd (E2B.initialize svc w)) = E2B.kills w.
Proof.
  intros Hc Hi Hrun.
  destruct (E2B.initialize svc w) as [res wf] eqn:E. cbn [fst snd].
  destruct w as [sb tok c r k u lg]. agent_step.
  agent_unfold; agent_step. rewrite Hc, Hi in E. agent_step. rewrite Hrun in E. agent_step.
  injection E as <- <-. auto.
Qed.

(** A fresh agent whose sandbox rejects the first set-up script. *)
Lemma initialize_keeps_session_when_setup_fails_witness :
  E2B.sandbox (snd (E2B.initialize Sample.no_script_runs (E2B.new "test_github_token")))
  = Some (E2B.mkSandbox "sandbox-1").
Proof.
  apply (initialize_keeps_session_when_setup_fails Sample.no_script_runs
           (E2B.new "test_github_token") Sample.good_sandbox
           (E2B.mkSandbox "sandbox-1") Sample.sandbox_error); reflexivity.
Defined.

(** The agent's own test of a teardown that fails: [cleanup] resolves and
    the agent still reports its session. *)
Example cleanup_with_failing_kill :
  fst (E2B.cleanup Sample.kill_fails Sample.running) = Js.Resolved tt
  /\ E2B.getSandboxInfo (snd (E2B.cleanup Sample.kill_fails Sample.running))
     = (Some "sandbox-1", "running")
  /\ E2B.getSandboxInfo (snd (E2B.cleanup Sample.no_script_runs Sample.running))
     = (None, "not_initialized").
Proof. repeat split. Qed.

(* ================================================================== *)
(** ** The list operations and the routes over them                    *)
(* ================================================================== *)

Section ListFacts.

Variable severity_rank : Severity.t -> nat.
Variable numeric_avg : list Z -> string.

Local Abbreviation query := (Db.query severity_rank numeric_avg).
Local Abbreviation with_findings :=
  (AnalysisRepository.with_findings severity_rank numeric_avg).
Local Abbreviation getRecentAnalyses :=
  (AnalysisRepository.getRecentAnalyses severity_rank numeric_avg).
Local Abbreviation getAnalysesByRepo :=
  (AnalysisRepository.getAnalysesByRepo severity_rank numeric_avg).

Lemma reliable_answers n s : Props.reliable s -> Props.answers n s.
Proof.
  unfold Props.reliable, Props.answers. intros H.
  rewrite Forall_forall in *. intros f Hin. apply H.
  rewrite <- (firstn_skipn n (Pg.faults s)). apply in_or_app. now left.
Qed.

Lemma reliable_tl s s' :
  Props.reliable s -> Pg.faults s' = tl (Pg.faults s) -> Props.reliable s'.
Proof.
  unfold Props.reliable. intros H E. rewrite E.
  destruct (Pg.faults s); cbn; [constructor|]. now inversion H.
Qed.

(** A read through the pool on a server that answers. *)
Lemma query_reliable st w rows :
  Pg.insertion st = None ->
  Pg.provisioned (Db.server w) = true ->
  Props.reliable (Db.server w) ->
  Pg.select severity_rank numeric_avg st (Pg.committed (Db.server w)) = Js.Resolved rows ->
  exists w',
    query st w = (Js.Resolved rows, w')
    /\ Pg.committed (Db.server w') = Pg.committed (Db.server w)
    /\ Pg.provisioned (Db.server w') = true
    /\ Props.reliable (Db.server w').
Proof.
  intros Hins Hp Hr Hsel.
  pose proof (query_select severity_rank numeric_avg st w rows Hins Hp
                (reliable_answers 1 _ Hr) Hsel) as (H1 & H2 & H3 & H4).
  destruct (query st w) as [r w'] eqn:E. cbn [fst snd] in *. subst r.
  exists w'. repeat split; auto. eapply reliable_tl; eauto.
Qed.

(** A read that the server refuses for what it asks. *)
Lemma query_refused st w e :
  Pg.insertion st = None ->
  Pg.provisioned (Db.server w) = true ->
  Props.reliable (Db.server w) ->
  Pg.select severity_rank numeric_avg st (Pg.committed (Db.server w)) = Js.Rejected e ->
  fst (query st w) = Js.Rejected e
  /\ Pg.committed (Db.server (snd (query st w))) = Pg.committed (Db.server w).
Proof.
  intros Hins Hp Hr Hsel.
  unfold Db.query, Async.try_catch, Async.bind, Db.pool_query, Db.on_server,
    Pg.exec, Pg.take_fault.
  rewrite (parse_select _ Hins).
  destruct (answers_cases 0 _ (reliable_answers 1 _ Hr)) as [Hf|(rest & Hf & _)];
    rewrite Hf; cbn [fst snd].
  all: cbn [Pg.provisioned]; rewrite Hp, andb_false_r.
  all: unfold Pg.run; rewrite Hins; cbn [Pg.committed]; rewrite Hsel; cbn; auto.
Qed.

(** The callbacks of a list operation, all of them answered. *)
Lemma promise_all_with_findings l : forall w,
  Pg.provisioned (Db.server w) = true ->
  Props.reliable (Db.server w) ->
  exists w',
    Async.promise_all with_findings l w
    = (Js.Resolved (map (Props.listed (Pg.committed (Db.server w))) l), w')
    /\ Pg.committed (Db.server w') = Pg.committed (Db.server w)
    /\ Pg.provisioned (Db.server w') = true
    /\ Props.reliable (Db.server w').
Proof.
  induction l as [|row l IH]; intros w Hp Hr.
  - exists w. cbn. auto.
  - destruct (query_reliable (Pg.SelectFindings (AnalysisRow.id row)) w _
                eq_refl Hp Hr eq_refl) as (w1 & E1 & Hc1 & Hp1 & Hr1).
    destruct (IH w1 Hp1 Hr1) as (w2 & E2 & Hc2 & Hp2 & Hr2).
    exists w2. split; [|split; [congruence|auto]].
    cbn [Async.promise_all map].
    unfold AnalysisRepository.with_findings at 1. unfold Async.bind at 1.
    rewrite E1. cbn [Async.ret]. rewrite E2, Hc1. reflexivity.
Qed.

(** What the server makes of a [LIMIT]. *)
Lemma limited_spec limit l :
  match Props.row_count limit with
  | Some n => Pg.limited limit l = Js.Resolved (Pg.Analyses (firstn n l))
  | None => exists e, Pg.limited limit l = Js.Rejected e
  end.
Proof.
  unfold Props.row_count, Pg.limited.
  destruct limit as [z|neg]; [|eauto].
  destruct (Z.leb_spec 0 z), (Z.ltb_spec z (2 ^ 63)); cbn [andb].
  all: repeat match goal with
         | |- context [Z.leb ?a ?b] => destruct (Z.leb_spec a b)
         | |- context [Z.ltb ?a ?b] => destruct (Z.ltb_spec a b)
         end; cbn [orb].
  all: try reflexivity; try (eexists; reflexivity); lia.
Qed.

(** A list operation, from its first query on. *)
Lemma listing_spec st heading limit l w :
  Pg.insertion st = None ->
  Pg.select severity_rank numeric_avg st (Pg.committed (Db.server w)) = Pg.limited limit l ->
  Pg.provisioned (Db.server w) = true ->
  Props.reliable (Db.server w) ->
  let operation :=
    (rows <- Async.try_catch
               (result <- query st ;;
                Async.ret (AnalysisRepository.analysis_rows result))
               (fun error =>
                  Db.logger Logger.error heading (Some error) ;;;
                  Async.throw error) ;;
     Async.promise_all with_findings rows)%async in
  match Props.row_count limit with
  | Some n =>
      fst (operation w)
      = Js.Resolved (map (Props.listed (Pg.committed (Db.server w))) (firstn n l))
      /\ Pg.committed (Db.server (snd (operation w))) = Pg.committed (Db.server w)
  | None => exists e, fst (operation w) = Js.Rejected e
  end.
Proof.
  intros Hins Hsel Hp Hr. cbn zeta.
  pose proof (limited_spec limit l) as Hlim.
  destruct (Props.row_count limit) as [n|].
  - rewrite Hlim in Hsel.
    destruct (query_reliable st w _ Hins Hp Hr Hsel) as (w1 & E1 & Hc1 & Hp1 & Hr1).
    destruct (promise_all_with_findings (firstn n l) w1 Hp1 Hr1) as (w2 & E2 & Hc2 & _).
    match goal with
    | |- fst (?operation w) = _ /\ _ =>
        assert (E : operation w
                    = (Js.Resolved (map (Props.listed (Pg.committed (Db.server w)))
                                      (firstn n l)), w2))
    end.
    { unfold Async.bind, Async.try_catch.
      rewrite E1. cbn [Async.ret AnalysisRepository.analysis_rows].
      rewrite E2, Hc1. reflexivity. }
    rewrite E. cbn [fst snd]. split; [reflexivity|congruence].
  - destruct Hlim as [e He]. rewrite He in Hsel.
    destruct (query_refused st w e Hins Hp Hr Hsel) as [H _].
    exists e. unfold Async.bind, Async.try_catch.
    destruct (query st w) as [r w1]. cbn [fst] in H. subst r. reflexivity.
Qed.

(** What [getRecentAnalyses] answers on a server that answers. *)
Lemma getRecentAnalyses_spec limit w :
  Pg.provisioned (Db.server w) = true ->
  Props.reliable (Db.server w) ->
  let t := Pg.committed (Db.server w) in
  match Props.row_count limit with
  | Some n =>
      fst (getRecentAnalyses limit w)
      = Js.Resolved (map (Props.listed t)
                       (firstn n (Pg.order_by Pg.recent_le (Pg.analyses t))))
      /\ Pg.committed (Db.server (snd (getRecentAnalyses limit w))) = t
  | None => exists e, fst (getRecentAnalyses limit w) = Js.Rejected e
  end.
Proof.
  intros Hp Hr t.
  exact (listing_spec (Pg.SelectRecent limit) "Error fetching recent analyses:" limit
           (Pg.order_by Pg.recent_le (Pg.analyses t)) w eq_refl eq_refl Hp Hr).
Qed.

(** What [getAnalysesByRepo] answers on a server that answers. *)
Lemma getAnalysesByRepo_spec repo limit w :
  Pg.provisioned (Db.server w) = true ->
  Props.reliable (Db.server w) ->
  let t := Pg.committed (Db.server w) in
  match Props.row_count limit with
  | Some n =>
      fst (getAnalysesByRepo repo limit w)
      = Js.Resolved (map (Props.listed t)
                       (firstn n (Pg.order_by Pg.recent_le
                          (filter (fun r => AnalysisRow.repo_full_name r =? repo)
                                  (Pg.analyses t)))))
      /\ Pg.committed (Db.server (snd (getAnalysesByRepo repo limit w))) = t
  | None => exists e, fst (getAnalysesByRepo repo limit w) = Js.Rejected e
  end.
Proof.
  intros Hp Hr t.
  exact (listing_spec (Pg.SelectByRepo repo limit)
           ("Error fetching analyses for " ++ repo ++ ":") limit
           (Pg.order_by Pg.recent_le
              (filter (fun r => AnalysisRow.repo_full_name r =? repo) (Pg.analyses t)))
           w eq_refl eq_refl Hp Hr).
Qed.

End ListFacts.

Lemma sorted_by_firstn {A} (le : A -> A -> bool) : forall n l,
  Props.sorted_by le l = true -> Props.sorted_by le (firstn n l) = true.
Proof.
  induction n as [|n IH]; intros l Hs; [reflexivity|].
  destruct l as [|x l]; [reflexivity|].
  destruct l as [|y l]; [destruct n; reflexivity|].
  change (le x y && Props.sorted_by le (y :: l) = true) in Hs.
  apply andb_true_iff in Hs. destruct Hs as [Hxy Hs].
  specialize (IH _ Hs).
  destruct n as [|n]; [reflexivity|].
  change (le x y && Props.sorted_by le (firstn (S n) (y :: l)) = true).
  rewrite Hxy. exact IH.
Qed.

Lemma sorted_by_map {A B} (f : A -> B) leA leB :
  (forall a b, leB (f a) (f b) = leA a b) ->
  forall l, Props.sorted_by leB (map f l) = Props.sorted_by leA l.
Proof.
  intros H l. induction l as [|x l IH]; [reflexivity|].
  destruct l as [|y l]; [reflexivity|].
  change (leB (f x) (f y) && Props.sorted_by leB (map f (y :: l))
          = leA x y && Props.sorted_by leA (y :: l)).
  rewrite H, IH. reflexivity.
Qed.

Lemma recent_le_total a b : Pg.recent_le a b = false -> Pg.recent_le b a = true.
Proof.
  unfold Pg.recent_le. intros H. apply Z.leb_gt in H. apply Z.leb_le. lia.
Qed.

Lemma in_firstn {A} (x : A) n l : In x (firstn n l) -> In x l.
Proof.
  intros H. rewrite <- (firstn_skipn n l). apply in_or_app. now left.
Qed.

Lemma column_of_value {A} (c : option A) :
  Props.column_of c (AnalysisRepository.column_value c).
Proof. destruct c; reflexivity. Qed.

Lemma finding_of_mapToFinding f :
  Props.finding_of_row f (AnalysisRepository.mapToFinding f).
Proof.
  unfold Props.finding_of_row. cbn. repeat split; apply column_of_value.
Qed.

(** A listed result holds what its rows hold. *)
Lemma listed_of_row t row : Props.of_row t row (Props.listed t row).
Proof.
  unfold Props.of_row, Props.listed. cbn. repeat split.
  induction (filter _ (Pg.findings t)) as [|f l IH]; cbn; constructor;
    [apply finding_of_mapToFinding|exact IH].
Qed.

(** At most [n] rows, the most recent first, each holding what its rows
    hold. *)
Lemma listing_shape t n l :
  let data := map (Props.listed t) (firstn n (Pg.order_by Pg.recent_le l)) in
  List.length data = Nat.min n (List.length l)
  /\ Props.sorted_by Props.newest_first data = true
  /\ (forall r, In r data -> exists row, In row l /\ Props.of_row t row r)
  /\ ((List.length l <= n)%nat ->
      forall row, In row l -> exists r, In r data /\ Props.of_row t row r).
Proof.
  cbn zeta. split; [|split; [|split]].
  - rewrite length_map, length_firstn.
    rewrite <- (Permutation_length (order_by_perm Pg.recent_le l)). reflexivity.
  - rewrite (sorted_by_map (Props.listed t) Pg.recent_le Props.newest_first)
      by reflexivity.
    apply sorted_by_firstn, order_by_sorted, recent_le_total.
  - intros r Hin. apply in_map_iff in Hin. destruct Hin as (row & <- & Hin).
    exists row. split; [|apply listed_of_row].
    apply in_firstn in Hin.
    eapply Permutation_in; [symmetry; apply order_by_perm|exact Hin].
  - intros Hlen row Hin. exists (Props.listed t row). split; [|apply listed_of_row].
    apply in_map. rewrite firstn_all2.
    + apply (Permutation_in _ (order_by_perm Pg.recent_le l)). exact Hin.
    + rewrite <- (Permutation_length (order_by_perm Pg.recent_le l)). exact Hlen.
Qed.


(** The rows of a result that was saved without findings, listed. *)
Lemma listed_saved result t0 :
  AnalysisResult.findings result = [] ->
  Pg.has_analysis (AnalysisResult.id result) t0 = false ->
  Props.consistent t0 ->
  Props.listed (Props.with_rows result t0) (AnalysisRepository.analysis_params result)
  = result.
Proof.
  intros Hnone Hfresh Hcons.
  unfold Props.listed, Props.with_rows.
  cbn [Pg.findings AnalysisRepository.analysis_params AnalysisRow.id].
  rewrite filter_app, (no_orphans _ _ Hcons Hfresh), own_findings. cbn [app].
  unfold AnalysisRepository.mapToAnalysisResult.
  destruct result as [i p n st fs at_ d [a b c dd e f g]]; cbn in *.
  subst fs. reflexivity.
Qed.

(** On a provisioned store whose server answers, [getRecentAnalyses] with
    a limit that the server accepts (an integer from 0 to the largest
    [bigint]) lists that many analyses or all there are, the most
    recently analyzed first; each holds what an analysis row of the store
    holds, with the finding rows of its id in the order of the table;
    when the store holds no more than [limit] analyses each of them is
    listed; and the store is left as it was. *)
Theorem getRecentAnalyses_newest_first
  (severity_rank : Severity.t -> nat) (numeric_avg : list Z -> string)
  (limit : Js.integral) (n : nat) (w : Db.world) :
  Pg.provisioned (Db.server w) = true ->
  Props.reliable (Db.server w) ->
  Props.row_count limit = Some n ->
  let t := Pg.committed (Db.server w) in
  exists listed,
    fst (AnalysisRepository.getRecentAnalyses severity_rank numeric_avg limit w)
    = Js.Resolved listed
    /\ List.length listed = Nat.min n (List.length (Pg.analyses t))
    /\ Props.sorted_by Props.newest_first listed = true
    /\ (forall r, In r listed ->
        exists row, In row (Pg.analyses t) /\ Props.of_row t row r)
    /\ ((List.length (Pg.analyses t) <= n)%nat ->
        forall row, In row (Pg.analyses t) ->
        exists r, In r listed /\ Props.of_row t row r)
    /\ Pg.committed (Db.server (snd (AnalysisRepository.getRecentAnalyses
                                       severity_rank numeric_avg limit w))) = t.
Proof.
  intros Hp Hr Hn t.
  pose proof (getRecentAnalyses_spec severity_rank numeric_avg limit w Hp Hr) as H.
  cbn zeta in H. rewrite Hn in H. destruct H as [Hres Hc]. fold t in Hres, Hc.
  destruct (listing_shape t n (Pg.analyses t)) as (H1 & H2 & H3 & H4).
  eexists. split; [exact Hres|]. auto 6.
Qed.

(** The two analyses of the sample history, the later one first. *)
Lemma getRecentAnalyses_newest_first_witness :
  exists listed,
    fst (AnalysisRepository.getRecentAnalyses Sample.enum_rank Sample.avg_text
           (Js.Int 50) Sample.history) = Js.Resolved listed
    /\ List.length listed = 2%nat
    /\ Props.sorted_by Props.newest_first listed = true.
Proof.
  destruct (getRecentAnalyses_newest_first Sample.enum_rank Sample.avg_text
              (Js.Int 50) 50 Sample.history) as (listed & H & Hlen & Hsorted & _).
  - reflexivity.
  - constructor.
  - reflexivity.
  - exists listed. auto.
Defined.



(** A result that was saved is listed as it was saved: after a
    [saveAnalysis] that resolved, [getRecentAnalyses] and
    [getAnalysesByRepo] of its repository, answered by the server with a
    limit that covers the store, return the result itself. *)
Theorem saved_result_is_listed
  (severity_rank : Severity.t -> nat) (numeric_avg : list Z -> string)
  (result : AnalysisResult.t) (limit : Js.integral) (n : nat) (w w1 : Db.world) :
  Pg.session (Db.server w) = Pg.Idle ->
  Props.consistent (Pg.committed (Db.server w)) ->
  AnalysisRepository.saveAnalysis severity_rank numeric_avg result w = (Js.Resolved tt, w1) ->
  Props.reliable (Db.server w1) ->
  Props.row_count limit = Some n ->
  (List.length (Pg.analyses (Pg.committed (Db.server w1))) <= n)%nat ->
  (exists listed,
     fst (AnalysisRepository.getRecentAnalyses severity_rank numeric_avg limit w1)
     = Js.Resolved listed
     /\ In result listed)
  /\ (exists listed,
        fst (AnalysisRepository.getAnalysesByRepo severity_rank numeric_avg
               (AnalysisResult.repoFullName result) limit w1) = Js.Resolved listed
        /\ In result listed).
Proof.
  intros Hidle Hcons Hsave Hr Hn Hlim.
  pose proof (saveAnalysis_spec _ _ _ _ _ _ Hidle Hsave) as (Hc & Hfresh & Hp).
  pose proof (saveAnalysis_no_findings _ _ _ _ _ Hsave) as Hnone.
  assert (Hrow : In (AnalysisRepository.analysis_params result)
                    (Pg.analyses (Pg.committed (Db.server w1)))).
  { rewrite Hc. unfold Props.with_rows. cbn [Pg.analyses].
    apply in_or_app. right. now left. }
  assert (Hkept : Props.listed (Pg.committed (Db.server w1))
                    (AnalysisRepository.analysis_params result) = result).
  { rewrite Hc. apply listed_saved; assumption. }
  assert (Hcover : forall l : list AnalysisRow.t,
            (List.length l <= List.length (Pg.analyses (Pg.committed (Db.server w1))))%nat ->
            firstn n (Pg.order_by Pg.recent_le l) = Pg.order_by Pg.recent_le l).
  { intros l Hlen. apply firstn_all2.
    rewrite <- (Permutation_length (order_by_perm Pg.recent_le l)). lia. }
  split.
  - pose proof (getRecentAnalyses_spec severity_rank numeric_avg limit w1 Hp Hr) as H.
    cbn zeta in H. rewrite Hn in H. destruct H as [H _].
    eexists. split; [exact H|].
    rewrite <- Hkept at 1. apply in_map. rewrite Hcover by reflexivity.
    apply (Permutation_in _ (order_by_perm Pg.recent_le _)). exact Hrow.
  - pose proof (getAnalysesByRepo_spec severity_rank numeric_avg
                  (AnalysisResult.repoFullName result) limit w1 Hp Hr) as H.
    cbn zeta in H. rewrite Hn in H. destruct H as [H _].
    eexists. split; [exact H|].
    rewrite <- Hkept at 1. apply in_map. rewrite Hcover by apply filter_length_le.
    apply (Permutation_in _ (order_by_perm Pg.recent_le _)).
    apply filter_In. split; [exact Hrow|]. apply String.eqb_eq. reflexivity.
Qed.

(** A result saved into an empty store and listed. *)
Lemma saved_result_is_listed_witness :
  exists listed,
    fst (AnalysisRepository.getRecentAnalyses Sample.enum_rank Sample.avg_text
           (Js.Int 50)
           (snd (AnalysisRepository.saveAnalysis Sample.enum_rank Sample.avg_text
                   Sample.quiet Sample.fresh))) = Js.Resolved listed
    /\ In Sample.quiet listed.
Proof.
  apply (proj1 (saved_result_is_listed Sample.enum_rank Sample.avg_text Sample.quiet
                  (Js.Int 50) 50 Sample.fresh _ eq_refl ltac:(intros f []) eq_refl
                  ltac:(constructor) eq_refl ltac:(cbn; lia))).
Defined.





(* ------------------------------------------------------------------ *)
(** *** Numbers printed and parsed *)

Lemma digits_acc d : forall p,
  Routes.digits (Some (Z.pos p)) (NilEmpty.string_of_uint d)
  = Some (Z.pos (Pos.of_uint_acc d p)).
Proof.
  induction d; intros p; cbn [NilEmpty.string_of_uint Routes.digits Pos.of_uint_acc];
    [reflexivity|..];
    match goal with
    | |- context [Routes.digit ?c] =>
        let v := eval vm_compute in (Routes.digit c) in
        change (Routes.digit c) with v; cbv iota
    end;
    rewrite <- IHd; f_equal; f_equal; lia.
Qed.

Lemma digits_zero d :
  Routes.digits (Some 0%Z) (NilEmpty.string_of_uint d) = Some (Z.of_N (Pos.of_uint d)).
Proof.
  induction d; cbn [NilEmpty.string_of_uint Routes.digits Pos.of_uint];
    [reflexivity|..];
    match goal with
    | |- context [Routes.digit ?c] =>
        let v := eval vm_compute in (Routes.digit c) in
        change (Routes.digit c) with v; cbv iota
    end;
    [exact IHd|..]; apply digits_acc.
Qed.

Lemma digits_printed d :
  d <> Decimal.Nil ->
  Routes.digits None (NilEmpty.string_of_uint d) = Some (Z.of_N (Pos.of_uint d)).
Proof.
  destruct d; intros Hd; [congruence|..];
    cbn [NilEmpty.string_of_uint Routes.digits Pos.of_uint];
    match goal with
    | |- context [Routes.digit ?c] =>
        let v := eval vm_compute in (Routes.digit c) in
        change (Routes.digit c) with v; cbv iota
    end;
    [apply digits_zero|..]; apply digits_acc.
Qed.

Lemma string_of_uint_printed p :
  NilZero.string_of_uint (Pos.to_uint p) = NilEmpty.string_of_uint (Pos.to_uint p).
Proof.
  pose proof (DecimalPos.Unsigned.to_uint_nonnil p) as H.
  destruct (Pos.to_uint p); [congruence|..]; reflexivity.
Qed.

(** A printed natural number starts with a digit. *)
Lemma parseInt_unsigned d :
  d <> Decimal.Nil ->
  Routes.parseInt (NilEmpty.string_of_uint d)
  = Routes.digits None (NilEmpty.string_of_uint d).
Proof.
  destruct d; intros Hd; [congruence|..]; cbn [NilEmpty.string_of_uint];
    generalize (NilEmpty.string_of_uint d); intros [|b1 [|b2 rest]]; reflexivity.
Qed.

Lemma parseInt_minus s :
  Routes.parseInt (String "-" s) = option_map Z.opp (Routes.digits None s).
Proof. destruct s as [|b1 [|b2 rest]]; reflexivity. Qed.

(** [parseInt(String(z), 10)] is [z]. *)
Lemma parseInt_String_of_number z :
  Routes.parseInt (Js.String_of_number z) = Some z.
Proof.
  unfold Js.String_of_number.
  destruct z as [|p|p]; [reflexivity|..]; cbn [Z.to_int NilZero.string_of_int];
    rewrite string_of_uint_printed.
  - rewrite parseInt_unsigned by apply DecimalPos.Unsigned.to_uint_nonnil.
    rewrite digits_printed by apply DecimalPos.Unsigned.to_uint_nonnil.
    rewrite DecimalPos.Unsigned.of_to. reflexivity.
  - rewrite parseInt_minus.
    rewrite digits_printed by apply DecimalPos.Unsigned.to_uint_nonnil.
    rewrite DecimalPos.Unsigned.of_to. reflexivity.
Qed.

(** [safeParseInt] passes the number of an INTEGER column through. *)
Lemma safeParseInt_number z :
  Pg.int4 z = true -> Routes.safeParseInt (Js.ANumber z) = z.
Proof.
  intros _.
  unfold Routes.safeParseInt, Routes.or_zero_text, Routes.truthy, Js.truthy_number.
  destruct (Z.eqb_spec z 0) as [->|Hz]; cbn [negb]; [reflexivity|].
  cbn [Routes.String_]. rewrite parseInt_String_of_number. reflexivity.
Qed.

Lemma answered_available s :
  Pg.provisioned s = true -> Props.answers 1 s -> ~ Props.unavailable s.
Proof.
  intros Hp Ha [(e & rest & Hf)|Hu]; [|congruence].
  unfold Props.answers in Ha. rewrite Hf in Ha. cbn in Ha.
  inversion Ha; subst. discriminate.
Qed.

Lemma sum_add f g h l :
  (forall r, In r l -> (f r + g r = h r)%Z) ->
  (Pg.sum f l + Pg.sum g l = Pg.sum h l)%Z.
Proof.
  induction l as [|r l IH]; intros H; [reflexivity|].
  cbn [Pg.sum fold_right]. fold (Pg.sum f l) (Pg.sum g l) (Pg.sum h l).
  rewrite <- (H r (or_introl eq_refl)), <- IH by (intros; apply H; now right). lia.
Qed.

(** [GET /api/stats] on a provisioned store whose server answers.  The
    totals are the number of completed analyses and, over these, the sums
    of their finding counts; analyses that are not completed are not
    counted.  When each total is within the range of the type INTEGER,
    the body reports each of them, unchanged by its passage through
    decimal text, and its severity counts add up to its number of
    findings when those of every completed analysis do.  When a total is
    outside that range the query fails on its cast, and the body reports
    zero for every count. *)
Theorem stats_route_reports_store_totals
  (float : Type) (float_zero : float) (parseFloat : string -> option float)
  (severity_rank : Severity.t -> nat) (numeric_avg : list Z -> string)
  (w : Db.world) :
  Pg.provisioned (Db.server w) = true ->
  Props.answers 1 (Db.server w) ->
  let done := Props.completed (Pg.committed (Db.server w)) in
  exists body,
    fst (Routes.get_stats float float_zero parseFloat severity_rank numeric_avg w)
    = Js.Resolved (Routes.mkResponse 200 true (Some body) None)
    /\ (forallb Pg.int4 (Pg.totals done) = true ->
        Routes.totalAnalyses float body = Z.of_nat (List.length done)
        /\ Routes.totalFindings float body = Pg.sum AnalysisRow.total_findings done
        /\ Routes.criticalIssues float body = Pg.sum AnalysisRow.critical_count done
        /\ Routes.highIssues float body = Pg.sum AnalysisRow.high_count done
        /\ Routes.mediumIssues float body = Pg.sum AnalysisRow.medium_count done
        /\ Routes.lowIssues float body = Pg.sum AnalysisRow.low_count done
        /\ Routes.infoIssues float body = Pg.sum AnalysisRow.info_count done
        /\ ((forall r, In r done ->
               (AnalysisRow.critical_count r + AnalysisRow.high_count r
                + AnalysisRow.medium_count r + AnalysisRow.low_count r
                + AnalysisRow.info_count r = AnalysisRow.total_findings r)%Z) ->
            (Routes.criticalIssues float body + Routes.highIssues float body
             + Routes.mediumIssues float body + Routes.lowIssues float body
             + Routes.infoIssues float body = Routes.totalFindings float body)%Z))
    /\ (forallb Pg.int4 (Pg.totals done) = false -> Props.zero_counts body).
Proof.
  intros Hp Ha done.
  pose proof (answered_available _ Hp Ha) as Hav.
  destruct (getStats_cases severity_rank numeric_avg w) as [[Hu _]|[_ H]];
    [contradiction|].
  unfold Routes.get_stats, Async.try_catch, Async.bind.
  destruct (AnalysisRepository.getStats severity_rank numeric_avg w) as [r w1].
  cbn [fst] in H. subst r. cbn [Async.ret fst].
  eexists. split; [reflexivity|].
  subst done. unfold Pg.stats_row, Props.completed. cbv zeta.
  set (done := filter _ (Pg.analyses (Pg.committed (Db.server w)))).
  split; intros Hint; rewrite Hint.
  - unfold Pg.totals in Hint. cbn [forallb] in Hint.
    repeat (apply andb_true_iff in Hint; destruct Hint as [? Hint]).
    cbn [Routes.totalAnalyses Routes.totalFindings Routes.criticalIssues
         Routes.highIssues Routes.mediumIssues Routes.lowIssues Routes.infoIssues
         StatsRow.total_analyses StatsRow.total_findings StatsRow.total_critical
         StatsRow.total_high StatsRow.total_medium StatsRow.total_low
         StatsRow.total_info].
    rewrite !safeParseInt_number by assumption.
    repeat (split; [reflexivity|]).
    intros Hinv.
    rewrite <- (sum_add
                  (fun r => (AnalysisRow.critical_count r + AnalysisRow.high_count r
                             + AnalysisRow.medium_count r + AnalysisRow.low_count r)%Z)
                  AnalysisRow.info_count AnalysisRow.total_findings done Hinv).
    rewrite <- (sum_add
                  (fun r => (AnalysisRow.critical_count r + AnalysisRow.high_count r
                             + AnalysisRow.medium_count r)%Z)
                  AnalysisRow.low_count _ done (fun _ _ => eq_refl)).
    rewrite <- (sum_add
                  (fun r => (AnalysisRow.critical_count r + AnalysisRow.high_count r)%Z)
                  AnalysisRow.medium_count _ done (fun _ _ => eq_refl)).
    rewrite <- (sum_add AnalysisRow.critical_count AnalysisRow.high_count _ done
                  (fun _ _ => eq_refl)).
    reflexivity.
  - repeat split; reflexivity.
Qed.

(** The statistics of the sample history: two analyses without
    findings. *)
Lemma stats_route_reports_store_totals_witness :
  exists body,
    fst (Routes.get_stats Z 0%Z (fun _ => None) Sample.enum_rank Sample.avg_text
           Sample.history)
    = Js.Resolved (Routes.mkResponse 200 true (Some body) None)
    /\ Routes.totalAnalyses Z body = 2%Z
    /\ Routes.totalFindings Z body = 0%Z.
Proof.
  destruct (stats_route_reports_store_totals Z 0%Z (fun _ => None)
              Sample.enum_rank Sample.avg_text Sample.history eq_refl
              ltac:(constructor))
    as (body & H & Hin & _).
  destruct (Hin eq_refl) as (Hn & Hf & _).
  exists body. split; [exact H|]. split; [exact Hn|exact Hf].
Defined.

(** [DatabaseClient.healthCheck] never rejects, and [GET /api/health]
    answers 200 with status [ok] in every state of the store: the
    database is reported unhealthy exactly when the round trip of the
    probe fails, and healthy otherwise, also when the tables were never
    created (the probe reads none).  The store is left as it was. *)
Theorem health_route_reports_probe
  (severity_rank : Severity.t -> nat) (numeric_avg : list Z -> string)
  (w : Db.world) :
  let failing :=
    match Pg.faults (Db.server w) with Some _ :: _ => true | _ => false end in
  fst (Db.healthCheck severity_rank numeric_avg w) = Js.Resolved (negb failing)
  /\ fst (Routes.get_health severity_rank numeric_avg w)
     = Js.Resolved (Routes.mkHealth 200 "ok"
                      (Some (if failing then "unhealthy" else "healthy")) None)
  /\ Pg.committed (Db.server (snd (Routes.get_health severity_rank numeric_avg w)))
     = Pg.committed (Db.server w)
  /\ (failing = true ->
      exists e,
        In (Logger.mkEntry Logger.error "Database health check failed:" (Some e))
           (Db.log (snd (Db.healthCheck severity_rank numeric_avg w)))).
Proof.
  destruct w as [[p t sess faults] leased log].
  unfold Routes.get_health, Db.healthCheck, Db.query, Db.pool_query, Db.on_server,
    Db.logger, Pg.exec, Pg.take_fault, Pg.fail,
    Async.try_catch, Async.bind, Async.modify, Async.throw, Async.ret.
  cbn [Db.server Db.leased Db.log Pg.faults Pg.provisioned Pg.committed Pg.session].
  destruct faults as [|[e|] rest]; cbn.
  - repeat split. discriminate.
  - repeat split. intros _. exists e.
    unfold Logger.write. rewrite !in_app_iff. cbn. tauto.
  - repeat split. discriminate.
Qed.

(** When the store is unavailable (the round trip fails, or the tables
    were never created) [getAnalysis] rejects with the error of the
    query, having logged it, and [GET /api/analyses/:id] answers 500;
    the answer is not the 404 of an unknown id. *)
Theorem get_analysis_by_id_unavailable
  (severity_rank : Severity.t -> nat) (numeric_avg : list Z -> string)
  (id : string) (w : Db.world) :
  Props.unavailable (Db.server w) ->
  exists e,
    fst (AnalysisRepository.getAnalysis severity_rank numeric_avg id w) = Js.Rejected e
    /\ In (Logger.mkEntry Logger.error ("Error fetching analysis " ++ id ++ ":") (Some e))
          (Db.log (snd (AnalysisRepository.getAnalysis severity_rank numeric_avg id w)))
    /\ fst (Routes.get_analysis_by_id severity_rank numeric_avg id w)
       = Js.Resolved (Routes.mkResponse 500 false None (Some "Failed to fetch analysis"))
    /\ Pg.committed
         (Db.server (snd (Routes.get_analysis_by_id severity_rank numeric_avg id w)))
       = Pg.committed (Db.server w).
Proof.
  intros Hu.
  destruct w as [[p t sess faults] leased log].
  unfold Routes.get_analysis_by_id, AnalysisRepository.getAnalysis, Db.query,
    Db.pool_query, Db.on_server, Db.logger, Pg.exec, Pg.take_fault, Pg.fail,
    Async.try_catch, Async.bind, Async.modify, Async.throw, Async.ret.
  cbn [Db.server Db.leased Db.log Pg.faults Pg.provisioned Pg.committed Pg.session].
  unfold Props.unavailable in Hu. cbn [Db.server Pg.faults Pg.provisioned] in Hu.
  destruct Hu as [(e & rest & ->) | ->].
  - exists e. cbn. repeat split.
    unfold Logger.write. rewrite !in_app_iff. cbn. tauto.
  - destruct faults as [|[e|] rest].
    + exists Pg.undefined_table. cbn. repeat split.
      unfold Logger.write. rewrite !in_app_iff. cbn. tauto.
    + exists e. cbn. repeat split.
      unfold Logger.write. rewrite !in_app_iff. cbn. tauto.
    + exists Pg.undefined_table. cbn. repeat split.
      unfold Logger.write. rewrite !in_app_iff. cbn. tauto.
Qed.

(** A lookup while the server cannot be reached. *)
Lemma get_analysis_by_id_unavailable_witness :
  exists e,
    fst (AnalysisRepository.getAnalysis Sample.enum_rank Sample.avg_text "analysis-1"
           Sample.unreachable) = Js.Rejected e
    /\ fst (Routes.get_analysis_by_id Sample.enum_rank Sample.avg_text "analysis-1"
              Sample.unreachable)
       = Js.Resolved (Routes.mkResponse 500 false None (Some "Failed to fetch analysis")).
Proof.
  destruct (get_analysis_by_id_unavailable Sample.enum_rank Sample.avg_text "analysis-1"
              Sample.unreachable) as (e & H & _ & Hroute & _).
  - left. exists Sample.connection_lost, []. reflexivity.
  - exists e. split; [exact H|exact Hroute].
Defined.

(* ================================================================== *)
(** ** The sandboxed analyzer: findings and sessions                   *)
(* ================================================================== *)

Section ParseFacts.

Variable svc : E2B.service.


(** Reading a property of [null] throws. *)
Lemma to_finding_null w :
  fst (E2B.to_finding svc Json.JNull w) = Js.Rejected Json.TypeError
  /\ E2B.log (snd (E2B.to_finding svc Json.JNull w)) = E2B.log w
  /\ Props.same_session w (snd (E2B.to_finding svc Json.JNull w)).
Proof. destruct w as [sb tok c r k u lg]. repeat split. Qed.



Lemma same_session_trans w1 w2 w3 :
  Props.same_session w1 w2 -> Props.same_session w2 w3 -> Props.same_session w1 w3.
Proof.
  unfold Props.same_session. intros (A1 & A2 & A3 & A4 & A5) (B1 & B2 & B3 & B4 & B5).
  repeat split; congruence.
Qed.

Lemma to_finding_frame j w : Props.same_session w (snd (E2B.to_finding svc j w)).
Proof. destruct w as [sb tok c r k u lg], j; repeat split. Qed.

(** Whatever the elements, mapping them changes neither the session nor
    the calls made to the sandbox. *)
Lemma all_map_to_finding_frame items : forall w,
  Props.same_session w (snd (Async.all_map (E2B.to_finding svc) items w)).
Proof.
  induction items as [|j items IH]; intros w; [repeat split|].
  cbn [Async.all_map]. unfold Async.bind at 1.
  pose proof (to_finding_frame j w) as H1.
  destruct (E2B.to_finding svc j w) as [[f|e] w1]; cbn [snd] in H1; [|exact H1].
  unfold Async.bind at 1.
  specialize (IH w1).
  destruct (Async.all_map (E2B.to_finding svc) items w1) as [[fs|e] w2];
    cbn [snd Async.ret] in *; eapply same_session_trans; eauto.
Qed.

Lemma parseAnalysisOutput_frame output w :
  Props.same_session w (snd (E2B.parseAnalysisOutput svc output w)).
Proof.
  unfold E2B.parseAnalysisOutput, Async.try_catch.
  destruct (E2B.match_findings output) as [jsonMatch|];
    [|destruct w; repeat split].
  destruct (E2B.JSON_parse svc jsonMatch) as [parsed|];
    [|destruct w; repeat split].
  unfold Async.bind at 1. unfold E2B.lift at 1.
  destruct (Json.prop parsed "findings") as [[[]|]|e];
    try (destruct w; repeat split; fail).
  pose proof (all_map_to_finding_frame items w) as H.
  destruct (Async.all_map (E2B.to_finding svc) items w) as [[fs|e] w']; [exact H|].
  destruct w as [sb tok c r k u lg], w' as [sb' tok' c' r' k' u' lg'].
  exact H.
Qed.

End ParseFacts.



Section SessionFacts.

Variable svc : E2B.service.

(** [initialize] asks for one session and kills none. *)
Lemma initialize_accounting w :
  E2B.creates (snd (E2B.initialize svc w)) = S (E2B.creates w)
  /\ E2B.kills (snd (E2B.initialize svc w)) = E2B.kills w.
Proof.
  destruct w as [sb tok c r k u lg].
  agent_unfold; agent_step.
  destruct (E2B.create svc c) as [cr|e]; agent_step; [|split; reflexivity].
  destruct (E2B.isE2BSandbox cr) as [s|]; agent_step; [|split; reflexivity].
  destruct (E2B.runPythonCode svc r E2B.installScript); agent_step; [|split; reflexivity].
  destruct (E2B.runPythonCode svc (S r) _); agent_step; split; reflexivity.
Qed.

(** A method that first makes sure of a session and then neither creates
    nor kills one. *)
Lemma entry_point {A} (rest : Async.t E2B.world A) :
  (forall w s, E2B.sandbox w = Some s ->
     E2B.sandbox (snd (rest w)) = Some s
     /\ E2B.creates (snd (rest w)) = E2B.creates w
     /\ E2B.kills (snd (rest w)) = E2B.kills w) ->
  Props.keeps_session (Async.bind (E2B.ensure_initialized svc) (fun _ => rest)).
Proof.
  intros Hrest w. cbn zeta.
  unfold Async.bind at 1. unfold E2B.ensure_initialized, Async.bind, Async.get.
  destruct (E2B.sandbox w) as [s|] eqn:Hs.
  - cbn [Async.ret]. destruct (Hrest w s Hs) as (H1 & H2 & H3).
    split; [exact H2|]. split; [exact H3|]. intros s' E. congruence.
  - pose proof (initialize_accounting w) as [Hc Hk].
    pose proof (initialize_resolved svc w) as Hres.
    destruct (E2B.initialize svc w) as [[[]|e] w1]; cbn [snd] in *.
    + destruct (Hres w1 eq_refl) as [[s1 Hs1] _].
      destruct (Hrest w1 s1 Hs1) as (H1 & H2 & H3).
      split; [congruence|]. split; [congruence|]. intros s' E. discriminate E.
    + split; [exact Hc|]. split; [exact Hk|]. intros s' E. discriminate E.
Qed.

Lemma analysis_with_session context w s :
  E2B.sandbox w = Some s ->
  let rest :=
    (E2B.logger Logger.info
       ("Starting E2B analysis for PR #"
        ++ Js.String_of_number (E2B.prNumber (E2B.prContext context))) None ;;;
     Async.try_catch
       (E2B.setupWorkspace svc context ;;;
        findings <- E2B.runAnalysis svc context ;;
        E2B.logger Logger.info
          ("E2B analysis complete: " ++ Js.String_of_nat (List.length findings)
           ++ " findings") None ;;;
        Async.ret findings)
       (fun error =>
          E2B.logger Logger.error "Error during E2B analysis:" (Some error) ;;;
          Async.throw error))%async in
  E2B.sandbox (snd (rest w)) = Some s
  /\ E2B.creates (snd (rest w)) = E2B.creates w
  /\ E2B.kills (snd (rest w)) = E2B.kills w.
Proof.
  intros Hs. cbn zeta.
  destruct w as [sb tok c r k u lg]. agent_step. subst sb.
  agent_unfold; agent_step.
  destruct (E2B.runPythonCode svc r _) as [done|e]; agent_step; [|repeat split].
  destruct (E2B.runPythonCode svc (S r) E2B.analysisScript) as [result|e]; agent_step;
    [|repeat split].
  match goal with
  | |- context [E2B.parseAnalysisOutput svc ?o ?w0] =>
      pose proof (parseAnalysisOutput_frame svc o w0) as (F1 & _ & F3 & _ & F5);
      destruct (E2B.parseAnalysisOutput svc o w0) as [[fs|e] [sb' tok' c' r' k' u' lg']]
  end; agent_step; cbn in F1, F3, F5; subst; repeat split.
Qed.

Lemma fetch_with_session owner repo path ref w s :
  E2B.sandbox w = Some s ->
  let rest :=
    (Async.try_catch
       (result <- E2B.call_runPythonCode svc
                    (E2B.fetchScript owner repo path (E2B.ref_argument ref)) ;;
        let output := E2B.output_of result in
        if Js.includes "error" output then Async.ret None else Async.ret (Some output))
       (fun error =>
          E2B.logger Logger.error "Error fetching file from GitHub:" (Some error) ;;;
          Async.ret None))%async in
  E2B.sandbox (snd (rest w)) = Some s
  /\ E2B.creates (snd (rest w)) = E2B.creates w
  /\ E2B.kills (snd (rest w)) = E2B.kills w.
Proof.
  intros Hs. cbn zeta.
  destruct w as [sb tok c r k u lg]. agent_step. subst sb.
  agent_unfold; agent_step.
  destruct (E2B.runPythonCode svc r _) as [result|e]; agent_step; [|repeat split].
  destruct (Js.includes "error" (E2B.output_of result)); repeat split.
Qed.

Lemma scan_with_session w s :
  E2B.sandbox w = Some s ->
  let rest :=
    (E2B.logger Logger.info "Running security scanners in E2B sandbox..." None ;;;
     Async.try_catch
       (result <- E2B.call_runPythonCode svc E2B.scanScript ;;
        E2B.parseAnalysisOutput svc (E2B.output_of result))
       (fun error =>
          E2B.logger Logger.error "Error running security scan:" (Some error) ;;;
          Async.ret []))%async in
  E2B.sandbox (snd (rest w)) = Some s
  /\ E2B.creates (snd (rest w)) = E2B.creates w
  /\ E2B.kills (snd (rest w)) = E2B.kills w.
Proof.
  intros Hs. cbn zeta.
  destruct w as [sb tok c r k u lg]. agent_step. subst sb.
  agent_unfold; agent_step.
  destruct (E2B.runPythonCode svc r E2B.scanScript) as [result|e]; agent_step;
    [|repeat split].
  match goal with
  | |- context [E2B.parseAnalysisOutput svc ?o ?w0] =>
      pose proof (parseAnalysisOutput_frame svc o w0) as (F1 & _ & F3 & _ & F5);
      destruct (E2B.parseAnalysisOutput svc o w0) as [[fs|e] [sb' tok' c' r' k' u' lg']]
  end; agent_step; cbn in F1, F3, F5; subst; repeat split.
Qed.

Lemma bind_resolved_inv {W A B} (m : Async.t W A) (k : A -> Async.t W B) w b :
  fst (Async.bind m k w) = Js.Resolved b ->
  exists a w0, m w = (Js.Resolved a, w0) /\ Async.bind m k w = k a w0.
Proof.
  unfold Async.bind. destruct (m w) as [[a|e] w0]; [eauto|discriminate].
Qed.

End SessionFacts.

(** The agent's session is acquired lazily and only [cleanup] gives it
    up.  [analyzeWithMCP], [fetchFileFromGitHub] and [runSecurityScan] ask
    for a session exactly when the agent holds none, and then for one;
    they never kill a session, and an agent that holds a session holds
    the same one afterwards, whether the call resolved or rejected.  So a
    second analysis on the same agent creates no second session. *)
Theorem session_is_reused
  (svc : E2B.service) (context next : E2B.E2BAnalysisContext)
  (owner repo path : string) (ref : Js.optional string)
  (files : list E2B.ChangedFile) (w : E2B.world) :
  Props.keeps_session (E2B.analyzeWithMCP svc context)
  /\ Props.keeps_session (E2B.fetchFileFromGitHub svc owner repo path ref)
  /\ Props.keeps_session (E2B.runSecurityScan svc files)
  /\ (forall findings,
        fst (E2B.analyzeWithMCP svc context w) = Js.Resolved findings ->
        let w1 := snd (E2B.analyzeWithMCP svc context w) in
        (exists s, E2B.sandbox w1 = Some s)
        /\ E2B.creates (snd (E2B.analyzeWithMCP svc next w1)) = E2B.creates w1
        /\ E2B.sandbox (snd (E2B.analyzeWithMCP svc next w1)) = E2B.sandbox w1).
Proof.
  assert (Ha : forall c, Props.keeps_session (E2B.analyzeWithMCP svc c)).
  { intros c. apply (entry_point svc). intros w0 s. apply analysis_with_session. }
  split; [apply Ha|].
  split; [apply (entry_point svc); intros w0 s; apply fetch_with_session|].
  split; [apply (entry_point svc); intros w0 s; apply scan_with_session|].
  intros findings Hres w1.
  assert (Hs : exists s, E2B.sandbox w1 = Some s).
  { subst w1. unfold E2B.analyzeWithMCP in *.
    destruct (bind_resolved_inv (E2B.ensure_initialized svc) _ w findings Hres)
      as ([] & w0 & E0 & E).
    rewrite E.
    destruct (ensure_initialized_resolved svc w w0 E0) as [s Hs0].
    exists s. apply (analysis_with_session svc context w0 s Hs0). }
  split; [exact Hs|].
  destruct Hs as [s Hs].
  destruct (Ha next w1) as (Hc & _ & Hkeep).
  rewrite Hs in Hc. split; [exact Hc|].
  rewrite (Hkeep s Hs). symmetry. exact Hs.
Qed.

(** [initialize] tells its caller nothing of why it failed: whenever it
    rejects, the error is the same [E2B sandbox initialization failed],
    and the cause (a refused session, a session of the wrong shape, or a
    set-up script the sandbox rejected) is in the log only. *)
Theorem initialize_hides_cause
  (svc : E2B.service) (w w1 : E2B.world) (e : Js.Error) :
  E2B.initialize svc w = (Js.Rejected e, w1) ->
  e = E2B.Error "E2B sandbox initialization failed"
  /\ exists cause,
       In (Logger.mkEntry Logger.error "Failed to initialize E2B sandbox:" (Some cause))
          (E2B.log w1)
       /\ (E2B.create svc (E2B.creates w) = Js.Rejected cause
           \/ cause = E2B.Error "E2B sandbox does not match expected interface"
           \/ exists n script, E2B.runPythonCode svc n script = Js.Rejected cause).
Proof.
  destruct w as [sb tok c r k u lg].
  agent_unfold; agent_step.
  destruct (E2B.create svc c) as [cr|e0] eqn:Ec; agent_step.
  2: { intros H. injection H as <- <-. split; [reflexivity|]. exists e0. split.
       - agent_step. unfold Logger.write. rewrite !in_app_iff. cbn. tauto.
       - left. reflexivity. }
  destruct (E2B.isE2BSandbox cr) as [s|]; agent_step.
  2: { intros H. injection H as <- <-. split; [reflexivity|]. eexists. split.
       - agent_step. unfold Logger.write. rewrite !in_app_iff. cbn. right. left.
         reflexivity.
       - right. left. reflexivity. }
  destruct (E2B.runPythonCode svc r E2B.installScript) as [x|e1] eqn:E1; agent_step.
  2: { intros H. injection H as <- <-. split; [reflexivity|]. exists e1. split.
       - agent_step. unfold Logger.write. rewrite !in_app_iff. cbn. tauto.
       - right. right. eauto. }
  destruct (E2B.runPythonCode svc (S r) _) as [y|e2] eqn:E2; agent_step;
    [discriminate|].
  intros H. injection H as <- <-. split; [reflexivity|]. exists e2. split.
  - agent_step. unfold Logger.write. rewrite !in_app_iff. cbn. tauto.
  - right. right. eauto.
Qed.

(** A fresh agent whose sandbox runs no script. *)
Lemma initialize_hides_cause_witness :
  exists cause,
    In (Logger.mkEntry Logger.error "Failed to initialize E2B sandbox:" (Some cause))
       (E2B.log (snd (E2B.initialize Sample.no_script_runs (E2B.new "test_github_token")))).
Proof.
  destruct (initialize_hides_cause Sample.no_script_runs (E2B.new "test_github_token")
              (snd (E2B.initialize Sample.no_script_runs (E2B.new "test_github_token")))
              (E2B.Error "E2B sandbox initialization failed") eq_refl)
    as (_ & cause & Hin & _).
  exists cause. exact Hin.
Defined.

(* ================================================================== *)
(** ** The migration script                                            *)
(* ================================================================== *)

Section MigrateFacts.

Variable E : Migrate.env.

Lemma refused_shift base n :
  Props.refused E base (S n) -> Props.refused E (S base) n.
Proof.
  intros H i Hi. destruct (H (S i)) as [e He]; [lia|].
  exists e. rewrite <- He. f_equal. lia.
Qed.

Lemma refused_first base n :
  Props.refused E base (S n) -> exists e, Migrate.connect E base = Js.Rejected e.
Proof.
  intros H. destruct (H 0%nat) as [e He]; [lia|].
  exists e. rewrite <- He. f_equal. lia.
Qed.

(** The loop stops at the first attempt that succeeds. *)
Lemma connecting_succeeds : forall n w k,
  (k < n)%nat ->
  Props.refused E (Migrate.attempts w) k ->
  Migrate.connect E (Migrate.attempts w + k) = Js.Resolved tt ->
  exists w',
    Migrate.connecting E n w = (Js.Resolved true, w')
    /\ Migrate.attempts w' = (Migrate.attempts w + S k)%nat
    /\ Migrate.pauses w' = (Migrate.pauses w + k)%nat
    /\ Migrate.sent w' = Migrate.sent w
    /\ Migrate.released w' = Migrate.released w
    /\ Migrate.ended w' = Migrate.ended w.
Proof.
  induction n as [|n IH]; intros w k Hk Href Hok; [lia|].
  destruct w as [a p s r e c].
  cbn [Migrate.connecting Migrate.print Migrate.attempts] in *.
  destruct k as [|k].
  - rewrite Nat.add_0_r in Hok. rewrite Hok.
    eexists. split; [reflexivity|]. cbn. repeat split; lia.
  - destruct (refused_first _ _ Href) as [e0 He0]. rewrite He0.
    destruct n as [|n]; [lia|].
    match goal with
    | |- context [Migrate.connecting E (S n) ?w0] =>
        destruct (IH w0 k) as (w' & Hrun & Ha & Hp & Hs & Hr & He)
    end.
    + lia.
    + cbn. apply refused_shift. exact Href.
    + cbn. rewrite <- Hok. f_equal. lia.
    + exists w'. split; [exact Hrun|]. cbn in *. repeat split; lia || assumption.
Qed.

(** After as many refusals as there are retries the loop throws the last
    error. *)
Lemma connecting_gives_up : forall n w,
  Props.refused E (Migrate.attempts w) (S n) ->
  exists e w',
    Migrate.connect E (Migrate.attempts w + n) = Js.Rejected e
    /\ Migrate.connecting E (S n) w = (Js.Rejected e, w')
    /\ Migrate.attempts w' = (Migrate.attempts w + S n)%nat
    /\ Migrate.pauses w' = (Migrate.pauses w + n)%nat
    /\ Migrate.sent w' = Migrate.sent w
    /\ Migrate.released w' = Migrate.released w
    /\ Migrate.ended w' = Migrate.ended w.
Proof.
  induction n as [|n IH]; intros w Href.
  - destruct (refused_first _ _ Href) as [e0 He0].
    destruct w as [a p s r e c].
    cbn [Migrate.connecting Migrate.print Migrate.attempts] in *.
    exists e0. rewrite Nat.add_0_r, He0.
    eexists. split; [reflexivity|]. split; [reflexivity|]. cbn. repeat split; lia.
  - destruct (refused_first _ _ Href) as [e0 He0].
    destruct w as [a p s r e c].
    cbn [Migrate.attempts] in *.
    change (Migrate.connecting E (S (S n)) (Migrate.mkWorld a p s r e c))
      with (match Migrate.connect E a with
            | Js.Resolved _ =>
                (Js.Resolved true,
                 Migrate.print Migrate.stdout "Connected successfully!"
                   (Migrate.attempt
                      (Migrate.print Migrate.stdout
                         ("Connecting to database... ("
                          ++ Js.String_of_number (11 - Z.of_nat (S (S n))) ++ "/10)")
                         (Migrate.mkWorld a p s r e c))))
            | Js.Rejected error =>
                Migrate.connecting E (S n)
                  (Migrate.pause
                     (Migrate.print Migrate.stdout
                        ("Connection failed, retrying in 2 seconds... ("
                         ++ Js.String_of_nat (S n) ++ " attempts left)")
                        (Migrate.attempt
                           (Migrate.print Migrate.stdout
                              ("Connecting to database... ("
                               ++ Js.String_of_number (11 - Z.of_nat (S (S n))) ++ "/10)")
                              (Migrate.mkWorld a p s r e c)))))
            end).
    rewrite He0.
    match goal with
    | |- context [Migrate.connecting E (S n) ?w0] =>
        destruct (IH w0) as (e1 & w' & Hlast & Hrun & Ha & Hp & Hs & Hr & He)
    end.
    + cbn. apply refused_shift. exact Href.
    + exists e1, w'. cbn in *.
      split; [rewrite <- Hlast; f_equal; lia|].
      split; [exact Hrun|]. repeat split; lia || assumption.
Qed.

(** A loop that is entered leaves with a client or throws. *)
Lemma connecting_client : forall n w c w',
  Migrate.connecting E (S n) w = (Js.Resolved c, w') -> c = true.
Proof.
  induction n as [|n IH]; intros w c w'.
  - cbn [Migrate.connecting].
    destruct (Migrate.connect E _); intros H; inversion H; reflexivity.
  - change (Migrate.connecting E (S (S n)) w)
      with (match Migrate.connect E (Migrate.attempts w) with
            | Js.Resolved _ =>
                (Js.Resolved true,
                 Migrate.print Migrate.stdout "Connected successfully!"
                   (Migrate.attempt
                      (Migrate.print Migrate.stdout
                         ("Connecting to database... ("
                          ++ Js.String_of_number (11 - Z.of_nat (S (S n))) ++ "/10)") w)))
            | Js.Rejected error =>
                Migrate.connecting E (S n)
                  (Migrate.pause
                     (Migrate.print Migrate.stdout
                        ("Connection failed, retrying in 2 seconds... ("
                         ++ Js.String_of_nat (S n) ++ " attempts left)")
                        (Migrate.attempt
                           (Migrate.print Migrate.stdout
                              ("Connecting to database... ("
                               ++ Js.String_of_number (11 - Z.of_nat (S (S n))) ++ "/10)")
                              w))))
            end).
    destruct (Migrate.connect E _).
    + intros H; inversion H; reflexivity.
    + apply IH.
Qed.

(** The loop tries at most as often as it has retries, and touches
    nothing but the connection. *)
Lemma connecting_bound : forall n w,
  (Migrate.attempts (snd (Migrate.connecting E n w)) <= Migrate.attempts w + n)%nat
  /\ (Migrate.pauses (snd (Migrate.connecting E n w)) <= Migrate.pauses w + pred n)%nat
  /\ Migrate.sent (snd (Migrate.connecting E n w)) = Migrate.sent w
  /\ Migrate.released (snd (Migrate.connecting E n w)) = Migrate.released w
  /\ Migrate.ended (snd (Migrate.connecting E n w)) = Migrate.ended w.
Proof.
  induction n as [|n IH]; intros w.
  - cbn. repeat split; lia.
  - destruct w as [a p s r e c].
    cbn [Migrate.connecting Migrate.print Migrate.attempts].
    destruct (Migrate.connect E a).
    + cbn. repeat split; lia.
    + destruct n as [|n]; [cbn; repeat split; lia|].
      match goal with
      | |- context [Migrate.connecting E (S n) ?w0] =>
          destruct (IH w0) as (Ha & Hp & Hs & Hr & He)
      end.
      cbn in *. repeat split; lia || assumption.
Qed.

(** What [migrate] does once the connection loop is over counts no more
    attempts. *)
Lemma migrate_after_connecting w r w1 :
  Props.configured E ->
  Migrate.connecting E 10 w = (r, w1) ->
  Migrate.attempts (snd (Migrate.migrate E w)) = Migrate.attempts w1
  /\ Migrate.pauses (snd (Migrate.migrate E w)) = Migrate.pauses w1
  /\ (forall e, r = Js.Rejected e -> Migrate.migrate E w = (Migrate.Unhandled e, w1)).
Proof.
  intros (url & Hurl & Hne) Hrun.
  unfold Migrate.migrate. rewrite Hurl.
  apply String.eqb_neq in Hne. unfold Js.truthy_string. rewrite Hne. cbn [negb].
  rewrite Hrun. destruct r as [client|e0].
  2: { cbn. repeat split. intros e H. congruence. }
  destruct w1 as [a p s rl en c].
  split; [|split; [|discriminate]].
  all: destruct (Migrate.existsSync E (Migrate.schema_path E)); cbn [negb]; [|reflexivity].
  all: destruct (Migrate.readFileSync E (Migrate.schema_path E)) as [schema|e1];
    unfold Migrate.failed.
  all: destruct client.
  all: repeat match goal with
         | |- context [Migrate.stack_of E ?e] => destruct (Migrate.stack_of E e) as [stack|]
         | |- context [Js.truthy_string ?x] => destruct (Js.truthy_string x)
         | |- context [Migrate.query E ?x] => destruct (Migrate.query E x)
         | |- context [Migrate.pool_end E] => destruct (Migrate.pool_end E)
         end; reflexivity.
Qed.

End MigrateFacts.

Lemma schema_path_first (E : Migrate.env) :
  Migrate.existsSync E (Migrate.schema_path E) = true ->
  Props.first_existing E (Migrate.schema_path E).
Proof.
  unfold Migrate.schema_path, Props.first_existing.
  destruct (Migrate.existsSync E Migrate.beside_scripts) eqn:E1; cbn [negb].
  - rewrite E1. cbn [negb]. auto.
  - destruct (Migrate.existsSync E Migrate.above_dist) eqn:E2; cbn [negb]; auto.
Qed.

Lemma configured_cases (E : Migrate.env) :
  Props.configured E
  \/ (~ Props.configured E
      /\ forall w, Migrate.migrate E w
                   = (Migrate.Exited 1,
                      Migrate.print Migrate.stderr
                        "Error: DATABASE_URL environment variable is not set" w)).
Proof.
  unfold Props.configured, Migrate.migrate.
  destruct (Migrate.DATABASE_URL E) as [url|].
  - unfold Js.truthy_string. destruct (String.eqb_spec url "") as [->|Hne]; cbn [negb].
    + right. split; [|reflexivity]. intros (u & Hu & Hne). congruence.
    + left. eauto.
  - right. split; [|reflexivity]. intros (u & Hu & _). discriminate.
Qed.

(** The migration retries the connection: it makes at most ten attempts,
    pausing between them, and stops at the first that succeeds; when all
    ten are refused, [migrate] rejects with the error of the tenth, which
    nothing handles, having sent nothing to the server; the pool is not
    closed on that path. *)
Theorem migrate_retries_connection (E : Migrate.env) (w : Migrate.world) :
  Props.configured E ->
  let w' := snd (Migrate.migrate E w) in
  ((Migrate.attempts w' <= Migrate.attempts w + 10)%nat
   /\ (Migrate.pauses w' <= Migrate.pauses w + 9)%nat)
  /\ (forall k,
        (k < 10)%nat ->
        Props.refused E (Migrate.attempts w) k ->
        Migrate.connect E (Migrate.attempts w + k) = Js.Resolved tt ->
        Migrate.attempts w' = (Migrate.attempts w + S k)%nat
        /\ Migrate.pauses w' = (Migrate.pauses w + k)%nat
        /\ forall e, fst (Migrate.migrate E w) = Migrate.Unhandled e ->
                     Migrate.pool_end E = Js.Rejected e)
  /\ (Props.refused E (Migrate.attempts w) 10 ->
      exists e,
        Migrate.connect E (Migrate.attempts w + 9) = Js.Rejected e
        /\ fst (Migrate.migrate E w) = Migrate.Unhandled e
        /\ Migrate.attempts w' = (Migrate.attempts w + 10)%nat
        /\ Migrate.pauses w' = (Migrate.pauses w + 9)%nat
        /\ Migrate.sent w' = Migrate.sent w
        /\ Migrate.ended w' = Migrate.ended w).
Proof.
  intros Hconf w'. subst w'.
  destruct (Migrate.connecting E 10 w) as [r w1] eqn:Hrun.
  destruct (migrate_after_connecting E w r w1 Hconf Hrun) as (Ha & Hp & Hrej).
  rewrite Ha, Hp.
  split; [|split].
  - pose proof (connecting_bound E 10 w) as (Hb1 & Hb2 & _).
    rewrite Hrun in Hb1, Hb2. cbn [snd pred] in Hb1, Hb2. split; assumption.
  - intros k Hk Href Hok.
    destruct (connecting_succeeds E 10 w k Hk Href Hok) as (w2 & Hrun2 & Ha2 & Hp2 & _).
    rewrite Hrun in Hrun2. injection Hrun2 as -> ->.
    split; [exact Ha2|]. split; [exact Hp2|].
    intros e. destruct Hconf as (url & Hurl & Hne).
    unfold Migrate.migrate. rewrite Hurl.
    apply String.eqb_neq in Hne. unfold Js.truthy_string. rewrite Hne. cbn [negb].
    rewrite Hrun.
    destruct (Migrate.existsSync E (Migrate.schema_path E)); cbn [negb fst];
      [|discriminate].
    destruct (Migrate.readFileSync E (Migrate.schema_path E)) as [schema|e1];
      [|discriminate].
    destruct (Migrate.query E schema); [|discriminate].
    destruct (Migrate.pool_end E); cbn [fst]; [discriminate|].
    intros H. injection H as ->. reflexivity.
  - intros Href.
    destruct (connecting_gives_up E 9 w Href)
      as (e & w2 & Hlast & Hrun2 & Ha2 & Hp2 & Hs2 & _ & He2).
    rewrite Hrun in Hrun2. injection Hrun2 as -> ->.
    exists e. rewrite (Hrej e eq_refl). cbn [fst snd]. repeat split; assumption.
Qed.

(** A database that comes up at the third attempt, and one that never
    does. *)
Lemma migrate_retries_connection_witness :
  (Migrate.attempts (snd (Migrate.migrate Sample.deployment Migrate.start)) = 3%nat
   /\ Migrate.pauses (snd (Migrate.migrate Sample.deployment Migrate.start)) = 2%nat)
  /\ fst (Migrate.migrate Sample.database_down Migrate.start)
     = Migrate.Unhandled Sample.connection_lost.
Proof.
  split.
  - destruct (proj1 (proj2 (migrate_retries_connection Sample.deployment Migrate.start
                              ltac:(eexists; split; [reflexivity|discriminate])))
                2%nat) as (Ha & Hp & _).
    + lia.
    + intros i Hi. exists Sample.connection_lost.
      destruct i as [|[|i]]; [reflexivity|reflexivity|lia].
    + reflexivity.
    + split; [exact Ha|exact Hp].
  - destruct (proj2 (proj2 (migrate_retries_connection Sample.database_down Migrate.start
                              ltac:(eexists; split; [reflexivity|discriminate]))))
      as (e & Hlast & Hres & _).
    + intros i Hi. exists Sample.connection_lost. reflexivity.
    + rewrite Hres. f_equal. cbn in Hlast. congruence.
Defined.

(** [migrate] resolves only after the schema went through: the database
    URL is set, the schema was read from the first of the three locations
    that holds it, the server accepted it, and then, in this order, the
    text was sent once, the client released and the pool closed. *)
Theorem migrate_returns_only_after_schema (E : Migrate.env) (w : Migrate.world) :
  fst (Migrate.migrate E w) = Migrate.Returned ->
  let w' := snd (Migrate.migrate E w) in
  Props.configured E
  /\ Props.first_existing E (Migrate.schema_path E)
  /\ exists schema,
       Migrate.readFileSync E (Migrate.schema_path E) = Js.Resolved schema
       /\ Migrate.query E schema = Js.Resolved tt
       /\ Migrate.pool_end E = Js.Resolved tt
       /\ Migrate.sent w' = Migrate.sent w ++ [schema]
       /\ Migrate.released w' = S (Migrate.released w)
       /\ Migrate.ended w' = S (Migrate.ended w).
Proof.
  intros Hret w'. subst w'.
  destruct (configured_cases E) as [Hconf|[_ Hexit]];
    [|rewrite Hexit in Hret; discriminate].
  split; [exact Hconf|].
  pose proof (connecting_bound E 10 w) as (_ & _ & Hs & Hr & He).
  revert Hret. destruct Hconf as (url & Hurl & Hne).
  unfold Migrate.migrate. rewrite Hurl.
  apply String.eqb_neq in Hne. unfold Js.truthy_string. rewrite Hne. cbn [negb].
  destruct (Migrate.connecting E 10 w) as [[client|e0] w1]; [|discriminate].
  cbn [snd] in Hs, Hr, He.
  destruct (Migrate.existsSync E (Migrate.schema_path E)) eqn:Hex; cbn [negb fst];
    [|discriminate].
  split; [apply schema_path_first; exact Hex|].
  revert Hret.
  destruct (Migrate.readFileSync E (Migrate.schema_path E)) as [schema|e1];
    [|discriminate].
  destruct client; [|discriminate].
  destruct (Migrate.query E schema) as [[]|e2] eqn:Hq; [|discriminate].
  destruct (Migrate.pool_end E) as [[]|e3] eqn:Hend; [|discriminate].
  intros _. exists schema. destruct w1 as [a p s r e c]. cbn in *.
  repeat split; congruence.
Qed.

(** The sample deployment, migrated. *)
Lemma migrate_returns_only_after_schema_witness :
  Migrate.sent (snd (Migrate.migrate Sample.deployment Migrate.start))
  = ["CREATE TABLE analyses ();"]
  /\ Migrate.ended (snd (Migrate.migrate Sample.deployment Migrate.start)) = 1%nat.
Proof.
  destruct (migrate_returns_only_after_schema Sample.deployment Migrate.start eq_refl)
    as (_ & _ & schema & Hread & _ & _ & Hsent & _ & Hended).
  split; [|exact Hended].
  rewrite Hsent. cbn in Hread. injection Hread as <-. reflexivity.
Defined.

(** When the migration ends the process, the code is 1 and the [finally]
    block is not reached: the pool is not closed and the client is not
    released, whether the failure came before the schema was sent or was
    the server refusing it; without a database URL nothing is attempted. *)
Theorem migrate_exit_skips_finally
  (E : Migrate.env) (w : Migrate.world) (code : nat) :
  fst (Migrate.migrate E w) = Migrate.Exited code ->
  let w' := snd (Migrate.migrate E w) in
  code = 1%nat
  /\ Migrate.ended w' = Migrate.ended w
  /\ Migrate.released w' = Migrate.released w
  /\ (Migrate.sent w' = Migrate.sent w
      \/ exists schema e,
           Migrate.sent w' = Migrate.sent w ++ [schema]
           /\ Migrate.query E schema = Js.Rejected e)
  /\ (~ Props.configured E -> Migrate.attempts w' = Migrate.attempts w).
Proof.
  intros Hexit w'. subst w'.
  destruct (configured_cases E) as [Hconf|[Hnot Hmissing]].
  2: { rewrite Hmissing in *. cbn [fst snd] in *. injection Hexit as <-.
       destruct w; cbn. auto 6. }
  pose proof (connecting_bound E 10 w) as (_ & _ & Hs & Hr & He).
  destruct (Migrate.migrate E w) as [res wf] eqn:Hm. cbn [fst snd] in *. subst res.
  revert Hm. destruct Hconf as (url & Hurl & Hne).
  assert (Hconf : Props.configured E) by (exists url; auto).
  unfold Migrate.migrate. rewrite Hurl.
  apply String.eqb_neq in Hne. unfold Js.truthy_string at 1. rewrite Hne. cbn [negb].
  destruct (Migrate.connecting E 10 w) as [[client|e0] w1]; [|discriminate].
  cbn [snd] in Hs, Hr, He. destruct w1 as [a p s r e c]. cbn in Hs, Hr, He. subst.
  destruct (Migrate.existsSync E (Migrate.schema_path E)); cbn [negb].
  2: { intros H. injection H as <- <-. cbn. split; [reflexivity|].
       repeat split; auto. intros; contradiction. }
  unfold Migrate.failed.
  destruct (Migrate.readFileSync E (Migrate.schema_path E)) as [schema|e1].
  2: { intros H. injection H as <- <-. split; [reflexivity|].
       destruct (Migrate.stack_of E e1) as [stack|];
         [destruct (Js.truthy_string stack)|]; cbn; repeat split; auto;
         intros; contradiction. }
  destruct client.
  2: { intros H. injection H as <- <-. split; [reflexivity|].
       destruct (Migrate.stack_of E _) as [stack|];
         [destruct (Js.truthy_string stack)|]; cbn; repeat split; auto;
         intros; contradiction. }
  destruct (Migrate.query E schema) as [[]|e2] eqn:Hq.
  - destruct (Migrate.pool_end E); discriminate.
  - intros H. injection H as <- <-. split; [reflexivity|].
    destruct (Migrate.stack_of E e2) as [stack|];
      [destruct (Js.truthy_string stack)|]; cbn;
      (split; [reflexivity|]); (split; [reflexivity|]);
      (split; [right; eauto|intros; contradiction]).
Qed.

(** A server that refuses the schema. *)
Lemma migrate_exit_skips_finally_witness :
  fst (Migrate.migrate Sample.schema_refused Migrate.start) = Migrate.Exited 1
  /\ Migrate.ended (snd (Migrate.migrate Sample.schema_refused Migrate.start)) = 0%nat
  /\ Migrate.released (snd (Migrate.migrate Sample.schema_refused Migrate.start)) = 0%nat.
Proof.
  destruct (migrate_exit_skips_finally Sample.schema_refused Migrate.start 1 eq_refl)
    as (_ & He & Hr & _).
  split; [reflexivity|]. split; [exact He|exact Hr].
Defined.
